(** * Verification of the puplookup export service

    A shallow embedding of [app/services/export_service.py], of
    [app/services/sync_service.py] with the clients it calls, and of the
    helpers of [app/utils/utils.py], with the theorems that settle the
    specification's claims and further properties of the code.

    Conventions of the embedding.
    - A Python [str] is a Rocq [string]; each [ascii] stands for one code
      point in the range 0..255, and the Python string methods are modelled
      exactly on that range (white space, digits and case mapping follow
      the Unicode tables restricted to it).  String literals of this file
      are ASCII.
    - A Python list is a Rocq [list]; indexing and item assignment raise
      [IndexError] out of range, as in Python, through the [result] monad.
    - A [dict] keyed by strings is a [gmap string _].
    - Exceptions are values of [exn], threaded by [result].
    - The values [json.load] yields are held in records at the types the
      code tests for (section "The metadata database").
    - The file system is a state; a computation returns the states it makes
      the file system go through, so that what a concurrent reader can
      observe is a list of file contents (section "Files").

    The definitions come first: the program, then the properties in the
    words of the specification and the sample data; the facts follow, each
    group in a section of its own, then the claims of the specification,
    and further properties of the code close the file. *)

From Stdlib Require Import Ascii String ZArith Sorted.
From stdpp Require Import gmap strings list pretty.

(** ** Exceptions *)

Inductive exn : Type :=
  | IndexError
  | DataValidationError (msg : string)
  | UnicodeDecodeError
  | JSONDecodeError
  | CsvError                      (* [_csv.Error] *)
  | OSError
  | UnicodeEncodeError.

Inductive result (A : Type) : Type :=
  | Ok (a : A)
  | Raise (e : exn).
Arguments Ok {A} a.
Arguments Raise {A} e.

Global Instance result_ret : MRet result := λ A a, Ok a.
Global Instance result_bind : MBind result := λ A B k m,
  match m with
  | Ok a => k a
  | Raise e => Raise e
  end.

Definition raises {A} (m : result A) : Prop := ∃ e, m = Raise e.

(** One step of a computation in [result]: the bind of a known outcome. *)
Ltac run := cbn [mbind result_bind].

(** ** Python strings *)

Module Py.

(** [str.isspace] on one code point below 256: TAB..CR, FS..US, SPACE,
    NEL (0x85) and NBSP (0xA0). *)
Definition isspace (c : ascii) : bool :=
  let n := N_of_ascii c in
  ((9 <=? n) && (n <=? 13) || (28 <=? n) && (n <=? 32)
   || (n =? 133) || (n =? 160))%N.

(** The regular-expression class [\d] on a [str] pattern: the decimal
    digits; below 256 these are 0..9 only. *)
Definition isdigit (c : ascii) : bool :=
  let n := N_of_ascii c in ((48 <=? n) && (n <=? 57))%N.

(** [str.lower] on one code point below 256: A..Z and the Latin-1 capitals
    0xC0..0xDE (0xD7, the multiplication sign, excepted) move up by 32. *)
Definition lower_char (c : ascii) : ascii :=
  let n := N_of_ascii c in
  if ((65 <=? n) && (n <=? 90)
      || (192 <=? n) && (n <=? 222) && negb (n =? 215))%N
  then ascii_of_N (n + 32) else c.

Fixpoint lower (s : string) : string :=
  match s with
  | EmptyString => EmptyString
  | String c s' => String (lower_char c) (lower s')
  end.

(** Truth value of a string: non-empty. *)
Definition truthy (s : string) : bool :=
  match s with EmptyString => false | String _ _ => true end.

Fixpoint lstrip (s : string) : string :=
  match s with
  | EmptyString => EmptyString
  | String c s' => if isspace c then lstrip s' else s
  end.

Fixpoint rstrip (s : string) : string :=
  match s with
  | EmptyString => EmptyString
  | String c s' =>
      let r := rstrip s' in
      if isspace c && negb (truthy r) then EmptyString else String c r
  end.

Definition strip (s : string) : string := rstrip (lstrip s).

Fixpoint all_chars (p : ascii → bool) (s : string) : bool :=
  match s with
  | EmptyString => true
  | String c s' => p c && all_chars p s'
  end.

(** [s.startswith(p)] *)
Fixpoint startswith (p s : string) : bool :=
  match p, s with
  | EmptyString, _ => true
  | String a p', String b s' => if decide (a = b) then startswith p' s' else false
  | String _ _, EmptyString => false
  end.

(** [sub in s] *)
Fixpoint contains (sub s : string) : bool :=
  startswith sub s ||
  match s with
  | EmptyString => false
  | String _ s' => contains sub s'
  end.

(** [s.replace(a, b)] for one-character [a] and [b]. *)
Fixpoint replace_char (a b : ascii) (s : string) : string :=
  match s with
  | EmptyString => EmptyString
  | String c s' => String (if decide (c = a) then b else c) (replace_char a b s')
  end.

(** [s.split(sep, 1)[0]]: the part of [s] before the first occurrence of
    [sep], or [s] itself when [sep] does not occur ([sep] non-empty). *)
Fixpoint split_head (sep s : string) : string :=
  if startswith sep s then EmptyString
  else match s with
       | EmptyString => EmptyString
       | String c s' => String c (split_head sep s')
       end.

(** [sep.join(l)] *)
Fixpoint join (sep : string) (l : list string) : string :=
  match l with
  | [] => EmptyString
  | [x] => x
  | x :: l' => x +:+ sep +:+ join sep l'
  end.

(** [str(n)] for an [int]. *)
Definition str_of_int (n : Z) : string := pretty n.

(** The position [$] of a pattern compiled without flags holds at the end
    of the string and also just before a newline that ends the string:
    [chomp] removes that one newline. *)
Fixpoint chomp (s : string) : string :=
  match s with
  | EmptyString => EmptyString
  | String c EmptyString => if decide (c = "010"%char) then EmptyString else s
  | String c s' => String c (chomp s')
  end.

(** List indexing [l[i]], assignment [l[i] = x], [del l[i]] and [l[-1]]. *)
Definition getitem {A} (l : list A) (i : nat) : result A :=
  match l !! i with
  | Some x => Ok x
  | None => Raise IndexError
  end.

Definition setitem {A} (l : list A) (i : nat) (x : A) : result (list A) :=
  if decide (i < length l) then Ok (<[i := x]> l) else Raise IndexError.

Definition delitem {A} (l : list A) (i : nat) : result (list A) :=
  if decide (i < length l) then Ok (delete i l) else Raise IndexError.

Definition getlast {A} (l : list A) : result A :=
  match last l with
  | Some x => Ok x
  | None => Raise IndexError
  end.

(** [l.index(x)] on a list that holds [x]. *)
Fixpoint index (x : string) (l : list string) : nat :=
  match l with
  | [] => 0
  | y :: l' => if decide (y = x) then 0 else S (index x l')
  end.

End Py.

(** ** Module constants *)

Definition BASE_COLUMNS : list string :=
  ["GameFileName"; "GameName"; "Manufact"; "GameYear"; "NumPlayers"; "GameType";
   "Category"; "GameTheme"; "WebLinkURL"; "IPDBNum"; "AltRunMode"; "DesignedBy";
   "Author"; "GAMEVER"; "Rom"; "Tags"; "VPS-ID"].

Definition OUT_COLUMNS : list string :=
  ["GameFileName"; "GameName"; "Manufact"; "GameYear"; "NumPlayers"; "GameType";
   "Category"; "GameTheme"; "WebLinkURL"; "WebLink2URL"; "IPDBNum"; "AltRunMode";
   "DesignedBy"; "Author"; "GAMEVER"; "Rom"; "Tags"; "VPS-ID"; "WebGameID";
   "MasterID"].

(** [YEAR_RE = ^\d{4}$] under [match]. *)
Definition YEAR_RE_match (s : string) : bool :=
  let w := Py.chomp s in
  Py.all_chars Py.isdigit w && bool_decide (String.length w = 4).

(** The class [[A-Za-z0-9_-]]. *)
Definition is_id_char (c : ascii) : bool :=
  let n := N_of_ascii c in
  ((65 <=? n) && (n <=? 90) || (97 <=? n) && (n <=? 122)
   || (48 <=? n) && (n <=? 57) || (n =? 95) || (n =? 45))%N.

(** [VPS_ID_RE = ^[A-Za-z0-9_-]{8,}$] under [match]. *)
Definition VPS_ID_RE_match (s : string) : bool :=
  let w := Py.chomp s in
  Py.all_chars is_id_char w && bool_decide (8 ≤ String.length w).

Definition WEBLINK2_BASE : string :=
  "https://virtualpinballspreadsheet.github.io/tables".

(** ** Row Repair *)

(** One step of the folding loops of Case B:
    [shifted = (shifted + " " + tok).strip() if shifted else tok]. *)
Definition fold_token (shifted tok : string) : string :=
  if Py.truthy shifted then Py.strip (shifted +:+ " " +:+ tok) else tok.

(** Case A: 18 columns because the manufacturer was split at a comma. *)
Definition repair_case_A (row : list string) : result (list string) :=
  if decide (length row = length BASE_COLUMNS + 1) then
    r3 ← Py.getitem row 3;
    if negb (YEAR_RE_match (Py.strip r3)) then
      r4 ← Py.getitem row 4;
      if YEAR_RE_match (Py.strip r4) then
        r2 ← Py.getitem row 2;
        r3 ← Py.getitem row 3;
        row ← Py.setitem row 2 (Py.rstrip r2 +:+ ", " +:+ Py.lstrip r3);
        Py.delitem row 3
      else Ok row
    else Ok row
  else Ok row.

(** Case B: extra columns are folded into Tags, the last one is the id.
    [None] is the early [return None]. *)
Definition repair_case_B (row : list string) : result (option (list string)) :=
  if decide (length BASE_COLUMNS < length row) then
    let extras := drop (length BASE_COLUMNS) row in
    let row := take (length BASE_COLUMNS) row in
    e ← Py.getlast extras;
    let cand := Py.strip e in
    if VPS_ID_RE_match cand then
      r15 ← Py.getitem row 15;
      let shifted := Py.strip r15 in
      r16 ← Py.getitem row 16;
      let shifted :=
        if Py.truthy (Py.strip r16) && negb (VPS_ID_RE_match (Py.strip r16))
        then fold_token shifted (Py.strip r16)
        else shifted in
      let shifted :=
        fold_left (λ shifted tok,
                     let tok := Py.strip tok in
                     if Py.truthy tok then fold_token shifted tok else shifted)
                  (removelast extras) shifted in
      row ← Py.setitem row 15 shifted;
      row ← Py.setitem row 16 cand;
      Ok (Some row)
    else Ok None
  else Ok (Some row).

Definition _repair_template_row (row : list string)
  : result (option (list string)) :=
  if decide (length row < length BASE_COLUMNS) then Ok None
  else
    row ← repair_case_A row;
    orow ← repair_case_B row;
    match orow with
    | None => Ok None
    | Some row =>
        if decide (length row ≠ length BASE_COLUMNS) then Ok None
        else
          r16 ← Py.getitem row 16;
          if negb (VPS_ID_RE_match (Py.strip r16)) then Ok None
          else Ok (Some row)
    end.

(** ** The metadata database

    [json.load] yields dynamically typed values.  The records below hold
    the entries at the types the code tests for: a field that is absent or
    [null] is [None]; an element of [vpsdb] or of [tableFiles] that is not a
    [dict], and an element of [authors] or of [features] that is not a
    [str], is [None] too (the code skips them with [isinstance]).  A number
    is an integer; a float, which the code truncates with [int], and a
    value of any other type in a field are outside the model. *)

Inductive num_or_str : Type :=
  | JNum (n : Z)
  | JStr (s : string).

Inductive str_or_list (A : Type) : Type :=
  | JOne (s : string)
  | JList (l : list A).
Arguments JOne {A} s.
Arguments JList {A} l.

Record TableFile : Type := {
  f_id : option string;
  f_game_id : option string;      (* tf["game"]["id"] *)
  f_edition : option string;
  f_gameFileName : option string;
  f_authors : option (str_or_list (option string));
  f_version : option string;
  f_features : option (list (option string));
  f_createdAt : option Z;
}.

Record Game : Type := {
  g_id : option string;
  g_name : option string;
  g_manufacturer : option string;
  g_year : option num_or_str;
  g_players : option num_or_str;
  g_type : option string;
  g_theme : option (str_or_list string);
  g_designers : option (str_or_list string);
  g_ipdbUrl : option string;
  g_tableFiles : option (list (option TableFile));
}.

(** [x or ""] for an optional string. *)
Definition or_empty (o : option string) : string := default "" o.

(** [a or b] on strings. *)
Definition str_or (a b : string) : string := if Py.truthy a then a else b.

Definition strings_of (l : list (option string)) : list string :=
  omap id l.

Definition _norm_weblink (url : string) : string :=
  if negb (Py.truthy url) then ""
  else
    let u := Py.strip url in
    if bool_decide (Py.lower u ∈ ["not available"; "n/a"; "na"; "none"]) then ""
    else if negb (Py.contains "ipdb.org" (Py.lower u)) then ""
    else u.

Fixpoint take_digits (s : string) : string :=
  match s with
  | EmptyString => EmptyString
  | String c s' => if Py.isdigit c then String c (take_digits s') else EmptyString
  end.

Fixpoint skip (n : nat) (s : string) : string :=
  match n, s with
  | S n', String _ s' => skip n' s'
  | _, _ => s
  end.

(** One alternative of [(?:id=|machine\.cgi\?id=)(\d+)] tried at the head of
    [s]: the literal, then at least one digit. *)
Definition literal_then_digits (lit s : string) : option string :=
  if Py.startswith lit s then
    let d := take_digits (skip (String.length lit) s) in
    if Py.truthy d then Some d else None
  else None.

Fixpoint search_ipdb_id (s : string) : option string :=
  match literal_then_digits "id=" s with
  | Some d => Some d
  | None =>
      match literal_then_digits "machine.cgi?id=" s with
      | Some d => Some d
      | None =>
          match s with
          | EmptyString => None
          | String _ s' => search_ipdb_id s'
          end
      end
  end.

Definition _parse_ipdb_num (ipdb_url : string) : string :=
  if negb (Py.truthy ipdb_url) then ""
  else default "" (search_ipdb_id ipdb_url).

Definition _excluded_feature (feature : string) : bool :=
  let f := Py.strip feature in
  Py.startswith "incl." (Py.lower f) || bool_decide (f = "no ROM").

Definition _weblink2 (master_id vps_id : string) : string :=
  if negb (Py.truthy master_id) || negb (Py.truthy vps_id) then ""
  else WEBLINK2_BASE +:+ "?game=" +:+ master_id
       +:+ "&fileType=tables&fileId=" +:+ vps_id.

Definition _sanitize_filename_part (s : string) : string :=
  Py.replace_char "/" "_" s.

Record TableCtx : Type := {
  game_id : string;
  game_name : string;
  manufacturer : string;
  year : string;
  players : string;
  game_type : string;
  theme : string;
  designers : string;
  ipdb_url : string;
  ipdb_num : string;
  authors : list string;
  version : string;
  tags_list : list string;
  edition : string;
  created_at : Z;
  tf_index : nat;
  tf_gamefile_name : string;
}.

Definition num_str (o : option num_or_str) : string :=
  match o with
  | None => ""
  | Some (JNum n) => Py.str_of_int n
  | Some (JStr s) => s
  end.

(** Lines 150-157 of [_build_indexes]: the composed display name. *)
Definition compose_game_name (base_name edition manuf year_s : string) : string :=
  let name_with_ed :=
    if Py.truthy edition
       && negb (Py.contains (Py.lower edition) (Py.lower base_name))
    then base_name +:+ " - " +:+ edition
    else base_name in
  if Py.truthy manuf && Py.truthy year_s
  then name_with_ed +:+ " (" +:+ manuf +:+ " " +:+ year_s +:+ ")"
  else name_with_ed.

(** The [TableCtx] built by the body of the inner loop of [_build_indexes]
    for the table file [tf] at position [idx] of the game [g]. *)
Definition table_ctx (g : Game) (idx : nat) (tf : TableFile) : TableCtx :=
  let base_name := or_empty (g_name g) in
  let manuf := or_empty (g_manufacturer g) in
  let year_s := num_str (g_year g) in
  let players_s := num_str (g_players g) in
  let gtype := or_empty (g_type g) in
  let theme_s :=
    match g_theme g with
    | Some (JList l) => Py.join ", " l
    | Some (JOne s) => s
    | None => ""
    end in
  let designers_s :=
    match g_designers g with
    | Some (JList l) => Py.join ", " l
    | _ => ""
    end in
  let ipdb_url := _norm_weblink (or_empty (g_ipdbUrl g)) in
  let ipdb_num := _parse_ipdb_num ipdb_url in
  let edition := or_empty (f_edition tf) in
  let tf_gamefile_name := or_empty (f_gameFileName tf) in
  let game_name := compose_game_name base_name edition manuf year_s in
  let authors :=
    match f_authors tf with
    | None => []
    | Some (JOne s) => if Py.truthy s then [s] else []
    | Some (JList l) => strings_of l
    end in
  let version := or_empty (f_version tf) in
  let feats := default [] (f_features tf) in
  let tags_list :=
    filter (λ f, Py.truthy (Py.strip f) && negb (_excluded_feature f) = true)
           (strings_of feats) in
  let created_at := default 0%Z (f_createdAt tf) in
  {| game_id := str_or (or_empty (f_game_id tf)) (str_or (or_empty (g_id g)) "");
     game_name := game_name;
     manufacturer := manuf;
     year := year_s;
     players := players_s;
     game_type := gtype;
     theme := theme_s;
     designers := designers_s;
     ipdb_url := ipdb_url;
     ipdb_num := ipdb_num;
     authors := authors;
     version := version;
     tags_list := tags_list;
     edition := edition;
     created_at := created_at;
     tf_index := idx;
     tf_gamefile_name := tf_gamefile_name |}.

(** [enumerate(l)] *)
Definition enumerate {A} (l : list A) : list (nat * A) :=
  imap (λ i x, (i, x)) l.

(** The inner loop of [_build_indexes] over one game. *)
Definition index_game (out : gmap string TableCtx) (g : Game)
  : gmap string TableCtx :=
  foldl (λ out '(idx, otf),
           match otf with
           | None => out
           | Some tf =>
               match f_id tf with
               | None => out
               | Some vid =>
                   if negb (Py.truthy vid) then out
                   else <[vid := table_ctx g idx tf]> out
               end
           end)
        out (enumerate (default [] (g_tableFiles g))).

Definition _build_indexes (vpsdb : list (option Game)) : gmap string TableCtx :=
  foldl (λ out og, match og with None => out | Some g => index_game out g end)
        ∅ vpsdb.

Definition master_game (out : gmap string string) (g : Game)
  : gmap string string :=
  let gid := or_empty (g_id g) in
  foldl (λ out otf,
           match otf with
           | None => out
           | Some tf =>
               match f_id tf with
               | None => out
               | Some vid =>
                   if negb (Py.truthy vid) then out
                   else <[vid := str_or (or_empty (f_game_id tf)) gid]> out
               end
           end)
        out (default [] (g_tableFiles g)).

Definition _build_master_map (vpsdb : list (option Game)) : gmap string string :=
  foldl (λ out og, match og with None => out | Some g => master_game out g end)
        ∅ vpsdb.

Definition _build_gamefile_name (ctx : TableCtx) : string :=
  if Py.truthy (tf_gamefile_name ctx) then tf_gamefile_name ctx
  else
    let base := _sanitize_filename_part (game_name ctx) in
    let author_part :=
      match authors ctx with
      | [] => ""
      | a :: _ => a
      end in
    let s := base in
    let s :=
      if Py.truthy author_part
      then s +:+ " " +:+ author_part +:+ " " +:+ str_or (version ctx) ""
      else if Py.truthy (version ctx) then s +:+ " " +:+ version ctx else s in
    let s := if bool_decide ("MOD" ∈ tags_list ctx) then s +:+ " MOD" else s in
    let s := if bool_decide ("VR" ∈ tags_list ctx) then s +:+ " VR" else s in
    s.

(** ** Ordering *)

(** The tuples [_sort_key_for_ctx] builds. *)
Definition sort_key : Type := string * Z * Z * Z.

Definition _sort_key_for_ctx (ctx : TableCtx) : sort_key :=
  let prefix := Py.split_head " (" (game_name ctx) in
  (prefix, (- created_at ctx)%Z,
   if negb (Py.truthy (edition ctx)) then 0%Z else 1%Z,
   Z.of_nat (tf_index ctx)).

(** Python's [<] on such tuples: the first component that differs decides;
    strings compare by code point. *)
Definition key_lt (a b : sort_key) : bool :=
  let '(s1, t1, e1, p1) := a in
  let '(s2, t2, e2, p2) := b in
  if decide (s1 = s2) then
    if decide (t1 = t2) then
      if decide (e1 = e2) then (p1 <? p2)%Z else (e1 <? e2)%Z
    else (t1 <? t2)%Z
  else String.ltb s1 s2.

(** [sorted(data, key=key)]: the keys are computed once, the sort is stable
    and uses [<] only.  A stable insertion sort gives the same list. *)
Fixpoint insert_keyed {A} (x : sort_key * A) (l : list (sort_key * A))
  : list (sort_key * A) :=
  match l with
  | [] => [x]
  | y :: l' => if key_lt y.1 x.1 then y :: insert_keyed x l' else x :: l
  end.

Definition sort_keyed {A} (l : list (sort_key * A)) : list (sort_key * A) :=
  foldr insert_keyed [] l.

(** ** Field Enricher and row generation *)

(** [dict(zip(keys, values))]: a later pair overwrites an earlier one. *)
Definition dict_zip (keys values : list string) : gmap string string :=
  foldl (λ m '(k, v), <[k := v]> m) ∅ (zip keys values).

(** [[out.get(c, "") for c in BASE_COLUMNS]] with the second web link
    inserted after [WebLinkURL], then the id and the master id. *)
Definition assemble (out : gmap string string) (wl2 vps_id master : string)
  : list string :=
  let base_out := (λ c, default "" (out !! c)) <$> BASE_COLUMNS in
  let wl_idx := Py.index "WebLinkURL" BASE_COLUMNS in
  take (wl_idx + 1) base_out ++ [wl2] ++ drop (wl_idx + 1) base_out
    ++ [vps_id; master].

(** The body of the first loop of [_generate_rows]. *)
Definition enrich_row (ctx_by_vpsid : gmap string TableCtx)
    (master_by_vpsid : gmap string string) (trow : list string)
  : result (list string) :=
  vps_id ← Py.getitem trow (Py.index "VPS-ID" BASE_COLUMNS);
  match ctx_by_vpsid !! vps_id with
  | None =>
      let master := "" in
      let wl2 := "" in
      let out := dict_zip BASE_COLUMNS trow in
      Ok (assemble out wl2 vps_id master)
  | Some ctx =>
      let master := default (game_id ctx) (master_by_vpsid !! vps_id) in
      let wl2 := if Py.truthy master then _weblink2 master vps_id else "" in
      let out := dict_zip BASE_COLUMNS trow in
      let out := <["GameName" := game_name ctx]> out in
      let out := <["Manufact" := manufacturer ctx]> out in
      let out := <["GameYear" := year ctx]> out in
      let out := <["NumPlayers" := players ctx]> out in
      let out := <["GameType" := game_type ctx]> out in
      let out := <["GameTheme" := theme ctx]> out in
      let out := <["WebLinkURL" := ipdb_url ctx]> out in
      let out := <["IPDBNum" := ipdb_num ctx]> out in
      let out := <["DesignedBy" := designers ctx]> out in
      let out := <["Author" := Py.join ", " (authors ctx)]> out in
      let out := <["GAMEVER" := version ctx]> out in
      let out := <["Tags" := Py.join ", " (tags_list ctx)]> out in
      let out := <["GameFileName" := _build_gamefile_name ctx]> out in
      Ok (assemble out wl2 vps_id master)
  end.

(** The local function [key] of [_generate_rows]. *)
Definition row_key (ctx_by_vpsid : gmap string TableCtx) (row : list string)
  : result sort_key :=
  vid ← Py.getitem row (Py.index "VPS-ID" OUT_COLUMNS);
  match ctx_by_vpsid !! vid with
  | None => Ok ("", 0%Z, 0%Z, 9999%Z)
  | Some ctx => Ok (_sort_key_for_ctx ctx)
  end.

(** [for x in l: out.append(f(x))] with [f] that may raise. *)
Fixpoint for_each {A B} (f : A → result B) (l : list A) : result (list B) :=
  match l with
  | [] => Ok []
  | x :: l' => y ← f x; ys ← for_each f l'; Ok (y :: ys)
  end.

Definition _generate_rows (template_rows : list (list string))
    (ctx_by_vpsid : gmap string TableCtx) (master_by_vpsid : gmap string string)
  : result (list (list string)) :=
  data ← for_each (enrich_row ctx_by_vpsid master_by_vpsid) template_rows;
  keyed ← for_each (λ row, k ← row_key ctx_by_vpsid row; Ok (k, row)) data;
  Ok (OUT_COLUMNS :: (sort_keyed keyed).*2).

(** ** Files

    The two cached input files are represented by what the library readers
    make of them.

    [csv.reader] over the decoded stream of the lookup file delivers rows
    one at a time, and the iteration ends at the end of the file
    ([CsvRows rows]) or with an error ([CsvFails rows e]) that the decoder
    raises on bytes that are not UTF-8, or the reader itself ([_csv.Error]:
    a field longer than the field limit, for one), once it has delivered
    [rows].  The code sees the rows in this order, so that what it does
    with a row comes before the error of a later one.

    [json.load] reads and decodes the whole metadata file and then parses
    it: it yields an array or another JSON value, or it fails on bytes that
    are not UTF-8 or on text that is not JSON.  Every other file is its
    bytes. *)

Inductive read_error : Type :=
  | DecodeError                   (* [UnicodeDecodeError] *)
  | FormatError.                  (* [_csv.Error] *)

Definition read_exn (e : read_error) : exn :=
  match e with
  | DecodeError => UnicodeDecodeError
  | FormatError => CsvError
  end.

Inductive lookup_file : Type :=
  | CsvRows (rows : list (list string))
  | CsvFails (rows : list (list string)) (e : read_error).

Inductive json_doc : Type :=
  | JsonArray (games : list (option Game))
  | JsonNotArray
  | JsonInvalid
  | JsonUndecodable.

(** What the operating system makes of the write of the export.
    [OpenFails]: [mkdir] or [open] raises [OSError] and the destination is
    as it was.  [WriteFails written e]: the destination has been opened,
    and so truncated, and its first [written] bytes have reached it when
    [writerows], or the closing of the file, raises: [OSError] (a full
    disk, say), or [UnicodeEncodeError] for a character that has no UTF-8
    encoding (a lone surrogate of the metadata; the strings of this model
    hold none, the fault stands for it). *)
Inductive write_error : Type :=
  | DiskError
  | EncodeError.

Definition write_exn (e : write_error) : exn :=
  match e with
  | DiskError => OSError
  | EncodeError => UnicodeEncodeError
  end.

Inductive write_fault : Type :=
  | OpenFails
  | WriteFails (written : nat) (e : write_error).

Record FS : Type := {
  puplookup_csv : option lookup_file;   (* data_dir / "puplookup.csv" *)
  vpsdb_json : option json_doc;         (* data_dir / "vpsdb.json" *)
  files : gmap string string;           (* the other paths *)
  fault : option write_fault;           (* [None]: the write goes through *)
}.

Definition set_file (path data : string) (fs : FS) : FS :=
  {| puplookup_csv := puplookup_csv fs;
     vpsdb_json := vpsdb_json fs;
     files := <[path := data]> (files fs);
     fault := fault fs |}.

Definition remove_file (path : string) (fs : FS) : FS :=
  {| puplookup_csv := puplookup_csv fs;
     vpsdb_json := vpsdb_json fs;
     files := delete path (files fs);
     fault := fault fs |}.

(** A computation on the file system: the states the file system goes
    through, one per write effect and in order, and the outcome. *)
Definition io (A : Type) : Type := FS → list FS * result A.

(** The file system once the computation has stopped. *)
Definition final_state (fs : FS) (trace : list FS) : FS := default fs (last trace).

(** [Path / name] *)
Definition path_join (dir name : string) : string := dir +:+ "/" +:+ name.

(** [if fixed: repaired.append(fixed)]: [None] and the empty list are
    falsy. *)
Definition keep_fixed (fixed : option (list string)) : option (list string) :=
  match fixed with
  | Some (c :: r) => Some (c :: r)
  | _ => None
  end.

Definition _read_template_rows (csv_path : string) (f : option lookup_file)
  : result (list (list string)) :=
  match f with
  | None => Raise (DataValidationError ("Missing template CSV: " +:+ csv_path))
  | Some (CsvRows rows) =>
      match rows with
      | [] | [] :: _ => Raise (DataValidationError "Template CSV has no header row.")
      | (_ :: _) :: data =>
          fixed ← for_each _repair_template_row data;
          Ok (omap (M:=list) keep_fixed fixed)
      end
  | Some (CsvFails rows e) =>
      match rows with
      | [] => Raise (read_exn e)          (* [next(reader, None)] raises *)
      | [] :: _ => Raise (DataValidationError "Template CSV has no header row.")
      | (_ :: _) :: data =>
          fixed ← for_each _repair_template_row data;
          Raise (read_exn e)              (* the [for] loop raises *)
      end
  end.

Definition _read_vpsdb (vpsdb_path : string) (f : option json_doc)
  : result (list (option Game)) :=
  match f with
  | None => Raise (DataValidationError ("Missing vpsdb.json: " +:+ vpsdb_path))
  | Some JsonUndecodable => Raise UnicodeDecodeError
  | Some JsonInvalid => Raise JSONDecodeError
  | Some JsonNotArray =>
      Raise (DataValidationError "vpsdb.json expected to be a JSON array.")
  | Some (JsonArray games) => Ok games
  end.

(** *** The csv writer (excel dialect, [QUOTE_MINIMAL]) and the codec *)

Definition DQUOTE : ascii := "034"%char.
Definition CRLF : string := String "013"%char (String "010"%char EmptyString).

Definition special_char (c : ascii) : bool :=
  bool_decide (c ∈ [","%char; DQUOTE; "013"%char; "010"%char]).

Fixpoint double_quotes (s : string) : string :=
  match s with
  | EmptyString => EmptyString
  | String c s' =>
      if decide (c = DQUOTE) then String c (String c (double_quotes s'))
      else String c (double_quotes s')
  end.

Definition csv_field (f : string) : string :=
  if negb (Py.all_chars (λ c, negb (special_char c)) f)
  then String DQUOTE (double_quotes f) +:+ String DQUOTE EmptyString
  else f.

Definition csv_line (row : list string) : string :=
  match row with
  | [EmptyString] => String DQUOTE (String DQUOTE CRLF)
  | _ => Py.join "," (csv_field <$> row) +:+ CRLF
  end.

Fixpoint concat_strings (l : list string) : string :=
  match l with
  | [] => EmptyString
  | x :: l' => x +:+ concat_strings l'
  end.

(** UTF-8 of code points below 256. *)
Fixpoint utf8 (s : string) : string :=
  match s with
  | EmptyString => EmptyString
  | String c s' =>
      let n := N_of_ascii c in
      if (n <? 128)%N then String c (utf8 s')
      else String (ascii_of_N (192 + n / 64))
                  (String (ascii_of_N (128 + n mod 64)) (utf8 s'))
  end.

Definition BOM : string :=
  String "239"%char (String "187"%char (String "191"%char EmptyString)).

(** The bytes [w.writerows(rows)] leaves in a file opened with
    [encoding="utf-8-sig", newline=""]. *)
Definition csv_bytes (rows : list (list string)) : string :=
  match rows with
  | [] => EmptyString
  | _ => BOM +:+ utf8 (concat_strings (csv_line <$> rows))
  end.

(** The first [n] bytes of [s]. *)
Fixpoint first_bytes (n : nat) (s : string) : string :=
  match n, s with
  | S n', String c s' => String c (first_bytes n' s')
  | _, _ => EmptyString
  end.

(** [_write_csv]: [path.open("w")] creates or truncates the destination,
    and the rows reach it when the file is closed at the latest.  In a run
    that goes through, the states in which the buffer has been flushed for
    a part of the rows only are not listed: they would add observations of
    a partly written file.  A write that fails leaves what it has written.
    The directories ([mkdir]) are not part of the state. *)
Definition _write_csv (path : string) (rows : list (list string)) : io () :=
  λ fs,
    match fault fs with
    | Some OpenFails => ([], Raise OSError)
    | Some (WriteFails written e) =>
        let opened := set_file path "" fs in
        let partial :=
          set_file path (first_bytes written (csv_bytes rows)) opened in
        ([opened; partial], Raise (write_exn e))
    | None =>
        let opened := set_file path "" fs in
        let closed := set_file path (csv_bytes rows) opened in
        ([opened; closed], Ok ())
    end.

Record ExportService : Type := {
  data_dir : string;
  output_dir : string;
  output_filename : string;
}.

Definition generate_output_csv (self : ExportService) : io string :=
  λ fs,
    let template_csv := path_join (data_dir self) "puplookup.csv" in
    let vpsdb_json_path := path_join (data_dir self) "vpsdb.json" in
    match
      template_rows ← _read_template_rows template_csv (puplookup_csv fs);
      vpsdb ← _read_vpsdb vpsdb_json_path (vpsdb_json fs);
      let ctx_by_vpsid := _build_indexes vpsdb in
      let master_by_vpsid := _build_master_map vpsdb in
      _generate_rows template_rows ctx_by_vpsid master_by_vpsid
    with
    | Raise e => ([], Raise e)
    | Ok out_rows =>
        let out_path := path_join (output_dir self) (output_filename self) in
        let '(trace, r) := _write_csv out_path out_rows fs in
        (trace, _ ← r; Ok out_path)
    end.

(** [atomic_write_bytes] of [app/utils/utils.py], as it goes through: the
    bytes go to a temporary file next to the destination, which
    [os.replace] then renames over the destination. *)
Definition atomic_write_bytes (path data : string) : io () :=
  λ fs,
    let tmp := path +:+ ".tmp" in
    let opened := set_file tmp "" fs in
    let written := set_file tmp data opened in
    let replaced := set_file path data (remove_file tmp written) in
    ([opened; written; replaced], Ok ()).

(** What a reader of [path] can observe during a run started in [fs]. *)
Definition observations (path : string) (fs : FS) (trace : list FS)
  : list (option string) :=
  (λ st, files st !! path) <$> (fs :: trace).

(** The row of the specification's end-to-end example. *)
Definition example_row : list string :=
  ["file.vpx"; "Game"; "Mfg"; "2020"; "4"; "EM"; "Cat"; "Theme"; "ipdb.org?id=5";
   ""; ""; "Designer"; "Author"; "1.0"; "rom"; "tag1"; "abc12345"].

(** * The cache of the remote files

    [app/services/sync_service.py] with the clients it calls
    ([app/clients/vps_client.py], [app/clients/http_client.py]) and the
    text helpers of [app/utils/utils.py].  The sync service sees the disk
    as bytes: a map from paths to contents. *)

(** ** Text and integers *)

(** The bytes [bytes.decode("utf-8")] turns into a text of code points
    below 256; [None] for bytes that are not UTF-8, and also for the UTF-8
    of a code point above 255, which is outside the model. *)
Fixpoint utf8_decode (b : string) : option string :=
  match b with
  | EmptyString => Some EmptyString
  | String b1 rest =>
      let n1 := N_of_ascii b1 in
      if (n1 <? 128)%N then String b1 <$> utf8_decode rest
      else
        match rest with
        | EmptyString => None
        | String b2 rest' =>
            let n2 := N_of_ascii b2 in
            if ((194 <=? n1) && (n1 <=? 195) && (128 <=? n2) && (n2 <=? 191))%N
            then String (ascii_of_N ((n1 - 192) * 64 + (n2 - 128)))
                   <$> utf8_decode rest'
            else None
        end
  end.

Definition digit_of (c : ascii) : Z := (Z.of_N (N_of_ascii c) - 48)%Z.

(** The digits of an integer literal after its first digit: digits, with
    single underscores between digits ([after_underscore] tells that the
    character just read is an underscore, which a digit must follow).  The
    result is the value and the number of digits read. *)
Fixpoint int_digits (acc : Z) (count : nat) (after_underscore : bool) (s : string)
  : option (Z * nat) :=
  match s with
  | EmptyString => if after_underscore then None else Some (acc, count)
  | String c s' =>
      if Py.isdigit c then int_digits (acc * 10 + digit_of c)%Z (S count) false s'
      else if decide (c = "_"%char) then
        if after_underscore then None else int_digits acc count true s'
      else None
  end.

(** The number of digits [int] converts at most,
    [sys.int_info.default_max_str_digits] (CPython 3.11, and the releases
    of 3.7 to 3.10 that carry the limit). *)
Definition MAX_STR_DIGITS : nat := 4300.

(** [int(t)] for a text [t] that has no white space at either end, which is
    how the code calls it ([int(text.strip())]): an optional sign, then the
    digits; [None] is [ValueError]. *)
Definition int_of_stripped (t : string) : option Z :=
  let '(negative, body) :=
    match t with
    | String "-"%char r => (true, r)
    | String "+"%char r => (false, r)
    | _ => (false, t)
    end in
  match body with
  | EmptyString => None
  | String c r =>
      if Py.isdigit c then
        match int_digits (digit_of c) 1 false r with
        | Some (v, count) =>
            if decide (MAX_STR_DIGITS < count) then None
            else Some (if negative : bool then (- v)%Z else v)
        | None => None
        end
      else None
  end.

Module Sync.

(** The exceptions of the sync path; the message of [RemoteFetchError],
    which quotes the error of the HTTP library, is left out. *)
Inductive exn : Type :=
  | RemoteFetchError
  | ValueError
  | FileNotFoundError
  | UnicodeDecodeError.

Inductive attempt (A : Type) : Type :=
  | Got (a : A)
  | Failed (e : exn).
Arguments Got {A} a.
Arguments Failed {A} e.

Global Instance attempt_ret : MRet attempt := λ A a, Got a.
Global Instance attempt_bind : MBind attempt := λ A B k m,
  match m with
  | Got a => k a
  | Failed e => Failed e
  end.

(** A computation on the disk: the states the disk goes through, one per
    write effect and in order, and the outcome. *)
Definition io (A : Type) : Type :=
  gmap string string → list (gmap string string) * attempt A.

Definition last_state (d : gmap string string) (trace : list (gmap string string))
  : gmap string string :=
  default d (last trace).

Global Instance io_ret : MRet io := λ A a d, ([], Got a).
Global Instance io_bind : MBind io := λ A B k m d,
  let '(t1, r) := m d in
  match r with
  | Got a => let '(t2, r2) := k a (last_state d t1) in (t1 ++ t2, r2)
  | Failed e => (t1, Failed e)
  end.

(** A step that does not touch the disk. *)
Definition pure {A} (r : attempt A) : io A := λ d, ([], r).

(** *** [app/utils/utils.py] *)

(** The writes are modelled as they go through: an error of the operating
    system during a write is outside this model of the sync path. *)

(** [atomic_write_bytes] on a disk of bytes. *)
Definition atomic_write (path data : string) : io () :=
  λ d,
    let fs := {| puplookup_csv := None; vpsdb_json := None; files := d;
                 fault := None |} in
    (files <$> (atomic_write_bytes path data fs).1, Got ()).

(** [write_text]: [Path.write_text] opens the file for writing, which
    creates or truncates it, and writes the encoded text. *)
Definition write_text (path text : string) : io () :=
  λ d, ([<[path := ""]> d; <[path := utf8 text]> (<[path := ""]> d)], Got ()).

Definition read_text (path : string) (d : gmap string string) : attempt string :=
  match d !! path with
  | None => Failed FileNotFoundError
  | Some b =>
      match utf8_decode b with
      | Some t => Got t
      | None => Failed UnicodeDecodeError
      end
  end.

(** [Path.exists] *)
Definition file_exists (path : string) (d : gmap string string) : bool :=
  bool_decide (is_Some (d !! path)).

(** *** The clients

    What the remote answers during one call: for each of the three URLs the
    body of the response, or [None] when the request fails. *)
Record VpsClient : Type := {
  last_updated_response : option string;
  puplookup_response : option string;
  vpsdb_response : option string;
}.

(** [HttpClient.get_text] and [HttpClient.get_bytes]: every failure of the
    request is raised as [RemoteFetchError]. *)
Definition http_get (response : option string) : attempt string :=
  match response with
  | Some body => Got body
  | None => Failed RemoteFetchError
  end.

Definition fetch_last_updated_epoch_ms (self : VpsClient) : attempt Z :=
  body ← http_get (last_updated_response self);
  let txt := Py.strip (str_or body "") in
  match int_of_stripped txt with
  | Some n => Got n
  | None => Failed ValueError
  end.

Definition fetch_puplookup_csv_bytes (self : VpsClient) : attempt string :=
  http_get (puplookup_response self).

Definition fetch_vpsdb_json_bytes (self : VpsClient) : attempt string :=
  http_get (vpsdb_response self).

(** *** [app/services/sync_service.py] *)

Definition LAST_UPDATED_LOCAL_NAME : string := "lastUpdated.json".
Definition PUPLOOKUP_LOCAL_NAME : string := "puplookup.csv".
Definition VPSDB_LOCAL_NAME : string := "vpsdb.json".

Record SyncResult : Type := {
  updated : bool;
  remote_epoch_ms : Z;
  local_epoch_ms : Z;
}.

Record SyncService : Type := {
  data_dir : string;
  client : VpsClient;
}.

Definition _local_last_updated_path (self : SyncService) : string :=
  path_join (data_dir self) LAST_UPDATED_LOCAL_NAME.

(** [_local_epoch_ms]: 0 when the file is missing, and when reading or
    converting it raises. *)
Definition _local_epoch_ms (self : SyncService) (d : gmap string string) : Z :=
  let p := _local_last_updated_path self in
  if negb (file_exists p d) then 0%Z
  else
    match read_text p d with
    | Got t =>
        match int_of_stripped (Py.strip t) with
        | Some n => n
        | None => 0%Z
        end
    | Failed _ => 0%Z
    end.

Definition _download_all (self : SyncService) (remote_epoch_ms : Z) : io () :=
  pup_bytes ← pure (fetch_puplookup_csv_bytes (client self));
  vpsdb_bytes ← pure (fetch_vpsdb_json_bytes (client self));
  _ ← atomic_write (path_join (data_dir self) PUPLOOKUP_LOCAL_NAME) pup_bytes;
  _ ← atomic_write (path_join (data_dir self) VPSDB_LOCAL_NAME) vpsdb_bytes;
  write_text (_local_last_updated_path self) (Py.str_of_int remote_epoch_ms).

Definition ensure_local_cache (self : SyncService) : io () :=
  λ d,
    let need :=
      negb (forallb (λ fname, file_exists (path_join (data_dir self) fname) d)
                    [PUPLOOKUP_LOCAL_NAME; VPSDB_LOCAL_NAME;
                     LAST_UPDATED_LOCAL_NAME]) in
    if negb need then ([], Got ())
    else
      (remote_epoch ← pure (fetch_last_updated_epoch_ms (client self));
       _download_all self remote_epoch) d.

Definition check_and_sync (self : SyncService) : io SyncResult :=
  λ d,
    let local_epoch := _local_epoch_ms self d in
    (remote_epoch ← pure (fetch_last_updated_epoch_ms (client self));
     let missing_any :=
       negb (forallb (λ f, file_exists (path_join (data_dir self) f) d)
                     [PUPLOOKUP_LOCAL_NAME; VPSDB_LOCAL_NAME]) in
     if missing_any then
       _ ← _download_all self remote_epoch;
       mret {| updated := true; remote_epoch_ms := remote_epoch;
               local_epoch_ms := local_epoch |}
     else if (local_epoch <? remote_epoch)%Z then
       _ ← _download_all self remote_epoch;
       mret {| updated := true; remote_epoch_ms := remote_epoch;
               local_epoch_ms := local_epoch |}
     else
       mret {| updated := false; remote_epoch_ms := remote_epoch;
               local_epoch_ms := local_epoch |}) d.

End Sync.

(** * Specification-side definitions *)

(** A string that is empty or starts with a character that is not white
    space. *)
Definition lclean (s : string) : Prop :=
  match s with
  | EmptyString => True
  | String c _ => Py.isspace c = false
  end.

(** The tags field as the specification words it: the existing tags, then
    what index 16 held when that is not empty and not an identifier, then
    the extras but the last, joined by spaces in this order. *)
Definition claimed_tags (tags f16 : string) (others : list string) : string :=
  let leftover :=
    if Py.truthy f16 && negb (VPS_ID_RE_match f16) then [f16] else [] in
  Py.join " " (tags :: leftover ++ others).

(** The tags field Case B leaves: the pieces of [claimed_tags], each one
    trimmed, index 16 being tested once trimmed, and a piece that is blank
    left out. *)
Definition folded_tags (tags f16 : string) (others : list string) : string :=
  let leftover :=
    if Py.truthy (Py.strip f16) && negb (VPS_ID_RE_match (Py.strip f16))
    then [f16] else [] in
  Py.join " " (filter (λ t, Py.truthy t = true)
                      (Py.strip <$> tags :: leftover ++ others)).

(** What the final validation of [_repair_template_row] accepts. *)
Definition well_formed (r : list string) : Prop :=
  length r = 17 ∧ ∃ f, r !! 16 = Some f ∧ VPS_ID_RE_match (Py.strip f) = true.

(** A string that [strip] leaves as it is. *)
Definition trimmed (s : string) : Prop := Py.strip s = s.

(** The function from the final validation on. *)
Definition validate (orow : option (list string))
  : result (option (list string)) :=
  match orow with
  | None => Ok None
  | Some row =>
      if decide (length row ≠ length BASE_COLUMNS) then Ok None
      else
        r16 ← Py.getitem row 16;
        if negb (VPS_ID_RE_match (Py.strip r16)) then Ok None
        else Ok (Some row)
  end.

(** [a <= b] in the order of the keys: not [b < a]. *)
Definition key_le (a b : sort_key) : Prop := key_lt b a = false.

(** The display name truncated before the first [" ("]. *)
Definition name_prefix (name : string) : string := Py.split_head " (" name.

(** 0 when there is no edition label, else 1. *)
Definition edition_rank (ctx : TableCtx) : Z :=
  if decide (edition ctx = "") then 0%Z else 1%Z.

(** The context of an output row: that of the identifier in its column
    [VPS-ID] (index 17 of the 20 columns). *)
Definition context_of (ctx_by_vpsid : gmap string TableCtx) (row : list string)
  : option TableCtx :=
  row !! 17 ≫= (ctx_by_vpsid !!.).

(** The key of an output row: (name prefix, creation timestamp negated,
    edition rank, position), and ("", 0, 0, 9999) without a context. *)
Definition claimed_key (ctx_by_vpsid : gmap string TableCtx) (row : list string)
  : sort_key :=
  match context_of ctx_by_vpsid row with
  | Some ctx =>
      (name_prefix (game_name ctx), (- created_at ctx)%Z, edition_rank ctx,
       Z.of_nat (tf_index ctx))
  | None => ("", 0%Z, 0%Z, 9999%Z)
  end.

(** The composed display name in the words of the specification: the
    base name, then the edition suffix, then the manufacturer suffix. *)
Definition edition_suffix (base_name edition : string) : string :=
  if decide (edition ≠ ""
             ∧ Py.contains (Py.lower edition) (Py.lower base_name) = false)
  then " - " +:+ edition else "".

(** [" (manufacturer year)"] when both are not empty. *)
Definition manufacturer_suffix (manuf year_s : string) : string :=
  if decide (manuf ≠ "" ∧ year_s ≠ "")
  then " (" +:+ manuf +:+ " " +:+ year_s +:+ ")" else "".

(** The base name with its two optional suffixes. *)
Definition spec_display_name (base_name edition manuf year_s : string) : string :=
  (base_name +:+ edition_suffix base_name edition)
    +:+ manufacturer_suffix manuf year_s.

(** [vid] is the identifier of a table file of the database, and [ctx] is
    the context the loop body builds for it. *)
Definition indexed (vpsdb : list (option Game)) (vid : string) (ctx : TableCtx)
  : Prop :=
  ∃ g idx tf,
    Some g ∈ vpsdb
    ∧ default [] (g_tableFiles g) !! idx = Some (Some tf)
    ∧ f_id tf = Some vid ∧ vid ≠ ""
    ∧ ctx = table_ctx g idx tf.

(** The name of the first author, [""] when there is no author. *)
Definition first_author (ctx : TableCtx) : string :=
  match authors ctx with
  | [] => ""
  | a :: _ => a
  end.

(** The file-name rule in the words of the specification: the author part
    is appended when any author exists. *)
Definition spec_gamefile_name (ctx : TableCtx) : string :=
  if decide (tf_gamefile_name ctx ≠ "") then tf_gamefile_name ctx
  else
    let s := Py.replace_char "/" "_" (game_name ctx) in
    let s :=
      if decide (authors ctx ≠ [])
      then s +:+ " " +:+ first_author ctx +:+ " " +:+ version ctx
      else if decide (version ctx ≠ "") then s +:+ " " +:+ version ctx else s in
    let s := if decide ("MOD" ∈ tags_list ctx) then s +:+ " MOD" else s in
    if decide ("VR" ∈ tags_list ctx) then s +:+ " VR" else s.

(** The same rule, the author part being appended when the first author's
    name is not empty. *)
Definition named_gamefile_name (ctx : TableCtx) : string :=
  if decide (tf_gamefile_name ctx ≠ "") then tf_gamefile_name ctx
  else
    let s := Py.replace_char "/" "_" (game_name ctx) in
    let s :=
      if decide (first_author ctx ≠ "")
      then s +:+ " " +:+ first_author ctx +:+ " " +:+ version ctx
      else if decide (version ctx ≠ "") then s +:+ " " +:+ version ctx else s in
    let s := if decide ("MOD" ∈ tags_list ctx) then s +:+ " MOD" else s in
    if decide ("VR" ∈ tags_list ctx) then s +:+ " VR" else s.

(** The destination of the export. *)
Definition out_path (self : ExportService) : string :=
  path_join (output_dir self) (output_filename self).

(** What Row Repair makes of a row: the row it retains, if any. *)
Definition repair_outcome (row : list string) : option (list string) :=
  match _repair_template_row row with
  | Ok o => o
  | Raise _ => None
  end.

(** The rows of the lookup file that Row Repair retains, in their order. *)
Definition retained (data : list (list string)) : list (list string) :=
  omap repair_outcome data.

(** The typed failure of the fatal cases. *)
Definition is_data_validation_error {A} (r : result A) : Prop :=
  ∃ msg, r = Raise (DataValidationError msg).

(** The lookup file has no header row: the reader reaches the end of the
    file without a first row, or the first row it delivers is empty
    (whatever comes after it). *)
Definition headerless (fs : FS) : Prop :=
  puplookup_csv fs = Some (CsvRows [])
  ∨ (∃ data, puplookup_csv fs = Some (CsvRows ([] :: data)))
  ∨ ∃ data e, puplookup_csv fs = Some (CsvFails ([] :: data) e).

(** The lookup file has been read: the reader has delivered a header row
    and the rows after it, up to the end of the file. *)
Definition lookup_read (fs : FS) : Prop :=
  ∃ h0 h data, puplookup_csv fs = Some (CsvRows ((h0 :: h) :: data)).

(** The reader fails on the lookup file with [e]: before it has delivered a
    row, or after a header row. *)
Definition lookup_fails (fs : FS) (e : read_error) : Prop :=
  puplookup_csv fs = Some (CsvFails [] e)
  ∨ ∃ h0 h data, puplookup_csv fs = Some (CsvFails ((h0 :: h) :: data) e).

(** The fatal cases as the specification lists them. *)
Definition fatal_as_claimed (fs : FS) : Prop :=
  puplookup_csv fs = None ∨ headerless fs
  ∨ vpsdb_json fs = None
  ∨ ∃ doc, vpsdb_json fs = Some doc ∧ ∀ games, doc ≠ JsonArray games.

(** The fatal cases of the code. *)
Definition fatal (fs : FS) : Prop :=
  puplookup_csv fs = None ∨ headerless fs
  ∨ (lookup_read fs
     ∧ (vpsdb_json fs = None ∨ vpsdb_json fs = Some JsonNotArray)).

(** Every observation of [path] during the run sees the file as it was
    before the run or as it is after the run. *)
Definition atomic_at (path : string) (fs : FS) (trace : list FS) : Prop :=
  Forall (λ o, o = files fs !! path ∨ o = files (final_state fs trace) !! path)
         (observations path fs trace).

(** The ordering the specification words for rows without a context:
    each of them stands after every row that has one. *)
Definition no_context_rows_last (ctx_by_vpsid : gmap string TableCtx)
    (data : list (list string)) : Prop :=
  ∀ i j r1 r2,
    data !! i = Some r1 → data !! j = Some r2 →
    context_of ctx_by_vpsid r1 = None → context_of ctx_by_vpsid r2 ≠ None →
    j < i.

(** * Sample data *)

Definition example_table_file : TableFile :=
  {| f_id := Some "abc12345"; f_game_id := None; f_edition := None;
     f_gameFileName := None; f_authors := Some (JList [Some "Smith"]);
     f_version := Some "1.2"; f_features := Some [Some "VR"];
     f_createdAt := Some 100%Z |}.

Definition example_game : Game :=
  {| g_id := Some "g1"; g_name := Some "Game"; g_manufacturer := Some "X";
     g_year := Some (JNum 2020); g_players := Some (JNum 4);
     g_type := Some "EM"; g_theme := Some (JList ["Theme"]);
     g_designers := None; g_ipdbUrl := Some "https://www.ipdb.org/machine.cgi?id=5";
     g_tableFiles := Some [Some example_table_file] |}.

Definition example_vpsdb : list (option Game) := [Some example_game].

(** A well-formed row whose identifier is in no table file. *)
Definition orphan_row : list string := <[16 := "zzzz9999"]> example_row.

(** The output rows for [example_row], which has a context, and for
    [orphan_row], which has none. *)
Definition example_output : list string :=
  ["Game (X 2020) Smith 1.2 VR"; "Game (X 2020)"; "X"; "2020"; "4"; "EM";
   "Cat"; "Theme"; "https://www.ipdb.org/machine.cgi?id=5";
   "https://virtualpinballspreadsheet.github.io/tables?game=g1&fileType=tables&fileId=abc12345";
   "5"; ""; ""; "Smith"; "1.2"; "rom"; "VR"; "abc12345"; "abc12345"; "g1"].

Definition orphan_output : list string :=
  ["file.vpx"; "Game"; "Mfg"; "2020"; "4"; "EM"; "Cat"; "Theme";
   "ipdb.org?id=5"; ""; ""; ""; "Designer"; "Author"; "1.0"; "rom";
   "tag1"; "zzzz9999"; "zzzz9999"; ""].

(** A well-formed row whose identifier field has a leading space. *)
Definition untrimmed_row : list string := <[16 := " abc12345"]> example_row.

(** A row of 20 fields: the identifier is the last one. *)
Definition extras_row : list string :=
  take 16 example_row ++ [" x y "; ""; " zz"; " abc12345_ "].

Definition short_row : list string := ["file.vpx"; "Game"; "abc12345"].

Definition example_service : ExportService :=
  {| data_dir := "/data"; output_dir := "/output";
     output_filename := "puplookup.csv" |}.

Definition example_fs : FS :=
  {| puplookup_csv := Some (CsvRows [BASE_COLUMNS; example_row; orphan_row]);
     vpsdb_json := Some (JsonArray example_vpsdb);
     files := {[ "/output/puplookup.csv" := "previous export" ]};
     fault := None |}.

(** The metadata file holds text that is not JSON. *)
Definition invalid_json_fs : FS :=
  {| puplookup_csv := Some (CsvRows [BASE_COLUMNS; example_row]);
     vpsdb_json := Some JsonInvalid;
     files := ∅;
     fault := None |}.

(** The lookup file does not decode, from its first bytes on, and the
    metadata file is absent. *)
Definition undecodable_fs : FS :=
  {| puplookup_csv := Some (CsvFails [] DecodeError);
     vpsdb_json := None;
     files := ∅;
     fault := None |}.

(** The reader rejects the second data row of the lookup file (a field
    longer than the field limit). *)
Definition overlong_field_fs : FS :=
  {| puplookup_csv := Some (CsvFails [BASE_COLUMNS; example_row] FormatError);
     vpsdb_json := Some (JsonArray example_vpsdb);
     files := ∅;
     fault := None |}.

(** The first line of the lookup file is blank, and bytes that do not
    decode come later. *)
Definition blank_first_line_fs : FS :=
  {| puplookup_csv := Some (CsvFails [[]] DecodeError);
     vpsdb_json := Some (JsonArray example_vpsdb);
     files := ∅;
     fault := None |}.


(** A table file whose only author has an empty name, and its context. *)
Definition unnamed_author_file : TableFile :=
  {| f_id := Some "abc12345"; f_game_id := None; f_edition := None;
     f_gameFileName := None; f_authors := Some (JList [Some ""]);
     f_version := Some "1.2"; f_features := None; f_createdAt := None |}.

Definition unnamed_author_game : Game :=
  {| g_id := Some "g1"; g_name := Some "Game"; g_manufacturer := None;
     g_year := None; g_players := None; g_type := None; g_theme := None;
     g_designers := None; g_ipdbUrl := None;
     g_tableFiles := Some [Some unnamed_author_file] |}.

Definition unnamed_author_ctx : TableCtx :=
  table_ctx unnamed_author_game 0 unnamed_author_file.

(** The value of a string of decimal digits read after [acc]. *)
Fixpoint digits_acc (acc : Z) (d : string) : Z :=
  match d with
  | EmptyString => acc
  | String c d' => digits_acc (acc * 10 + digit_of c)%Z d'
  end.

(** [int_of_stripped] after the sign. *)
Definition int_body (negative : bool) (body : string) : option Z :=
  match body with
  | EmptyString => None
  | String c r =>
      if Py.isdigit c then
        match int_digits (digit_of c) 1 false r with
        | Some (v, count) =>
            if decide (MAX_STR_DIGITS < count) then None
            else Some (if negative then (- v)%Z else v)
        | None => None
        end
      else None
  end.

(** The search for [id=(\d+)] alone, without the alternative
    [machine\.cgi\?id=]. *)
Fixpoint search_id (s : string) : option string :=
  match literal_then_digits "id=" s with
  | Some d => Some d
  | None =>
      match s with
      | EmptyString => None
      | String _ s' => search_id s'
      end
  end.

(** A row of 18 fields: the manufacturer "Bally, Midway" was split. *)
Definition split_manufacturer_row : list string :=
  take 2 example_row ++ ["Bally"; " Midway"] ++ drop 3 example_row.

(** A game whose name holds a path separator. *)
Definition acdc_game : Game :=
  {| g_id := Some "g2"; g_name := Some "AC/DC"; g_manufacturer := Some "Stern";
     g_year := Some (JNum 2012); g_players := None; g_type := None;
     g_theme := None; g_designers := None; g_ipdbUrl := None;
     g_tableFiles := Some [Some example_table_file] |}.

Definition acdc_ctx : TableCtx := table_ctx acdc_game 0 example_table_file.

(** The five paths [_download_all] touches. *)
Definition cache_names : list string :=
  ["puplookup.csv"; "puplookup.csv.tmp"; "vpsdb.json"; "vpsdb.json.tmp";
   "lastUpdated.json"].

(** A remote that answers the three requests, the timestamp with a
    newline after the digits. *)
Definition example_client : Sync.VpsClient :=
  {| Sync.last_updated_response := Some ("1700000000123" +:+ String "010"%char "");
     Sync.puplookup_response := Some "GameFileName,GameName";
     Sync.vpsdb_response := Some "[]" |}.

Definition example_sync : Sync.SyncService :=
  {| Sync.data_dir := "/data"; Sync.client := example_client |}.

(** A remote that does not answer. *)
Definition offline_sync : Sync.SyncService :=
  {| Sync.data_dir := "/data";
     Sync.client := {| Sync.last_updated_response := None;
                       Sync.puplookup_response := None;
                       Sync.vpsdb_response := None |} |}.

(** A cache that holds the three files, fetched at 1700000000000. *)
Definition example_disk : gmap string string :=
  {[ "/data/puplookup.csv" := "old csv"; "/data/vpsdb.json" := "old json";
     "/data/lastUpdated.json" := "1700000000000" ]}.

(** The owning identifier recorded for an identifier is the one its
    context carries. *)
Definition agree (ctxs : gmap string TableCtx) (masters : gmap string string)
  : Prop :=
  ∀ vid, masters !! vid = game_id <$> ctxs !! vid.






(** The states [_download_all] takes the disk through when both downloads
    succeed. *)
Definition download_states (dir pup vps : string) (n : Z) (d : gmap string string)
  : list (gmap string string) :=
  let p := path_join dir "puplookup.csv" in
  let v := path_join dir "vpsdb.json" in
  let l := path_join dir "lastUpdated.json" in
  let s1 := <[p +:+ ".tmp" := ""]> d in
  let s2 := <[p +:+ ".tmp" := pup]> s1 in
  let s3 := <[p := pup]> (delete (p +:+ ".tmp") s2) in
  let s4 := <[v +:+ ".tmp" := ""]> s3 in
  let s5 := <[v +:+ ".tmp" := vps]> s4 in
  let s6 := <[v := vps]> (delete (v +:+ ".tmp") s5) in
  let s7 := <[l := ""]> s6 in
  let s8 := <[l := utf8 (Py.str_of_int n)]> s7 in
  [s1; s2; s3; s4; s5; s6; s7; s8].

(** The cache holds the two data files and the timestamp [n]. *)
Definition cached (dir pup vps : string) (n : Z) (d : gmap string string) : Prop :=
  d !! path_join dir "puplookup.csv" = Some pup
  ∧ d !! path_join dir "vpsdb.json" = Some vps
  ∧ d !! path_join dir "lastUpdated.json" = Some (utf8 (Py.str_of_int n)).

(** The two data files are there and the local timestamp is not older
    than [n]. *)
Definition fresh (self : Sync.SyncService) (n : Z) (d : gmap string string)
  : bool :=
  Sync.file_exists (path_join (Sync.data_dir self) "puplookup.csv") d
  && Sync.file_exists (path_join (Sync.data_dir self) "vpsdb.json") d
  && negb (Sync._local_epoch_ms self d <? n)%Z.

(** * Facts about the string primitives *)

Section StringFacts.

Lemma lstrip_lclean s : lclean (Py.lstrip s).
Proof.
  induction s as [|c s IH]; simpl; [done|].
  destruct (Py.isspace c) eqn:E; [exact IH | exact E].
Qed.

Lemma lclean_lstrip s : lclean s → Py.lstrip s = s.
Proof. destruct s as [|c s]; simpl; [done|]. by intros ->. Qed.

Lemma rstrip_lclean s : lclean s → lclean (Py.rstrip s).
Proof.
  destruct s as [|c s]; simpl; [done|].
  intros Hc. rewrite Hc. simpl. exact Hc.
Qed.

Lemma rstrip_idem s : Py.rstrip (Py.rstrip s) = Py.rstrip s.
Proof.
  induction s as [|c s IH]; simpl; [done|].
  destruct (Py.isspace c && negb (Py.truthy (Py.rstrip s))) eqn:E; simpl; [done|].
  by rewrite IH, E.
Qed.

Lemma strip_lclean s : lclean (Py.strip s).
Proof. apply rstrip_lclean, lstrip_lclean. Qed.

Lemma strip_idem s : Py.strip (Py.strip s) = Py.strip s.
Proof.
  unfold Py.strip at 1.
  rewrite (lclean_lstrip _ (strip_lclean s)).
  apply rstrip_idem.
Qed.

Lemma rstrip_strip s : Py.rstrip (Py.strip s) = Py.strip s.
Proof. apply rstrip_idem. Qed.

Lemma append_cons c s t : String c s +:+ t = String c (s +:+ t).
Proof. done. Qed.

Lemma append_empty_l t : "" +:+ t = t.
Proof. done. Qed.

Lemma append_empty_r s : s +:+ "" = s.
Proof. induction s as [|c s IH]; [done|]. by rewrite append_cons, IH. Qed.

Lemma append_assoc s t u : (s +:+ t) +:+ u = s +:+ t +:+ u.
Proof.
  induction s as [|c s IH]; [done|]. by rewrite !append_cons, IH.
Qed.

Lemma truthy_append_r s t : Py.truthy t = true → Py.truthy (s +:+ t) = true.
Proof. by destruct s, t. Qed.

Lemma truthy_true s : Py.truthy s = true ↔ s ≠ "".
Proof. by destruct s. Qed.

Lemma truthy_false s : Py.truthy s = false ↔ s = "".
Proof. by destruct s. Qed.

(** Nothing is stripped from the right of a string that ends in a string
    that is not empty and loses nothing itself. *)
Lemma rstrip_append s t :
  Py.truthy t = true → Py.rstrip t = t → Py.rstrip (s +:+ t) = s +:+ t.
Proof.
  intros Ht Hr. induction s as [|c s IH]; [done|].
  rewrite append_cons. simpl. rewrite IH.
  by rewrite (truthy_append_r s t Ht), andb_false_r.
Qed.

Lemma lstrip_append s t :
  Py.truthy s = true → lclean s → Py.lstrip (s +:+ t) = s +:+ t.
Proof.
  destruct s as [|c s]; [done|]. intros _ Hc.
  rewrite append_cons. simpl in *. by rewrite Hc.
Qed.

Lemma id_char_not_space c : is_id_char c = true → Py.isspace c = false.
Proof.
  destruct c as [[] [] [] [] [] [] [] []]; vm_compute; congruence.
Qed.

Lemma id_chars_lstrip w :
  Py.all_chars is_id_char w = true → Py.lstrip w = w.
Proof.
  destruct w as [|c w]; simpl; [done|].
  intros [Hc _]%andb_true_iff. by rewrite (id_char_not_space _ Hc).
Qed.

Lemma id_chars_rstrip w :
  Py.all_chars is_id_char w = true → Py.rstrip w = w.
Proof.
  induction w as [|c w IH]; simpl; [done|].
  intros [Hc Hw]%andb_true_iff.
  by rewrite (id_char_not_space _ Hc), IH.
Qed.

Lemma id_chars_rstrip_newline w :
  Py.all_chars is_id_char w = true →
  Py.rstrip (w +:+ String "010"%char "") = w.
Proof.
  induction w as [|c w IH]; [done|].
  intros [Hc Hw]%andb_true_iff.
  rewrite append_cons. simpl.
  by rewrite (id_char_not_space _ Hc), IH.
Qed.

Lemma id_chars_chomp w :
  Py.all_chars is_id_char w = true → Py.chomp w = w.
Proof.
  induction w as [|c w IH]; [done|].
  intros [Hc Hw]%andb_true_iff. simpl.
  destruct w as [|d w].
  - destruct (decide (c = "010"%char)) as [->|]; [by vm_compute in Hc | done].
  - by rewrite IH.
Qed.

Lemma chomp_cases s :
  Py.chomp s = s ∨ s = Py.chomp s +:+ String "010"%char "".
Proof.
  induction s as [|c s IH]; [by left|].
  destruct s as [|d s].
  - simpl. destruct (decide (c = "010"%char)) as [->|]; [by right | by left].
  - change (Py.chomp (String c (String d s)))
      with (String c (Py.chomp (String d s))).
    destruct IH as [-> | IH]; [by left|].
    right. by rewrite append_cons, <- IH.
Qed.

Lemma id_chars_strip w :
  Py.all_chars is_id_char w = true → Py.strip w = w.
Proof.
  intros Hid. unfold Py.strip.
  by rewrite (id_chars_lstrip _ Hid), (id_chars_rstrip _ Hid).
Qed.

Lemma id_chars_strip_newline w :
  Py.all_chars is_id_char w = true → Py.truthy w = true →
  Py.strip (w +:+ String "010"%char "") = w.
Proof.
  intros Hid Hw. unfold Py.strip.
  rewrite lstrip_append; [by apply id_chars_rstrip_newline | done |].
  destruct w as [|c w]; [done|]. simpl in *.
  apply andb_true_iff in Hid as [Hc _]. by apply id_char_not_space.
Qed.

(** A string the identifier pattern accepts is, once stripped, the
    identifier itself, which the pattern accepts again. *)
Lemma VPS_ID_RE_match_strip s :
  VPS_ID_RE_match s = true →
  Py.strip s = Py.chomp s ∧ VPS_ID_RE_match (Py.strip s) = true.
Proof.
  unfold VPS_ID_RE_match.
  generalize (chomp_cases s). generalize (Py.chomp s).
  intros w Hcases [Hid Hlen]%andb_true_iff.
  assert (Py.strip s = w) as ->.
  { destruct Hcases as [-> | ->]; [by apply id_chars_strip|].
    apply id_chars_strip_newline; [done|].
    destruct w; [by vm_compute in Hlen | done]. }
  split; [done|].
  by rewrite (id_chars_chomp _ Hid), Hid, Hlen.
Qed.

End StringFacts.

(** * Row Repair *)

Section RowRepair.

Implicit Types row r : list string.

Lemma BASE_COLUMNS_length : length BASE_COLUMNS = 17.
Proof. reflexivity. Qed.

Lemma getitem_Some {A} (l : list A) i x : l !! i = Some x → Py.getitem l i = Ok x.
Proof. unfold Py.getitem. by intros ->. Qed.

Lemma setitem_lt {A} (l : list A) i x :
  i < length l → Py.setitem l i x = Ok (<[i := x]> l).
Proof. unfold Py.setitem. intros H. by rewrite decide_True. Qed.

Lemma repair_case_A_other row :
  length row ≠ 18 → repair_case_A row = Ok row.
Proof.
  intros H. unfold repair_case_A. rewrite BASE_COLUMNS_length.
  by rewrite decide_False.
Qed.

(** Case A never raises, and leaves 18 fields or 17. *)
Lemma repair_case_A_18 row :
  length row = 18 →
  ∃ row', repair_case_A row = Ok row' ∧ (row' = row ∨ length row' = 17).
Proof.
  intros H. unfold repair_case_A. rewrite BASE_COLUMNS_length, decide_True by done.
  do 19 (destruct row as [|? row]; [simplify_eq/=|]); [|simplify_eq/=].
  cbn [Py.getitem lookup list_lookup mbind result_bind].
  destruct (negb _); [|eauto].
  cbn [Py.getitem lookup list_lookup mbind result_bind].
  destruct (YEAR_RE_match _); [|eauto].
  cbn. eauto.
Qed.

Lemma repair_case_A_total row :
  17 ≤ length row →
  ∃ row', repair_case_A row = Ok row' ∧ 17 ≤ length row'
          ∧ (length row = 17 → row' = row).
Proof.
  intros H. destruct (decide (length row = 18)) as [E|E].
  - destruct (repair_case_A_18 row E) as (row' & HA & Hrow').
    exists row'. split_and!; [done | | lia].
    destruct Hrow' as [-> | Hl]; lia.
  - exists row. rewrite repair_case_A_other by done. auto.
Qed.

Lemma repair_case_B_17 row :
  length row = 17 → repair_case_B row = Ok (Some row).
Proof.
  intros H. unfold repair_case_B. rewrite BASE_COLUMNS_length.
  rewrite decide_False; [done | lia].
Qed.

(** The loop over the extras only sees the trimmed tokens that are not
    empty. *)
Lemma fold_tokens_filter toks acc :
  fold_left (λ shifted tok,
               let tok := Py.strip tok in
               if Py.truthy tok then fold_token shifted tok else shifted)
            toks acc
  = fold_left fold_token
              (filter (λ t, Py.truthy t = true) (Py.strip <$> toks)) acc.
Proof.
  revert acc. induction toks as [|tok toks IH]; intros acc; [done|].
  cbn [fold_left fmap list_fmap]. rewrite IH.
  rewrite filter_cons. destruct (Py.truthy (Py.strip tok)) eqn:E.
  - by rewrite decide_True.
  - by rewrite decide_False by congruence.
Qed.

Lemma trimmed_strip s : trimmed (Py.strip s).
Proof. apply strip_idem. Qed.

Lemma trimmed_joined a b :
  trimmed a → trimmed b → Py.truthy a = true → Py.truthy b = true →
  trimmed (a +:+ " " +:+ b).
Proof.
  unfold trimmed. intros Ha Hb Ta Tb. unfold Py.strip.
  rewrite lstrip_append; [| done | rewrite <- Ha; apply strip_lclean].
  rewrite <- append_assoc.
  apply rstrip_append; [done|]. rewrite <- Hb. apply rstrip_strip.
Qed.

Lemma join_cons_cons sep a b l :
  Py.join sep (a :: b :: l) = a +:+ sep +:+ Py.join sep (b :: l).
Proof. done. Qed.

(** Folding trimmed, non-empty tokens into a trimmed accumulator joins
    them with single spaces. *)
Lemma fold_token_join ts acc :
  trimmed acc → Forall (λ t, trimmed t ∧ Py.truthy t = true) ts →
  fold_left fold_token ts acc
  = Py.join " " (filter (λ t, Py.truthy t = true) [acc] ++ ts).
Proof.
  intros Hacc Hts. revert acc Hacc.
  induction Hts as [|t ts [Ht Tt] Hts IH]; intros acc Hacc.
  - simpl. rewrite filter_cons, filter_nil.
    destruct (decide (Py.truthy acc = true)) as [E|E]; [done|].
    by apply not_true_is_false, truthy_false in E.
  - cbn [fold_left]. unfold fold_token at 2.
    rewrite filter_cons, filter_nil.
    destruct (Py.truthy acc) eqn:E.
    + rewrite decide_True by done.
      pose proof (trimmed_joined acc t Hacc Ht E Tt) as Hj.
      rewrite Hj. rewrite (IH _ Hj).
      rewrite filter_cons, filter_nil, decide_True
        by (apply truthy_append_r; by apply truthy_append_r).
      cbn [app]. destruct ts as [|t' ts]; [done|].
      by rewrite !join_cons_cons, !append_assoc.
    + rewrite decide_False by congruence.
      rewrite (IH _ Ht).
      by rewrite filter_cons, filter_nil, decide_True.
Qed.

Lemma stripped_tokens toks :
  Forall (λ t, trimmed t ∧ Py.truthy t = true)
         (filter (λ t, Py.truthy t = true) (Py.strip <$> toks)).
Proof.
  apply Forall_forall. intros t [Ht Hin]%list_elem_of_filter.
  apply list_elem_of_fmap in Hin as (tok & -> & _).
  split; [apply trimmed_strip | done].
Qed.

Lemma last_drop_lt {A} (l : list A) n : n < length l → last (drop n l) = last l.
Proof.
  intros H. rewrite !last_lookup, lookup_drop, length_drop.
  f_equal. lia.
Qed.

(** The tags Case B computes are the [folded_tags] of the specification. *)
Lemma shifted_folded tags f16 others :
  fold_left (λ shifted tok,
               let tok := Py.strip tok in
               if Py.truthy tok then fold_token shifted tok else shifted)
            others
            (if Py.truthy (Py.strip f16) && negb (VPS_ID_RE_match (Py.strip f16))
             then fold_token (Py.strip tags) (Py.strip f16)
             else Py.strip tags)
  = folded_tags tags f16 others.
Proof.
  rewrite fold_tokens_filter. unfold folded_tags.
  set (P := filter _ (Py.strip <$> others)).
  destruct (Py.truthy (Py.strip f16) && negb _) eqn:E.
  - apply andb_true_iff in E as [E _].
    change (fold_token (Py.strip tags) (Py.strip f16))
      with (fold_left fold_token [Py.strip f16] (Py.strip tags)).
    rewrite <- fold_left_app, fold_token_join.
    + f_equal. cbn [fmap list_fmap app].
      rewrite !(filter_cons _ (Py.strip tags)), filter_nil.
      rewrite (filter_cons _ (Py.strip f16)).
      destruct (decide (Py.truthy (Py.strip f16) = true)); [|done].
      by destruct (decide _).
    + apply trimmed_strip.
    + apply Forall_app. split; [|apply stripped_tokens].
      apply Forall_singleton. split; [apply trimmed_strip | done].
  - rewrite fold_token_join; [| apply trimmed_strip | apply stripped_tokens].
    f_equal. cbn [fmap list_fmap app].
    rewrite !(filter_cons _ (Py.strip tags)), filter_nil.
    by destruct (decide _).
Qed.

(** Case B on a row that has extras. *)
Lemma repair_case_B_extras row :
  17 < length row →
  ∃ tags f16 e,
    row !! 15 = Some tags ∧ row !! 16 = Some f16 ∧ last row = Some e ∧
    repair_case_B row =
      if VPS_ID_RE_match (Py.strip e)
      then Ok (Some (<[16 := Py.strip e]>
                      (<[15 := folded_tags tags f16 (removelast (drop 17 row))]>
                         (take 17 row))))
      else Ok None.
Proof.
  intros H.
  destruct (lookup_lt_is_Some_2 row 15) as [tags Htags]; [lia|].
  destruct (lookup_lt_is_Some_2 row 16) as [f16 Hf16]; [lia|].
  destruct (last row) as [e|] eqn:He;
    [|apply last_None in He; subst; simpl in H; lia].
  exists tags, f16, e. split_and!; try done.
  unfold repair_case_B. rewrite BASE_COLUMNS_length, decide_True by done.
  unfold Py.getlast. rewrite last_drop_lt, He by done.
  run.
  destruct (VPS_ID_RE_match (Py.strip e)); [|done].
  rewrite (getitem_Some (take 17 row) 15 tags)
    by (by rewrite lookup_take_lt by lia).
  rewrite (getitem_Some (take 17 row) 16 f16)
    by (by rewrite lookup_take_lt by lia).
  run.
  rewrite shifted_folded.
  rewrite setitem_lt by (rewrite length_take; lia).
  run.
  rewrite setitem_lt by (rewrite length_insert, length_take; lia).
  done.
Qed.

Lemma repair_unfold row :
  17 ≤ length row →
  _repair_template_row row =
    (row ← repair_case_A row; orow ← repair_case_B row; validate orow).
Proof.
  intros H. unfold _repair_template_row.
  rewrite BASE_COLUMNS_length, decide_False by lia. done.
Qed.

Lemma validate_17 row f :
  length row = 17 → row !! 16 = Some f →
  validate (Some row) =
    if VPS_ID_RE_match (Py.strip f) then Ok (Some row) else Ok None.
Proof.
  intros Hl Hf. unfold validate.
  rewrite BASE_COLUMNS_length, decide_False by (intros ?; lia).
  rewrite (getitem_Some _ _ _ Hf). run.
  by destruct (VPS_ID_RE_match _).
Qed.

(** A row of 17 fields goes through the final validation only. *)
Lemma repair_17 row f :
  length row = 17 → row !! 16 = Some f →
  _repair_template_row row =
    if VPS_ID_RE_match (Py.strip f) then Ok (Some row) else Ok None.
Proof.
  intros Hl Hf. rewrite repair_unfold by lia.
  rewrite repair_case_A_other by lia. run.
  rewrite repair_case_B_17 by done. run.
  by apply validate_17.
Qed.

(** The row Case B builds passes the final validation. *)
Lemma validate_folded row' cand tags :
  17 < length row' → VPS_ID_RE_match cand = true →
  validate (Some (<[16 := cand]> (<[15 := tags]> (take 17 row'))))
  = Ok (Some (<[16 := cand]> (<[15 := tags]> (take 17 row')))).
Proof.
  intros Hl Hm. rewrite (validate_17 _ cand).
  - by rewrite (proj2 (VPS_ID_RE_match_strip _ Hm)).
  - rewrite !length_insert, length_take. lia.
  - apply list_lookup_insert_eq. rewrite length_insert, length_take. lia.
Qed.

(** Row Repair on a row that has more than 17 fields after Case A: Case B
    decides. *)
Lemma repair_after_case_A row row' :
  17 ≤ length row → repair_case_A row = Ok row' → 17 < length row' →
  _repair_template_row row
  = match repair_case_B row' with
    | Ok (Some r) => Ok (Some r)
    | Ok None => Ok None
    | Raise e => Raise e
    end.
Proof.
  intros Hl HA Hl'. rewrite repair_unfold, HA by done. run.
  destruct (repair_case_B_extras row' Hl') as (tags & f16 & e & _ & _ & _ & ->).
  destruct (VPS_ID_RE_match (Py.strip e)) eqn:E; [|done].
  run. by apply validate_folded.
Qed.

(** Row Repair never raises. *)
Lemma repair_total row : ∃ o, _repair_template_row row = Ok o.
Proof.
  destruct (decide (length row < 17)) as [H|H].
  - exists None. unfold _repair_template_row.
    by rewrite BASE_COLUMNS_length, decide_True.
  - destruct (repair_case_A_total row) as (row' & HA & Hl' & _); [lia|].
    destruct (decide (length row' = 17)) as [E|E].
    + rewrite repair_unfold, HA by lia. run.
      rewrite repair_case_B_17 by done. run.
      destruct (lookup_lt_is_Some_2 row' 16) as [f Hf]; [lia|].
      rewrite (validate_17 _ f) by done.
      destruct (VPS_ID_RE_match _); eauto.
    + rewrite (repair_after_case_A row row') by (done || lia).
      destruct (repair_case_B_extras row') as (? & ? & e & _ & _ & _ & ->); [lia|].
      destruct (VPS_ID_RE_match _); eauto.
Qed.

(** What Row Repair retains passes the final validation. *)
Lemma repair_retained row r :
  _repair_template_row row = Ok (Some r) → well_formed r.
Proof.
  intros Hr.
  destruct (decide (length row < 17)) as [H|H].
  { unfold _repair_template_row in Hr.
    by rewrite BASE_COLUMNS_length, decide_True in Hr. }
  destruct (repair_case_A_total row) as (row' & HA & Hl' & _); [lia|].
  destruct (decide (length row' = 17)) as [E|E].
  - rewrite repair_unfold, HA in Hr by lia. cbn [mbind result_bind] in Hr.
    rewrite repair_case_B_17 in Hr by done. cbn [mbind result_bind] in Hr.
    destruct (lookup_lt_is_Some_2 row' 16) as [f Hf]; [lia|].
    rewrite (validate_17 _ f) in Hr by done.
    destruct (VPS_ID_RE_match _) eqn:Hm; simplify_eq.
    split; eauto.
  - rewrite (repair_after_case_A row row') in Hr by (done || lia).
    destruct (repair_case_B_extras row') as (? & ? & e & _ & _ & _ & Hrow); [lia|].
    rewrite Hrow in Hr.
    destruct (VPS_ID_RE_match (Py.strip e)) eqn:Hm; simplify_eq.
    split.
    + rewrite !length_insert, length_take. lia.
    + exists (Py.strip e). split.
      * apply list_lookup_insert_eq. rewrite length_insert, length_take. lia.
      * by apply VPS_ID_RE_match_strip.
Qed.

End RowRepair.

(** * Ordering *)

Section Ordering.

Implicit Types a b c : sort_key.

Lemma ltb_leb (s t : string) : String.ltb s t = negb (String.leb t s).
Proof.
  unfold String.ltb, String.leb. rewrite (String.compare_antisym s t).
  by destruct (String.compare t s).
Qed.

Lemma str_lt_irrefl (s : string) : String.ltb s s = false.
Proof.
  rewrite ltb_leb. apply negb_false_iff, Is_true_true.
  change (String.le s s). done.
Qed.

Lemma str_lt_trans (s t u : string) :
  String.ltb s t = true → String.ltb t u = true → String.ltb s u = true.
Proof.
  rewrite !ltb_leb, !negb_true_iff. intros Hts Hut.
  apply not_true_iff_false. intros Hus%Is_true_true.
  destruct (String.leb_total s t) as [Hst|Hst]; [|congruence].
  apply Is_true_true in Hst.
  assert (String.le u t) as Hut' by (by etrans; [exact Hus | exact Hst]).
  apply Is_true_true in Hut'. unfold String.le in Hut'. congruence.
Qed.

Lemma str_lt_total (s t : string) :
  String.ltb s t = false → String.ltb t s = false → s = t.
Proof.
  rewrite !ltb_leb, !negb_false_iff. intros H1 H2.
  by apply String.leb_antisym.
Qed.

Lemma key_lt_irrefl a : key_lt a a = false.
Proof.
  destruct a as [[[s t] e] p]. unfold key_lt.
  rewrite !decide_True by done. lia.
Qed.

Lemma key_lt_trans a b c :
  key_lt a b = true → key_lt b c = true → key_lt a c = true.
Proof.
  destruct a as [[[s1 t1] e1] p1], b as [[[s2 t2] e2] p2],
           c as [[[s3 t3] e3] p3].
  unfold key_lt.
  repeat case_decide; simplify_eq; rewrite ?str_lt_irrefl;
    try done; try lia; eauto using str_lt_trans.
  all: intros Hlt1 Hlt2; pose proof (str_lt_trans _ _ _ Hlt1 Hlt2) as H12.
  all: by rewrite str_lt_irrefl in H12.
Qed.

Lemma key_lt_total a b : key_lt a b = false → key_lt b a = false → a = b.
Proof.
  destruct a as [[[s1 t1] e1] p1], b as [[[s2 t2] e2] p2].
  unfold key_lt.
  repeat case_decide; simplify_eq; try done; try lia.
  - intros. f_equal. lia.
  - intros H1 H2. by destruct (str_lt_total _ _ H1 H2).
Qed.

Lemma key_lt_le a b : key_lt a b = true → key_le a b.
Proof.
  unfold key_le. intros H. apply not_true_iff_false. intros H'.
  pose proof (key_lt_trans _ _ _ H H') as Haa.
  by rewrite key_lt_irrefl in Haa.
Qed.

Lemma key_le_trans a b c : key_le a b → key_le b c → key_le a c.
Proof.
  unfold key_le. intros Hba Hcb. apply not_true_iff_false. intros Hca.
  destruct (key_lt a b) eqn:Hab.
  - by rewrite (key_lt_trans _ _ _ Hca Hab) in Hcb.
  - pose proof (key_lt_total _ _ Hab Hba). subst. congruence.
Qed.

Context {A : Type}.
Implicit Types x y : sort_key * A.
Implicit Types l : list (sort_key * A).

Lemma insert_keyed_perm x l : insert_keyed x l ≡ₚ x :: l.
Proof.
  induction l as [|y l IH]; simpl; [done|].
  destruct (key_lt y.1 x.1); [|done].
  by rewrite IH, Permutation_swap.
Qed.

Lemma sort_keyed_perm l : sort_keyed l ≡ₚ l.
Proof.
  induction l as [|x l IH]; simpl; [done|].
  by rewrite insert_keyed_perm, IH.
Qed.

Lemma insert_keyed_sorted x l :
  StronglySorted (λ y z, key_le y.1 z.1) l →
  StronglySorted (λ y z, key_le y.1 z.1) (insert_keyed x l).
Proof.
  induction 1 as [|y l Hl IH Hy]; simpl.
  - repeat constructor.
  - destruct (key_lt y.1 x.1) eqn:E.
    + constructor; [done|].
      rewrite insert_keyed_perm. constructor; [by apply key_lt_le | done].
    + constructor; [by constructor|].
      constructor; [done|].
      eapply Forall_impl; [exact Hy|].
      intros z Hz. by eapply key_le_trans.
Qed.

Lemma sort_keyed_sorted l :
  StronglySorted (λ y z, key_le y.1 z.1) (sort_keyed l).
Proof.
  induction l as [|x l IH]; simpl; [constructor|].
  by apply insert_keyed_sorted.
Qed.

(** The sort is stable: rows of one key keep their order. *)
Lemma insert_keyed_stable k x l :
  filter (λ y, y.1 = k) (insert_keyed x l) = filter (λ y, y.1 = k) (x :: l).
Proof.
  induction l as [|y l IH]; simpl; [done|].
  destruct (key_lt y.1 x.1) eqn:E; [|done].
  rewrite (filter_cons _ y), IH, !(filter_cons _ x), (filter_cons _ y).
  destruct (decide (x.1 = k)) as [Hx|Hx], (decide (y.1 = k)) as [Hy|Hy];
    try done.
  rewrite Hx, Hy, key_lt_irrefl in E. done.
Qed.

Lemma sort_keyed_stable k l :
  filter (λ y, y.1 = k) (sort_keyed l) = filter (λ y, y.1 = k) l.
Proof.
  induction l as [|x l IH]; simpl; [done|].
  by rewrite insert_keyed_stable, !filter_cons, IH.
Qed.

End Ordering.

(** * Row generation *)

Section Generation.

Context (ctx_by_vpsid : gmap string TableCtx).
Context (master_by_vpsid : gmap string string).

Lemma length_ge_17_inv {A} (l : list A) :
  17 ≤ length l →
  ∃ a0 a1 a2 a3 a4 a5 a6 a7 a8 a9 a10 a11 a12 a13 a14 a15 a16 rest,
    l = a0 :: a1 :: a2 :: a3 :: a4 :: a5 :: a6 :: a7 :: a8 :: a9 :: a10
        :: a11 :: a12 :: a13 :: a14 :: a15 :: a16 :: rest.
Proof.
  intros H.
  do 17 (destruct l as [|? l]; [cbn in H; lia|]).
  do 18 eexists. reflexivity.
Qed.

Lemma assemble_length out wl2 v m : length (assemble out wl2 v m) = 20.
Proof. reflexivity. Qed.

Lemma assemble_lookup_17 out wl2 v m :
  assemble out wl2 v m !! 17 = Some (default "" (out !! "VPS-ID")).
Proof. reflexivity. Qed.

Lemma dict_zip_vps_id trow v :
  trow !! 16 = Some v → dict_zip BASE_COLUMNS trow !! "VPS-ID" = Some v.
Proof.
  intros Hv. pose proof (lookup_lt_Some _ _ _ Hv) as Hl.
  destruct (length_ge_17_inv trow) as
    (a0&a1&a2&a3&a4&a5&a6&a7&a8&a9&a10&a11&a12&a13&a14&a15&a16&rest&->); [lia|].
  injection Hv as ->. by vm_compute.
Qed.

(** The columns read back from the dictionary of a 17-field row are the
    row. *)
Lemma dict_zip_base_out trow :
  length trow = 17 →
  (λ c, default "" (dict_zip BASE_COLUMNS trow !! c)) <$> BASE_COLUMNS = trow.
Proof.
  intros Hl.
  destruct (length_ge_17_inv trow) as
    (a0&a1&a2&a3&a4&a5&a6&a7&a8&a9&a10&a11&a12&a13&a14&a15&a16&rest&->); [lia|].
  destruct rest; [|cbn in Hl; lia]. by vm_compute.
Qed.

(** The enricher never raises on a row that has its identifier field, and
    its output carries that identifier at the column [VPS-ID]. *)
Lemma enrich_row_ok trow v :
  trow !! 16 = Some v →
  ∃ row, enrich_row ctx_by_vpsid master_by_vpsid trow = Ok row
         ∧ length row = 20 ∧ row !! 17 = Some v.
Proof.
  intros Hv. unfold enrich_row.
  change (Py.index "VPS-ID" BASE_COLUMNS) with 16.
  rewrite (getitem_Some _ _ _ Hv). run.
  destruct (ctx_by_vpsid !! v) as [ctx|]; eexists;
    (split; [reflexivity|]); (split; [apply assemble_length|]);
    rewrite assemble_lookup_17.
  - rewrite !lookup_insert_ne by done. by rewrite (dict_zip_vps_id _ _ Hv).
  - by rewrite (dict_zip_vps_id _ _ Hv).
Qed.

Lemma sort_key_for_ctx_claimed ctx :
  _sort_key_for_ctx ctx =
    (name_prefix (game_name ctx), (- created_at ctx)%Z, edition_rank ctx,
     Z.of_nat (tf_index ctx)).
Proof.
  unfold _sort_key_for_ctx, edition_rank, name_prefix.
  by destruct (edition ctx).
Qed.

Lemma row_key_claimed row v :
  row !! 17 = Some v → row_key ctx_by_vpsid row = Ok (claimed_key ctx_by_vpsid row).
Proof.
  intros Hv. unfold row_key, claimed_key, context_of.
  change (Py.index "VPS-ID" OUT_COLUMNS) with 17.
  rewrite (getitem_Some _ _ _ Hv), Hv. cbn [mbind result_bind option_bind].
  destruct (ctx_by_vpsid !! v); [|done].
  by rewrite sort_key_for_ctx_claimed.
Qed.

Lemma for_each_ok {A B} (f : A → result B) (g : A → B) (l : list A) :
  Forall (λ x, f x = Ok (g x)) l → for_each f l = Ok (g <$> l).
Proof.
  induction 1 as [|x l Hx _ IH]; [done|].
  cbn [for_each]. rewrite Hx. run. by rewrite IH.
Qed.

Lemma for_each_total {A B} (f : A → result B) (l : list A) :
  Forall (λ x, ∃ y, f x = Ok y) l →
  ∃ ys, for_each f l = Ok ys ∧ Forall2 (λ x y, f x = Ok y) l ys.
Proof.
  induction 1 as [|x l [y Hy] _ (ys & IH & H2)]; [by exists []|].
  exists (y :: ys). cbn [for_each]. rewrite Hy, IH. by split; [|constructor].
Qed.

(** Row generation on rows that have their identifier field: the rows of
    the enricher, sorted by their keys, behind the header. *)
Lemma generate_rows_sorted template_rows :
  Forall (λ trow, 17 ≤ length trow) template_rows →
  ∃ rows,
    for_each (enrich_row ctx_by_vpsid master_by_vpsid) template_rows = Ok rows
    ∧ Forall (λ row, length row = 20) rows
    ∧ _generate_rows template_rows ctx_by_vpsid master_by_vpsid
      = Ok (OUT_COLUMNS :: (sort_keyed ((λ r, (claimed_key ctx_by_vpsid r, r)) <$> rows)).*2).
Proof.
  intros Hrows.
  destruct (for_each_total (enrich_row ctx_by_vpsid master_by_vpsid)
              template_rows) as (rows & Hdata & H2).
  { eapply Forall_impl; [exact Hrows|]. intros trow Hl. cbn beta in Hl.
    destruct (lookup_lt_is_Some_2 trow 16) as [v Hv]; [lia|].
    destruct (enrich_row_ok trow v Hv) as (row & ? & _). eauto. }
  assert (Forall (λ row, length row = 20 ∧ ∃ v, row !! 17 = Some v) rows) as Hshape.
  { clear Hdata. induction H2 as [|trow row ?? Hrow _ IH]; [constructor|].
    apply Forall_cons in Hrows as [Hl Hrows].
    constructor; [|by apply IH].
    destruct (lookup_lt_is_Some_2 trow 16) as [v Hv]; [lia|].
    destruct (enrich_row_ok trow v Hv) as (row' & Hrow' & ? & ?).
    rewrite Hrow in Hrow'. injection Hrow' as <-. eauto. }
  exists rows. split_and!; [done | by eapply Forall_impl; [exact Hshape|]; intros ? [] |].
  unfold _generate_rows. rewrite Hdata. run.
  rewrite (for_each_ok _ (λ r, (claimed_key ctx_by_vpsid r, r))); [done|].
  eapply Forall_impl; [exact Hshape|].
  intros row (_ & v & Hv). by rewrite (row_key_claimed row v Hv).
Qed.

(** The sorted rows are in the order of the claimed keys. *)
Lemma sorted_rows_by_key (rows : list (list string)) :
  StronglySorted (λ r1 r2, key_le (claimed_key ctx_by_vpsid r1) (claimed_key ctx_by_vpsid r2))
                 (sort_keyed ((λ r, (claimed_key ctx_by_vpsid r, r)) <$> rows)).*2.
Proof.
  pose proof (sort_keyed_sorted ((λ r, (claimed_key ctx_by_vpsid r, r)) <$> rows)) as Hs.
  assert (Forall (λ x, x.1 = claimed_key ctx_by_vpsid x.2)
                 (sort_keyed ((λ r, (claimed_key ctx_by_vpsid r, r)) <$> rows))) as Hk.
  { rewrite sort_keyed_perm. apply Forall_fmap, Forall_true. done. }
  induction Hs as [|x l Hl IH Hx]; [constructor|].
  apply Forall_cons in Hk as [Hkx Hk].
  cbn [fmap list_fmap]. constructor; [by apply IH|].
  apply Forall_fmap, Forall_forall. intros y Hy. cbn.
  rewrite <- Hkx, <- (proj1 (Forall_forall _ _) Hk y Hy).
  by apply (proj1 (Forall_forall _ _) Hx).
Qed.

Lemma sorted_rows_perm (rows : list (list string)) :
  (sort_keyed ((λ r, (claimed_key ctx_by_vpsid r, r)) <$> rows)).*2 ≡ₚ rows.
Proof.
  rewrite sort_keyed_perm.
  induction rows as [|r rows IH]; [done|].
  cbn [fmap list_fmap]. by constructor.
Qed.

End Generation.

(** * Metadata Indexer *)

Section Indexer.

Lemma edition_suffix_eq base_name edition :
  (if Py.truthy edition
      && negb (Py.contains (Py.lower edition) (Py.lower base_name))
   then base_name +:+ " - " +:+ edition else base_name)
  = base_name +:+ edition_suffix base_name edition.
Proof.
  unfold edition_suffix.
  destruct (decide _) as [[He Hc] | Hn].
  - rewrite Hc. apply truthy_true in He. by rewrite He.
  - destruct edition as [|e0 ed]; cbn [Py.truthy andb];
      [by rewrite append_empty_r|].
    destruct (Py.contains _ _) eqn:Hc; cbn [negb];
      [by rewrite append_empty_r|].
    exfalso. by apply Hn.
Qed.

Lemma manufacturer_suffix_eq name manuf year_s :
  (if Py.truthy manuf && Py.truthy year_s
   then name +:+ " (" +:+ manuf +:+ " " +:+ year_s +:+ ")" else name)
  = name +:+ manufacturer_suffix manuf year_s.
Proof.
  unfold manufacturer_suffix.
  destruct (decide _) as [[Hm Hy] | Hn].
  - apply truthy_true in Hm, Hy. by rewrite Hm, Hy.
  - destruct manuf as [|m0 ma]; cbn [Py.truthy andb];
      [by rewrite append_empty_r|].
    destruct year_s as [|y0 ys]; cbn [Py.truthy];
      [by rewrite append_empty_r|].
    exfalso. by apply Hn.
Qed.

Lemma compose_game_name_spec base_name edition manuf year_s :
  compose_game_name base_name edition manuf year_s
  = spec_display_name base_name edition manuf year_s.
Proof.
  unfold compose_game_name, spec_display_name. cbn zeta.
  by rewrite manufacturer_suffix_eq, edition_suffix_eq.
Qed.

Lemma enumerate_elem {A} (l : list A) i x :
  (i, x) ∈ enumerate l → l !! i = Some x.
Proof.
  unfold enumerate. intros (j & y & [= -> ->] & Hy)%elem_of_lookup_imap. done.
Qed.

Lemma index_game_sound (P : string → TableCtx → Prop) g out :
  (∀ vid ctx, out !! vid = Some ctx → P vid ctx) →
  (∀ idx tf vid,
     default [] (g_tableFiles g) !! idx = Some (Some tf) →
     f_id tf = Some vid → vid ≠ "" → P vid (table_ctx g idx tf)) →
  ∀ vid ctx, index_game out g !! vid = Some ctx → P vid ctx.
Proof.
  intros Hout Hg. unfold index_game.
  assert (∀ p, p ∈ enumerate (default [] (g_tableFiles g)) →
               default [] (g_tableFiles g) !! p.1 = Some p.2) as Hl.
  { intros [i x]. apply enumerate_elem. }
  revert out Hout Hl.
  induction (enumerate (default [] (g_tableFiles g))) as [|[idx otf] l IH];
    intros out Hout Hl; [done|].
  cbn [foldl]. apply IH; [|intros p Hp; apply Hl; by right].
  pose proof (Hl (idx, otf) ltac:(by left)) as Hidx. cbn in Hidx.
  destruct otf as [tf|]; [|done].
  destruct (f_id tf) as [vid0|] eqn:Hid; [|done].
  destruct (Py.truthy vid0) eqn:Ht; cbn [negb]; [|done].
  intros vid ctx. rewrite lookup_insert.
  case_decide; [|by apply Hout].
  intros [= <-]. subst vid. apply (Hg idx tf vid0); [done..|].
  by apply truthy_true.
Qed.

Lemma index_games_sound (P : string → TableCtx → Prop) l out :
  (∀ vid ctx, out !! vid = Some ctx → P vid ctx) →
  (∀ g idx tf vid,
     Some g ∈ l →
     default [] (g_tableFiles g) !! idx = Some (Some tf) →
     f_id tf = Some vid → vid ≠ "" → P vid (table_ctx g idx tf)) →
  ∀ vid ctx,
    foldl (λ out og, match og with None => out | Some g => index_game out g end)
          out l !! vid = Some ctx →
    P vid ctx.
Proof.
  revert out. induction l as [|og l IH]; intros out Hout Hl; [done|].
  cbn [foldl]. apply IH.
  - destruct og as [g|]; [|done].
    apply index_game_sound; [done|].
    intros idx tf v. apply Hl. by left.
  - intros g idx tf v Hg. apply Hl. by right.
Qed.

(** Every context of the index is the context of a table file of the
    database that carries this identifier. *)
Lemma build_indexes_sound vpsdb vid ctx :
  _build_indexes vpsdb !! vid = Some ctx → indexed vpsdb vid ctx.
Proof.
  apply (index_games_sound (indexed vpsdb)).
  - intros ??. by rewrite lookup_empty.
  - intros g idx tf v ????. by exists g, idx, tf.
Qed.

End Indexer.

(** * File names *)

Section FileName.

Lemma if_bool_decide (P : Prop) {dec : Decision P} {A} (x y : A) :
  (if bool_decide P then x else y) = if decide P then x else y.
Proof. unfold bool_decide, decide. by destruct dec. Qed.

Lemma build_gamefile_name_named ctx :
  _build_gamefile_name ctx = named_gamefile_name ctx.
Proof.
  unfold _build_gamefile_name, named_gamefile_name, first_author,
    _sanitize_filename_part, str_or.
  rewrite !if_bool_decide.
  destruct (tf_gamefile_name ctx) as [|c0 o], (authors ctx) as [|[|a0 a] l],
    (version ctx) as [|v0 v]; cbn [Py.truthy];
    repeat (destruct (decide _)); try done; try congruence;
    exfalso; match goal with H : ¬ (_ ≠ _) |- _ => by apply H end.
Qed.

Lemma named_spec_gamefile_name ctx :
  authors ctx = [] ∨ first_author ctx ≠ "" →
  named_gamefile_name ctx = spec_gamefile_name ctx.
Proof.
  unfold named_gamefile_name, spec_gamefile_name, first_author.
  intros Ha.
  destruct (authors ctx) as [|a l];
    repeat (destruct (decide _)); try done; try congruence;
    exfalso;
    first [ by destruct Ha
          | match goal with H : ¬ (_ ≠ _) |- _ => by apply H end ].
Qed.

End FileName.

(** * The name prefix *)

Section SplitHead.

Lemma startswith_append p s : Py.startswith p (p +:+ s) = true.
Proof.
  induction p as [|c p IH]; [by destruct s|].
  rewrite append_cons. cbn [Py.startswith]. by rewrite decide_True.
Qed.

Lemma startswith_inv p s : Py.startswith p s = true → ∃ r, s = p +:+ r.
Proof.
  revert s. induction p as [|c p IH]; intros s; [by exists s|].
  destruct s as [|d s]; cbn [Py.startswith]; [done|].
  case_decide; [|done]. subst d.
  intros [r ->]%IH. by exists r.
Qed.

Lemma contains_cons sub c s :
  Py.contains sub (String c s)
  = Py.startswith sub (String c s) || Py.contains sub s.
Proof. done. Qed.

(** Without the separator the whole string is its head. *)
Lemma split_head_absent sep s :
  Py.contains sep s = false → Py.split_head sep s = s.
Proof.
  induction s as [|c s IH].
  - cbn. by destruct (Py.startswith sep "").
  - rewrite contains_cons. intros [Hs Hc]%orb_false_iff.
    cbn [Py.split_head]. by rewrite Hs, IH.
Qed.

(** With the separator the head is what stands before an occurrence. *)
Lemma split_head_present sep s :
  Py.contains sep s = true →
  ∃ rest, s = Py.split_head sep s +:+ sep +:+ rest.
Proof.
  induction s as [|c s IH].
  - cbn. rewrite orb_false_r. intros Hs. rewrite Hs.
    by apply startswith_inv.
  - rewrite contains_cons. cbn [Py.split_head].
    destruct (Py.startswith sep (String c s)) eqn:Hs.
    + intros _. by apply startswith_inv.
    + cbn [orb]. intros [rest Hrest]%IH. exists rest.
      by rewrite append_cons, <- Hrest.
Qed.

(** That occurrence is the first one. *)
Lemma split_head_first sep s p rest :
  s = p +:+ sep +:+ rest →
  String.length (Py.split_head sep s) ≤ String.length p.
Proof.
  revert p. induction s as [|c s IH]; intros p Hs.
  - cbn. destruct (Py.startswith sep ""); cbn; lia.
  - cbn [Py.split_head].
    destruct (Py.startswith sep (String c s)) eqn:Hst; [cbn; lia|].
    destruct p as [|d p].
    + rewrite append_empty_l in Hs.
      by rewrite Hs, startswith_append in Hst.
    + rewrite append_cons in Hs. injection Hs as -> ->.
      cbn [String.length]. apply le_n_S. by eapply IH.
Qed.

End SplitHead.

(** * The merge run *)

Section MergeRun.

Context (self : ExportService).

Lemma repair_outcome_eq row : _repair_template_row row = Ok (repair_outcome row).
Proof.
  unfold repair_outcome. by destruct (repair_total row) as [o ->].
Qed.

Lemma repair_outcome_Some row r :
  repair_outcome row = Some r ↔ _repair_template_row row = Ok (Some r).
Proof.
  rewrite repair_outcome_eq. split; [by intros -> | by intros [= ->]].
Qed.

Lemma keep_fixed_outcome row : keep_fixed (repair_outcome row) = repair_outcome row.
Proof.
  destruct (repair_outcome row) as [r|] eqn:E; [|done].
  apply repair_outcome_Some, repair_retained in E as [Hl _].
  by destruct r.
Qed.

Lemma retained_well_formed data : Forall well_formed (retained data).
Proof.
  apply Forall_forall. intros r (row & _ & Hr)%list_elem_of_omap.
  by apply repair_outcome_Some, repair_retained in Hr.
Qed.

(** Reading a lookup file that has a header never raises: the rows that
    Row Repair does not retain are left out. *)
Lemma read_template_rows_ok path header data :
  header ≠ [] →
  _read_template_rows path (Some (CsvRows (header :: data))) = Ok (retained data).
Proof.
  intros Hh. destruct header as [|h0 h]; [done|].
  cbn [_read_template_rows].
  rewrite (for_each_ok _ repair_outcome)
    by (apply Forall_forall; intros; apply repair_outcome_eq).
  run. f_equal. unfold retained.
  induction data as [|row data IH]; [done|].
  cbn [fmap list_fmap omap list_omap].
  by rewrite keep_fixed_outcome, IH.
Qed.

(** The reader failing after a header makes the read raise its error. *)
Lemma read_template_rows_fails path h0 h data e :
  _read_template_rows path (Some (CsvFails ((h0 :: h) :: data) e))
  = Raise (read_exn e).
Proof.
  cbn [_read_template_rows].
  by rewrite (for_each_ok _ repair_outcome)
    by (apply Forall_forall; intros; apply repair_outcome_eq).
Qed.

(** The rows a run generates once its two reads have succeeded. *)
Lemma generated_rows h0 h data games :
  ∃ rows,
    (template_rows ←
       _read_template_rows (path_join (data_dir self) "puplookup.csv")
                           (Some (CsvRows ((h0 :: h) :: data)));
     vpsdb ← _read_vpsdb (path_join (data_dir self) "vpsdb.json")
                         (Some (JsonArray games));
     _generate_rows template_rows (_build_indexes vpsdb)
                    (_build_master_map vpsdb)) = Ok rows
    ∧ _generate_rows (retained data) (_build_indexes games)
                     (_build_master_map games) = Ok rows
    ∧ rows ≠ [].
Proof.
  destruct (generate_rows_sorted (_build_indexes games)
              (_build_master_map games) (retained data)) as (rs & _ & _ & Hg).
  { eapply Forall_impl; [apply retained_well_formed|].
    intros r [Hr _]. cbn. lia. }
  eexists. split_and!; [|exact Hg|done].
  rewrite read_template_rows_ok by done.
  cbn [mbind result_bind _read_vpsdb]. by rewrite Hg.
Qed.

(** A run whose two reads succeed writes the generated rows, when the
    write goes through. *)
Lemma generate_output_csv_ok fs h0 h data games :
  puplookup_csv fs = Some (CsvRows ((h0 :: h) :: data)) →
  vpsdb_json fs = Some (JsonArray games) →
  fault fs = None →
  ∃ rows,
    _generate_rows (retained data) (_build_indexes games)
                   (_build_master_map games) = Ok rows
    ∧ rows ≠ []
    ∧ generate_output_csv self fs
      = ([set_file (out_path self) "" fs;
          set_file (out_path self) (csv_bytes rows) (set_file (out_path self) "" fs)],
         Ok (out_path self)).
Proof.
  intros Hl Hv Hf.
  destruct (generated_rows h0 h data games) as (rows & Hrun & Hg & Hne).
  exists rows. split_and!; [done..|].
  unfold generate_output_csv. rewrite Hl, Hv, Hrun.
  unfold _write_csv. by rewrite Hf.
Qed.

(** The same run when the write fails: the error of the write is raised,
    and the destination is as it was when the file could not be opened,
    and else holds the bytes that had been written. *)
Lemma generate_output_csv_fault fs h0 h data games f :
  puplookup_csv fs = Some (CsvRows ((h0 :: h) :: data)) →
  vpsdb_json fs = Some (JsonArray games) →
  fault fs = Some f →
  ∃ rows,
    _generate_rows (retained data) (_build_indexes games)
                   (_build_master_map games) = Ok rows
    ∧ generate_output_csv self fs
      = match f with
        | OpenFails => ([], Raise OSError)
        | WriteFails written e =>
            ([set_file (out_path self) "" fs;
              set_file (out_path self) (first_bytes written (csv_bytes rows))
                       (set_file (out_path self) "" fs)],
             Raise (write_exn e))
        end.
Proof.
  intros Hl Hv Hf.
  destruct (generated_rows h0 h data games) as (rows & Hrun & Hg & Hne).
  exists rows. split; [done|].
  unfold generate_output_csv. rewrite Hl, Hv, Hrun.
  unfold _write_csv. rewrite Hf. by destruct f.
Qed.

(** The file a run leaves at the destination is the serialization of the
    header and the sorted rows. *)
Lemma merge_run_output fs h0 h data games :
  puplookup_csv fs = Some (CsvRows ((h0 :: h) :: data)) →
  vpsdb_json fs = Some (JsonArray games) →
  fault fs = None →
  ∃ rows,
    for_each (enrich_row (_build_indexes games) (_build_master_map games))
             (retained data) = Ok rows
    ∧ files (final_state fs (generate_output_csv self fs).1) !! out_path self
      = Some (csv_bytes
                (OUT_COLUMNS
                 :: (sort_keyed
                       ((λ r, (claimed_key (_build_indexes games) r, r)) <$> rows)).*2)).
Proof.
  intros Hl Hv Hf.
  destruct (generate_rows_sorted (_build_indexes games)
              (_build_master_map games) (retained data)) as (rows & Hrows & _ & Hg).
  { eapply Forall_impl; [apply retained_well_formed|].
    intros r [Hr _]. cbn. lia. }
  destruct (generate_output_csv_ok fs h0 h data games Hl Hv Hf)
    as (out & Hout & _ & ->).
  rewrite Hg in Hout. injection Hout as <-.
  exists rows. split; [done|].
  unfold final_state. cbn [fst last default set_file files id].
  by rewrite lookup_insert_eq.
Qed.

(** The outcome of a run in each state of the two input files. *)
Lemma generate_output_csv_raises fs :
  (generate_output_csv self fs).2 =
    match puplookup_csv fs, vpsdb_json fs with
    | None, _ =>
        Raise (DataValidationError
                 ("Missing template CSV: "
                  +:+ path_join (data_dir self) "puplookup.csv"))
    | Some (CsvFails [] e), _ => Raise (read_exn e)
    | Some (CsvFails ((_ :: _) :: _) e), _ => Raise (read_exn e)
    | Some (CsvRows []), _ | Some (CsvRows ([] :: _)), _
    | Some (CsvFails ([] :: _) _), _ =>
        Raise (DataValidationError "Template CSV has no header row.")
    | Some (CsvRows ((_ :: _) :: _)), None =>
        Raise (DataValidationError
                 ("Missing vpsdb.json: "
                  +:+ path_join (data_dir self) "vpsdb.json"))
    | Some (CsvRows ((_ :: _) :: _)), Some JsonUndecodable =>
        Raise UnicodeDecodeError
    | Some (CsvRows ((_ :: _) :: _)), Some JsonInvalid => Raise JSONDecodeError
    | Some (CsvRows ((_ :: _) :: _)), Some JsonNotArray =>
        Raise (DataValidationError "vpsdb.json expected to be a JSON array.")
    | Some (CsvRows ((_ :: _) :: _)), Some (JsonArray _) =>
        match fault fs with
        | None => Ok (out_path self)
        | Some OpenFails => Raise OSError
        | Some (WriteFails _ e) => Raise (write_exn e)
        end
    end.
Proof.
  destruct (puplookup_csv fs) as [[[|[|h0 h] data]|[|[|h0 h] data] e]|] eqn:Hl;
    try (unfold generate_output_csv; by rewrite Hl).
  - destruct (vpsdb_json fs) as [[games| | |]|] eqn:Hv;
      try (unfold generate_output_csv; rewrite Hl, Hv;
           by rewrite read_template_rows_ok).
    destruct (fault fs) as [f|] eqn:Hf.
    + destruct (generate_output_csv_fault fs h0 h data games f Hl Hv Hf)
        as (rows & _ & ->). by destruct f.
    + by destruct (generate_output_csv_ok fs h0 h data games Hl Hv Hf)
        as (rows & _ & _ & ->).
  - unfold generate_output_csv. rewrite Hl.
    by rewrite read_template_rows_fails.
Qed.

(** A run that raises has written nothing, unless it is the write that
    fails, the destination once opened. *)
Lemma generate_output_csv_no_write fs :
  raises (generate_output_csv self fs).2 →
  (generate_output_csv self fs).1 = []
  ∨ ∃ written e, fault fs = Some (WriteFails written e)
                 ∧ (generate_output_csv self fs).2 = Raise (write_exn e).
Proof.
  intros [e He]. unfold generate_output_csv in *.
  destruct (_ ≫= _) as [rows|e']; [|by left].
  unfold _write_csv in *. destruct (fault fs) as [[|written e0]|]; [by left| |done].
  right. by exists written, e0.
Qed.

(** A run that raises the typed failure has written nothing. *)
Lemma typed_failure_no_write fs :
  is_data_validation_error (generate_output_csv self fs).2 →
  (generate_output_csv self fs).1 = [].
Proof.
  intros [msg He]. unfold generate_output_csv in *.
  destruct (_ ≫= _) as [rows|e']; [|done].
  unfold _write_csv in *. by destruct (fault fs) as [[|written []]|].
Qed.

Lemma fatal_iff fs :
  is_data_validation_error (generate_output_csv self fs).2 ↔ fatal fs.
Proof.
  rewrite generate_output_csv_raises.
  unfold is_data_validation_error, fatal, headerless, lookup_read.
  destruct (puplookup_csv fs) as [[[|[|h0 h] data]|[|[|h0 h] data] e]|];
    [| |destruct (vpsdb_json fs) as [[games| | |]|];
        [destruct (fault fs) as [[|? []]|]|..] |destruct e| |destruct e|];
    (split;
     [ intros [msg Hmsg]; try discriminate Hmsg
     | intros Hf; try (by eexists);
       destruct Hf as [Hf | [[Hf | [[d Hf] | (d & e' & Hf)]]
                             | [(a & b & c & Hf) [Hv | Hv]]]];
       discriminate ]).
  - right. left. by left.
  - right. left. right. left. by eexists.
  - right. right. split; [by do 3 eexists | by right].
  - right. right. split; [by do 3 eexists | by left].
  - right. left. right. right. by do 2 eexists.
  - by left.
Qed.

End MergeRun.

(** * Writing the output *)

Section Atomicity.

Lemma length_append s t :
  String.length (s +:+ t) = String.length s + String.length t.
Proof.
  induction s as [|c s IH]; [done|].
  rewrite append_cons. cbn [String.length]. by rewrite IH.
Qed.

Lemma append_ne s t : t ≠ "" → s ≠ s +:+ t.
Proof.
  intros Ht Hs. apply (f_equal String.length) in Hs.
  rewrite length_append in Hs. destruct t; [done|]. cbn in Hs. lia.
Qed.

(** [atomic_write_bytes] replaces the destination in one step. *)
Lemma atomic_write_bytes_atomic path data fs :
  atomic_at path fs (atomic_write_bytes path data fs).1.
Proof.
  unfold atomic_at, observations, atomic_write_bytes, final_state.
  cbn [fst last fmap list_fmap default set_file remove_file files].
  assert (path +:+ ".tmp" ≠ path) as Hne
    by (intros H; by apply (append_ne path ".tmp")).
  apply Forall_cons. split; [by left|].
  apply Forall_cons. split; [left; by rewrite lookup_insert_ne|].
  apply Forall_cons. split; [left; by rewrite !lookup_insert_ne|].
  apply Forall_cons. split; [by right | by apply Forall_nil].
Qed.

Lemma csv_bytes_nonempty rows : rows ≠ [] → csv_bytes rows ≠ "".
Proof. by destruct rows. Qed.

(** [_write_csv] shows the truncated destination. *)
Lemma write_csv_observations path rows fs :
  fault fs = None →
  observations path fs (_write_csv path rows fs).1
  = [files fs !! path; Some ""; Some (csv_bytes rows)].
Proof.
  intros Hf. unfold observations, _write_csv. rewrite Hf.
  cbn [fst fmap list_fmap set_file files].
  by rewrite !lookup_insert_eq.
Qed.

Lemma write_csv_not_atomic path rows fs :
  fault fs = None →
  rows ≠ [] → files fs !! path ≠ Some "" →
  ¬ atomic_at path fs (_write_csv path rows fs).1.
Proof.
  intros Hf Hrows Hold Hat. unfold atomic_at in Hat.
  rewrite write_csv_observations in Hat by done.
  apply Forall_cons in Hat as [_ Hat].
  apply Forall_cons in Hat as [[H|H] _]; [by symmetry in H|].
  unfold final_state, _write_csv in H. rewrite Hf in H.
  cbn [fst last default set_file files id] in H.
  rewrite lookup_insert_eq in H. injection H as H.
  by apply (csv_bytes_nonempty rows).
Qed.

End Atomicity.

(** * Further facts used by the claims *)

Section Auxiliary.

Lemma StronglySorted_lookup {A} (R : A → A → Prop) (l : list A) i j x y :
  StronglySorted R l → l !! i = Some x → l !! j = Some y → i < j → R x y.
Proof.
  intros Hs. revert i j. induction Hs as [|z l Hl IH Hz]; intros i j Hi Hj Hij.
  - done.
  - destruct j as [|j]; [lia|]. destruct i as [|i].
    + injection Hi as ->. cbn in Hj.
      apply (proj1 (Forall_forall _ _) Hz). by eapply list_elem_of_lookup_2.
    + cbn in Hi, Hj. apply (IH i j); [done..|lia].
Qed.

Lemma empty_prefix_first (p : string) (t e n : Z) :
  p ≠ "" → key_lt ("", 0%Z, 0%Z, 9999%Z) (p, t, e, n) = true.
Proof.
  intros Hp. unfold key_lt. rewrite decide_False by done. by destruct p.
Qed.

Lemma retained_app pre post : retained (pre ++ post) = retained pre ++ retained post.
Proof. unfold retained. apply omap_app. Qed.

(** The position [$] adds nothing on a stripped field. *)
Lemma chomp_rstrip s : Py.chomp (Py.rstrip s) = Py.rstrip s.
Proof.
  induction s as [|c s IH]; [done|]. cbn [Py.rstrip].
  destruct (Py.isspace c && negb (Py.truthy (Py.rstrip s))) eqn:E; [done|].
  destruct (Py.rstrip s) as [|d r] eqn:Er.
  - cbn in E. rewrite andb_true_r in E. cbn.
    destruct (decide (c = "010"%char)) as [->|]; [by vm_compute in E | done].
  - change (Py.chomp (String c (String d r)))
      with (String c (Py.chomp (String d r))).
    by rewrite IH.
Qed.

Lemma VPS_ID_RE_match_stripped f :
  VPS_ID_RE_match (Py.strip f)
  = Py.all_chars is_id_char (Py.strip f)
    && bool_decide (8 ≤ String.length (Py.strip f)).
Proof. unfold VPS_ID_RE_match, Py.strip. by rewrite chomp_rstrip. Qed.

End Auxiliary.

(** * The examples of the specification *)

Section Examples.


(** An 18-field row whose manufacturer was split at a comma. *)
Example repair_split_manufacturer :
  _repair_template_row
    (take 2 example_row ++ ["Williams"; " Inc."] ++ drop 3 example_row)
  = Ok (Some (<[2 := "Williams, Inc."]> example_row)).
Proof. by vm_compute. Qed.

(** An 18-field row that neither repair applies to is dropped. *)
Example repair_unrecoverable :
  _repair_template_row (example_row ++ ["not an id"]) = Ok None.
Proof. by vm_compute. Qed.

(** The end-to-end example: owning id "g1" and the templated second link. *)
Example end_to_end :
  _build_master_map example_vpsdb !! "abc12345" = Some "g1"
  ∧ enrich_row (_build_indexes example_vpsdb) (_build_master_map example_vpsdb)
               example_row
    = Ok example_output.
Proof. by vm_compute. Qed.

(** Two contexts of prefix "Game": the one created at 200 with edition "A"
    sorts before the one created at 100 without edition. *)
Example newer_sorts_first :
  key_lt ("Game", (-200)%Z, 1%Z, 1%Z) ("Game", (-100)%Z, 0%Z, 0%Z) = true.
Proof. by vm_compute. Qed.

(** The bytes of a small output: the byte-order mark, then the lines, a
    field that holds a comma being quoted. *)
Example csv_bytes_small :
  csv_bytes [["a"; "b"]; ["c, d"; ""]]
  = BOM +:+ "a,b" +:+ CRLF +:+ String DQUOTE "c, d" +:+ String DQUOTE ","
        +:+ CRLF.
Proof. by vm_compute. Qed.

(** A blank first line is no header, whatever comes after it: the typed
    failure is raised before the bytes that do not decode are reached. *)
Example blank_first_line_is_headerless :
  (generate_output_csv example_service blank_first_line_fs).2
  = Raise (DataValidationError "Template CSV has no header row.").
Proof. by vm_compute. Qed.

End Examples.

(** * The claims of the specification *)

(** ** Row Repair *)

(** C4 at a row of 17 fields whose identifier field has a leading space:
    Row Repair retains the row as it is, and its field 16 does not match
    the identifier pattern. *)
Lemma repair_keeps_untrimmed_identifier :
  _repair_template_row untrimmed_row = Ok (Some untrimmed_row)
  ∧ length untrimmed_row = 17
  ∧ untrimmed_row !! 16 = Some " abc12345"
  ∧ VPS_ID_RE_match " abc12345" = false.
Proof. by vm_compute. Qed.

(** C4, the defect: the final validation of Row Repair tests the
    identifier field stripped of surrounding white space and returns the
    field as it is.  A row of 17 fields whose identifier has white space
    around it is retained with a field 16 that does not match the pattern,
    where the folding of extras ([cand]) stores the stripped identifier:
    the same identifier in a row of 18 fields gives the well-formed row.
    The field is the key of the join: the retained row passes through
    without its metadata although its identifier has a context, and the
    well-formed row is enriched. *)
Theorem untrimmed_identifier_not_joined :
  (_repair_template_row untrimmed_row = Ok (Some untrimmed_row)
   ∧ untrimmed_row !! 16 = Some " abc12345"
   ∧ VPS_ID_RE_match " abc12345" = false)
  ∧ _repair_template_row (take 16 example_row ++ [""; " abc12345"])
    = Ok (Some example_row)
  ∧ example_row !! 16 = Some "abc12345"
  ∧ is_Some (_build_indexes example_vpsdb !! "abc12345")
  ∧ enrich_row (_build_indexes example_vpsdb) (_build_master_map example_vpsdb)
               untrimmed_row
    = Ok (take 9 untrimmed_row ++ [""] ++ drop 9 untrimmed_row
            ++ [" abc12345"; ""])
  ∧ enrich_row (_build_indexes example_vpsdb) (_build_master_map example_vpsdb)
               example_row
    = Ok example_output.
Proof.
  split_and!; try (by vm_compute).
  by eexists; vm_compute.
Qed.

(** X24: what the final validation does guarantee: a row that Row Repair
    retains has exactly 17 fields, and its field at index 16 matches the
    identifier pattern once stripped of surrounding white space: the
    stripped field is made of at least 8 characters of the class
    [A-Za-z0-9_-].  Every row that reading the lookup file yields is such a
    row: the others are dropped. *)
Theorem repair_retained_shape :
  (∀ row r : list string,
     _repair_template_row row = Ok (Some r) →
     length r = 17
     ∧ ∃ f, r !! 16 = Some f
            ∧ VPS_ID_RE_match (Py.strip f) = true
            ∧ Py.all_chars is_id_char (Py.strip f) = true
            ∧ 8 ≤ String.length (Py.strip f))
  ∧ (∀ path file rows,
       _read_template_rows path file = Ok rows → Forall well_formed rows).
Proof.
  split.
  - intros row r [Hl (f & Hf & Hm)]%repair_retained.
    split; [done|]. exists f.
    pose proof Hm as Hm'. rewrite VPS_ID_RE_match_stripped in Hm'.
    apply andb_true_iff in Hm' as [Hid Hlen].
    apply bool_decide_eq_true in Hlen. by split_and!.
  - intros path file rows Hread.
    destruct file as [[[|[|h0 h] data]|[|[|h0 h] data] e]|];
      try discriminate Hread.
    + rewrite read_template_rows_ok in Hread by done.
      injection Hread as <-. apply retained_well_formed.
    + by rewrite read_template_rows_fails in Hread.
Qed.

Lemma repair_retained_shape_witness :
  length untrimmed_row = 17
  ∧ ∃ f, untrimmed_row !! 16 = Some f
         ∧ VPS_ID_RE_match (Py.strip f) = true
         ∧ Py.all_chars is_id_char (Py.strip f) = true
         ∧ 8 ≤ String.length (Py.strip f).
Proof.
  apply (proj1 repair_retained_shape untrimmed_row untrimmed_row).
  vm_compute. reflexivity.
Defined.

(** C5, as the specification states it, fails: the row of 20 fields with
    tags "tag1", " x y " at index 16 and the extras "", " zz" and
    " abc12345_ " is retained with the tags "tag1 x y zz", and the
    concatenation of the pieces joined by spaces is "tag1  x y    zz". *)
Lemma tags_are_not_the_plain_join :
  repair_case_A extras_row = Ok extras_row
  ∧ extras_row !! 15 = Some "tag1"
  ∧ extras_row !! 16 = Some " x y "
  ∧ removelast (drop 17 extras_row) = [""; " zz"]
  ∧ _repair_template_row extras_row
    = Ok (Some (<[16 := "abc12345_"]>
                  (<[15 := "tag1 x y zz"]> (take 17 extras_row))))
  ∧ claimed_tags "tag1" " x y " [""; " zz"] = "tag1  x y    zz"
  ∧ "tag1 x y zz" ≠ claimed_tags "tag1" " x y " [""; " zz"].
Proof. split_and!; by vm_compute. Qed.

(** C5, amended: a row that has more than 17 fields after Case A is
    rejected when its trimmed last field [cand] is not an identifier;
    otherwise it is retained with [cand] at index 16 and, at index 15, the
    pieces joined by single spaces in this order: the existing tags, what
    index 16 held when that, trimmed, is not empty and not an identifier,
    and the extras but the last; each piece is trimmed of surrounding
    white space and a piece that is blank is left out ([folded_tags]). *)
Theorem repair_folds_extras (row row' : list string) :
  17 ≤ length row → repair_case_A row = Ok row' → 17 < length row' →
  ∃ tags f16 e,
    row' !! 15 = Some tags ∧ row' !! 16 = Some f16 ∧ last row' = Some e ∧
    _repair_template_row row =
      if VPS_ID_RE_match (Py.strip e)
      then Ok (Some (<[16 := Py.strip e]>
                      (<[15 := folded_tags tags f16 (removelast (drop 17 row'))]>
                         (take 17 row'))))
      else Ok None.
Proof.
  intros Hl HA Hl'.
  (* Case B finds the tags, the former identifier field and the last field *)
  destruct (repair_case_B_extras row' Hl') as (tags & f16 & e & Ht & Hf & He & HB).
  exists tags, f16, e. split_and!; [done..|].
  (* the row is long enough for Case A to have run; the rest is Case B
     followed by the final validation *)
  rewrite repair_unfold, HA by done. run. rewrite HB.
  destruct (VPS_ID_RE_match (Py.strip e)) eqn:Hcand; [|done].
  run.
  (* the folded row has 17 fields and carries [cand], which is stripped *)
  apply validate_folded; [done | exact Hcand].
Qed.

Lemma repair_folds_extras_witness :
  _repair_template_row extras_row
  = Ok (Some (<[16 := "abc12345_"]> (<[15 := "tag1 x y zz"]> (take 17 extras_row)))).
Proof.
  destruct (repair_folds_extras extras_row extras_row)
    as (tags & f16 & e & Htags & Hf16 & He & ->).
  - vm_compute. lia.
  - reflexivity.
  - vm_compute. lia.
  - injection Htags as <-. injection Hf16 as <-. injection He as <-.
    reflexivity.
Defined.

(** C9: Row Repair returns unchanged a row of 17 fields whose field 16
    matches the identifier pattern, and so it returns again every row it has
    retained. *)
Theorem repair_idempotent (row : list string) :
  (length row = 17 ∧ ∃ f, row !! 16 = Some f ∧ VPS_ID_RE_match f = true)
  ∨ (∃ raw, _repair_template_row raw = Ok (Some row)) →
  _repair_template_row row = Ok (Some row).
Proof.
  intros [(Hl & f & Hf & Hm) | (raw & [Hl (f & Hf & Hm)]%repair_retained)].
  - rewrite (repair_17 row f Hl Hf).
    by rewrite (proj2 (VPS_ID_RE_match_strip f Hm)).
  - by rewrite (repair_17 row f Hl Hf), Hm.
Qed.

Lemma repair_idempotent_witness :
  _repair_template_row example_row = Ok (Some example_row)
  ∧ _repair_template_row (<[16 := "abc12345_"]> (<[15 := "tag1 x y zz"]> (take 17 extras_row)))
    = Ok (Some (<[16 := "abc12345_"]> (<[15 := "tag1 x y zz"]> (take 17 extras_row)))).
Proof.
  split.
  - apply (repair_idempotent example_row). left.
    split; [reflexivity|]. exists "abc12345". split; reflexivity.
  - apply repair_idempotent. right. exists extras_row. reflexivity.
Defined.

(** C10: Row Repair returns [None], and does not raise, on a row of fewer
    than 17 fields; such a row of the lookup file does not reach the rows
    that are read, which are those of the file without it. *)
Theorem short_row_dropped (row : list string) :
  length row < 17 →
  _repair_template_row row = Ok None
  ∧ ∀ path header pre post,
      header ≠ [] →
      _read_template_rows path (Some (CsvRows (header :: pre ++ row :: post)))
      = Ok (retained pre ++ retained post)
      ∧ _read_template_rows path (Some (CsvRows (header :: pre ++ post)))
        = Ok (retained pre ++ retained post).
Proof.
  intros Hl.
  assert (_repair_template_row row = Ok None) as Hrow.
  { unfold _repair_template_row. by rewrite BASE_COLUMNS_length, decide_True. }
  split; [done|]. intros path header pre post Hh.
  rewrite !read_template_rows_ok by done.
  rewrite !retained_app. split; [|done].
  unfold retained at 2. cbn [omap list_omap].
  unfold repair_outcome at 1. by rewrite Hrow.
Qed.

Lemma short_row_dropped_witness :
  _repair_template_row short_row = Ok None
  ∧ _read_template_rows "/data/puplookup.csv"
      (Some (CsvRows [BASE_COLUMNS; example_row; short_row; orphan_row]))
    = Ok [example_row; orphan_row].
Proof.
  destruct (short_row_dropped short_row) as [Hnone Hread].
  - vm_compute. lia.
  - split; [exact Hnone|].
    destruct (Hread "/data/puplookup.csv" BASE_COLUMNS [example_row] [orphan_row])
      as [Hrows _]; [done|].
    etrans; [exact Hrows|]. vm_compute. reflexivity.
Defined.

(** ** Field Enricher *)

(** C8: for a repaired template row whose identifier has no context, the
    output row is the 17 template fields unchanged, with an empty second
    web link after the first web link (index 8), then the identifier of the
    row and an empty owning identifier. *)
Theorem passthrough_without_context
    (ctx_by_vpsid : gmap string TableCtx) (master_by_vpsid : gmap string string)
    (raw trow : list string) (vps_id : string) :
  _repair_template_row raw = Ok (Some trow) →
  trow !! 16 = Some vps_id →
  ctx_by_vpsid !! vps_id = None →
  enrich_row ctx_by_vpsid master_by_vpsid trow
  = Ok (take 9 trow ++ [""] ++ drop 9 trow ++ [vps_id; ""]).
Proof.
  intros [Hl _]%repair_retained Hv Hctx. unfold enrich_row.
  change (Py.index "VPS-ID" BASE_COLUMNS) with 16.
  rewrite (getitem_Some _ _ _ Hv). run. rewrite Hctx.
  unfold assemble. by rewrite dict_zip_base_out.
Qed.

Lemma passthrough_without_context_witness :
  enrich_row (_build_indexes example_vpsdb) (_build_master_map example_vpsdb)
             orphan_row
  = Ok orphan_output.
Proof.
  apply (passthrough_without_context _ _ orphan_row orphan_row "zzzz9999").
  - vm_compute. reflexivity.
  - reflexivity.
  - vm_compute. reflexivity.
Defined.

(** ** Ordering *)

(** C1, as the specification states it, fails: in the output for a row that
    has a context (name prefix "Game") followed by a row that has none, the
    row without a context stands first, not last. *)
Lemma no_context_row_sorts_first :
  _generate_rows [example_row; orphan_row] (_build_indexes example_vpsdb)
                 (_build_master_map example_vpsdb)
  = Ok [OUT_COLUMNS; orphan_output; example_output]
  ∧ context_of (_build_indexes example_vpsdb) orphan_output = None
  ∧ context_of (_build_indexes example_vpsdb) example_output ≠ None
  ∧ ¬ no_context_rows_last (_build_indexes example_vpsdb)
                           [orphan_output; example_output].
Proof.
  split_and!; [by vm_compute..|].
  intros Hlast.
  assert (1 < 0) as Himpossible
    by (apply (Hlast 0 1 _ _ eq_refl eq_refl); by vm_compute).
  lia.
Qed.

(** C1, amended: the output of row generation is the fixed 20-column
    header followed by the enriched rows, permuted so that their keys are
    in non-decreasing order; the key of a row with a context is (name
    prefix, creation timestamp negated, edition rank, position in the
    table-file list of its game) and the key of a row without a context is
    ("", 0, 0, 9999), so that a row without a context stands before every
    row whose name prefix is not empty. *)
Theorem generate_rows_ordered
    (ctx_by_vpsid : gmap string TableCtx) (master_by_vpsid : gmap string string)
    (template_rows : list (list string)) :
  Forall (λ trow, length trow = 17) template_rows →
  ∃ rows data,
    for_each (enrich_row ctx_by_vpsid master_by_vpsid) template_rows = Ok rows
    ∧ _generate_rows template_rows ctx_by_vpsid master_by_vpsid
      = Ok (OUT_COLUMNS :: data)
    ∧ csv_bytes (OUT_COLUMNS :: data)
      = BOM +:+ utf8 (csv_line OUT_COLUMNS +:+ concat_strings (csv_line <$> data))
    ∧ data ≡ₚ rows
    ∧ StronglySorted
        (λ r1 r2, key_le (claimed_key ctx_by_vpsid r1) (claimed_key ctx_by_vpsid r2))
        data
    ∧ ∀ i j r1 r2,
        data !! i = Some r1 → data !! j = Some r2 →
        context_of ctx_by_vpsid r1 = None →
        (∃ ctx, context_of ctx_by_vpsid r2 = Some ctx
                ∧ name_prefix (game_name ctx) ≠ "") →
        i < j.
Proof.
  intros Hrows.
  destruct (generate_rows_sorted ctx_by_vpsid master_by_vpsid template_rows)
    as (rows & Hdata & _ & Hgen).
  { eapply Forall_impl; [exact Hrows|]. intros trow Hl. cbn in Hl. lia. }
  pose proof (sorted_rows_by_key ctx_by_vpsid rows) as Hsorted.
  exists rows. eexists. split_and!; [done | exact Hgen | done | | done |].
  { apply sorted_rows_perm. }
  intros i j r1 r2 Hi Hj H1 (ctx & H2 & Hp).
  destruct (Nat.lt_trichotomy i j) as [Hij | [-> | Hji]]; [done | congruence |].
  pose proof (StronglySorted_lookup _ _ _ _ _ _ Hsorted Hj Hi Hji) as Hle.
  unfold key_le, claimed_key in Hle. rewrite H1, H2 in Hle.
  by rewrite empty_prefix_first in Hle.
Qed.

Lemma generate_rows_ordered_witness :
  ∃ data,
    _generate_rows [example_row; orphan_row] (_build_indexes example_vpsdb)
                   (_build_master_map example_vpsdb)
    = Ok (OUT_COLUMNS :: data)
    ∧ length data = 2.
Proof.
  destruct (generate_rows_ordered (_build_indexes example_vpsdb)
              (_build_master_map example_vpsdb) [example_row; orphan_row])
    as (rows & data & Hrows & Hgen & _ & Hperm & _).
  - repeat constructor.
  - exists data. split; [exact Hgen|].
    rewrite Hperm. vm_compute in Hrows. by injection Hrows as <-.
Defined.

(** ** Metadata Indexer *)

(** C6: the composed display name of every table file of every game entry
    is the base name, followed by [" - " + edition] exactly when the edition
    is not empty and its lower-cased form is not a substring of the
    lower-cased base name, followed by [" (manufacturer year)"] exactly when
    the manufacturer and the year string are both not empty; every context
    of the index carries the name composed for its table file; base name
    "Pinball Wizard" with edition "Blue" gives "Pinball Wizard - Blue". *)
Theorem display_name_composed :
  (∀ g idx tf,
     game_name (table_ctx g idx tf)
     = spec_display_name (or_empty (g_name g)) (or_empty (f_edition tf))
                         (or_empty (g_manufacturer g)) (num_str (g_year g)))
  ∧ (∀ vpsdb vid ctx,
       _build_indexes vpsdb !! vid = Some ctx →
       ∃ g idx tf,
         Some g ∈ vpsdb
         ∧ default [] (g_tableFiles g) !! idx = Some (Some tf)
         ∧ f_id tf = Some vid
         ∧ game_name ctx
           = spec_display_name (or_empty (g_name g)) (or_empty (f_edition tf))
                               (or_empty (g_manufacturer g)) (num_str (g_year g)))
  ∧ compose_game_name "Pinball Wizard" "Blue" "" "" = "Pinball Wizard - Blue"
  ∧ compose_game_name "Pinball Wizard Blue" "blue" "" "" = "Pinball Wizard Blue".
Proof.
  assert (∀ g idx tf,
            game_name (table_ctx g idx tf)
            = spec_display_name (or_empty (g_name g)) (or_empty (f_edition tf))
                (or_empty (g_manufacturer g)) (num_str (g_year g))) as Hname.
  { intros g idx tf. apply compose_game_name_spec. }
  split_and!; [done | | by vm_compute | by vm_compute].
  intros vpsdb vid ctx (g & idx & tf & Hg & Htf & Hid & _ & ->)%build_indexes_sound.
  exists g, idx, tf. by rewrite Hname.
Qed.

(** ** File names *)

(** C7, as the specification states it, fails: for the context the indexer
    builds for a table file whose only author has an empty name, the rule of
    the specification appends a space, the empty name, a space and the
    version, and the code appends a space and the version. *)
Lemma empty_author_name_is_no_author :
  _build_indexes [Some unnamed_author_game] !! "abc12345" = Some unnamed_author_ctx
  ∧ authors unnamed_author_ctx = [""]
  ∧ spec_gamefile_name unnamed_author_ctx = "Game  1.2"
  ∧ _build_gamefile_name unnamed_author_ctx = "Game 1.2"
  ∧ _build_gamefile_name unnamed_author_ctx ≠ spec_gamefile_name unnamed_author_ctx.
Proof. by vm_compute. Qed.

(** C7, amended: the file name is the override when there is one; otherwise
    the display name with every "/" replaced by "_", followed, when the first
    author's name is not empty, by a space, that name, a space and the
    version (a trailing space when the version is empty), else by a space
    and the version when the version is not empty; then " MOD" and " VR"
    are appended when the tag list holds them.  This is the rule of the
    specification whenever there is no author or the first author's name is
    not empty. *)
Theorem gamefile_name_rule (ctx : TableCtx) :
  _build_gamefile_name ctx = named_gamefile_name ctx
  ∧ (authors ctx = [] ∨ first_author ctx ≠ "" →
     _build_gamefile_name ctx = spec_gamefile_name ctx).
Proof.
  split; [apply build_gamefile_name_named|].
  intros Ha. rewrite build_gamefile_name_named.
  by apply named_spec_gamefile_name.
Qed.

Lemma gamefile_name_rule_witness :
  _build_gamefile_name (table_ctx example_game 0 example_table_file)
  = "Game (X 2020) Smith 1.2 VR"
  ∧ spec_gamefile_name (table_ctx example_game 0 example_table_file)
    = "Game (X 2020) Smith 1.2 VR".
Proof.
  destruct (gamefile_name_rule (table_ctx example_game 0 example_table_file))
    as [_ Hspec].
  rewrite Hspec; [by vm_compute|].
  right. by vm_compute.
Defined.

(** ** Merge Engine *)

(** C2, as the specification states it, fails: a metadata file that holds
    text that is not JSON is not a JSON array, and the run raises the
    parser's error; a lookup file that does not decode makes the run raise
    the decoder's error although the metadata file is absent; and a lookup
    file in which the reader rejects one data row, after the header and a
    well-formed row, makes the run raise the reader's error. *)
Lemma untyped_failures :
  (fatal_as_claimed invalid_json_fs
   ∧ (generate_output_csv example_service invalid_json_fs).2 = Raise JSONDecodeError
   ∧ ¬ is_data_validation_error
         (generate_output_csv example_service invalid_json_fs).2)
  ∧ (fatal_as_claimed undecodable_fs
     ∧ (generate_output_csv example_service undecodable_fs).2
       = Raise UnicodeDecodeError
     ∧ ¬ is_data_validation_error
           (generate_output_csv example_service undecodable_fs).2)
  ∧ (puplookup_csv overlong_field_fs
     = Some (CsvFails [BASE_COLUMNS; example_row] FormatError)
     ∧ ¬ fatal_as_claimed overlong_field_fs
     ∧ (generate_output_csv example_service overlong_field_fs).2
       = Raise CsvError).
Proof.
  split_and!.
  - do 3 right. exists JsonInvalid. by split.
  - by vm_compute.
  - rewrite generate_output_csv_raises. by intros [msg Hmsg].
  - right. right. by left.
  - by vm_compute.
  - rewrite generate_output_csv_raises. by intros [msg Hmsg].
  - done.
  - unfold fatal_as_claimed, headerless.
    intros [H | [[H | [[d H] | (d & e & H)]] | [H | (doc & H & Hdoc)]]];
      try discriminate H.
    injection H as <-. by apply (Hdoc example_vpsdb).
  - by vm_compute.
Qed.

(** C2, amended: a run raises [DataValidationError] exactly when the lookup
    file is absent or has no header row (the reader reaches the end of the
    file without a first row, or the first row it delivers is empty), or,
    the lookup file having been read to its end, the metadata file is
    absent or holds a JSON value that is not an array; in every such case
    nothing is written and the destination is as it was.  A lookup file on
    which the decoder or the reader fails, before any row or after a
    header row, and a metadata file that does not decode or is not JSON
    behind a lookup file that has been read, raise the library's error.  A
    row that the reader delivers never raises: Row Repair returns for
    every row, reading a lookup file that is delivered to its end with a
    header yields the rows Row Repair retains, the others being left out,
    and the run then goes on to its end when the metadata file holds an
    array and the write goes through. *)
Theorem merge_engine_failures (self : ExportService) (fs : FS) :
  (is_data_validation_error (generate_output_csv self fs).2 ↔ fatal fs)
  ∧ (fatal fs →
     (generate_output_csv self fs).1 = []
     ∧ final_state fs (generate_output_csv self fs).1 = fs)
  ∧ (∀ e, lookup_fails fs e →
          (generate_output_csv self fs).2 = Raise (read_exn e))
  ∧ (lookup_read fs → vpsdb_json fs = Some JsonInvalid →
     (generate_output_csv self fs).2 = Raise JSONDecodeError)
  ∧ (lookup_read fs → vpsdb_json fs = Some JsonUndecodable →
     (generate_output_csv self fs).2 = Raise UnicodeDecodeError)
  ∧ (∀ row, ∃ o, _repair_template_row row = Ok o)
  ∧ (∀ path header data,
       header ≠ [] →
       _read_template_rows path (Some (CsvRows (header :: data)))
       = Ok (retained data))
  ∧ (lookup_read fs → (∃ games, vpsdb_json fs = Some (JsonArray games)) →
     fault fs = None →
     (generate_output_csv self fs).2 = Ok (out_path self)).
Proof.
  split_and!.
  - apply fatal_iff.
  - intros Hfatal. apply (fatal_iff self fs) in Hfatal.
    by rewrite (typed_failure_no_write self fs Hfatal).
  - intros e [Hl | (h0 & h & data & Hl)];
      by rewrite generate_output_csv_raises, Hl.
  - intros (h0 & h & data & Hl) Hv.
    by rewrite generate_output_csv_raises, Hl, Hv.
  - intros (h0 & h & data & Hl) Hv.
    by rewrite generate_output_csv_raises, Hl, Hv.
  - apply repair_total.
  - apply read_template_rows_ok.
  - intros (h0 & h & data & Hl) [games Hv] Hf.
    by rewrite generate_output_csv_raises, Hl, Hv, Hf.
Qed.

(** ** Writing the output *)

(** C3: the write is not atomic.  In every run that reaches the write, a
    reader of the destination can observe the file truncated to nothing,
    which is neither the previous file (unless that was empty) nor the new
    one; [atomic_write_bytes], next to it, replaces its destination in one
    step ([atomic_write_bytes_atomic]). *)
Theorem write_shows_truncated_file
    (self : ExportService) (fs : FS) (trace : list FS) (path : string) :
  generate_output_csv self fs = (trace, Ok path) →
  files fs !! path ≠ Some "" →
  Some "" ∈ observations path fs trace
  ∧ files (final_state fs trace) !! path ≠ Some ""
  ∧ ¬ atomic_at path fs trace.
Proof.
  intros Hrun Hold.
  pose proof (generate_output_csv_raises self fs) as Hout.
  rewrite Hrun in Hout. cbn [snd] in Hout.
  destruct (puplookup_csv fs) as [[[|[|h0 h] data]|[|[|h0 h] data] e]|] eqn:Hl;
    try done.
  destruct (vpsdb_json fs) as [[games| | |]|] eqn:Hv; try done.
  destruct (fault fs) as [[|written e]|] eqn:Hf; try done.
  injection Hout as ->.
  destruct (generate_output_csv_ok self fs h0 h data games Hl Hv Hf)
    as (rows & _ & Hrows & Hgen).
  rewrite Hgen in Hrun. injection Hrun as <-.
  assert ((_write_csv (out_path self) rows fs).1
          = [set_file (out_path self) "" fs;
             set_file (out_path self) (csv_bytes rows)
                      (set_file (out_path self) "" fs)]) as <-
    by (unfold _write_csv; by rewrite Hf).
  split_and!.
  - rewrite write_csv_observations by done. set_solver.
  - unfold final_state, _write_csv. rewrite Hf.
    cbn [fst last default set_file files id].
    rewrite lookup_insert_eq. intros [= H].
    by apply (csv_bytes_nonempty rows).
  - by apply write_csv_not_atomic.
Qed.

Lemma write_shows_truncated_file_witness :
  observations "/output/puplookup.csv" example_fs
               (generate_output_csv example_service example_fs).1
  !! 1 = Some (Some "")
  ∧ ¬ atomic_at "/output/puplookup.csv" example_fs
                (generate_output_csv example_service example_fs).1.
Proof.
  split; [by vm_compute|].
  destruct (generate_output_csv example_service example_fs) as [trace r] eqn:Hrun.
  assert (r = Ok "/output/puplookup.csv") as ->.
  { apply (f_equal snd) in Hrun. vm_compute in Hrun. by subst r. }
  apply (write_shows_truncated_file example_service example_fs trace
           "/output/puplookup.csv" Hrun).
  by vm_compute.
Defined.

(** * Further properties of the code *)

(** ** Integers and text *)

Section Integers.

Lemma all_chars_append p s t :
  Py.all_chars p (s +:+ t) = Py.all_chars p s && Py.all_chars p t.
Proof.
  induction s as [|c s IH]; [done|].
  rewrite append_cons. cbn [Py.all_chars]. by rewrite IH, andb_assoc.
Qed.

Lemma digits_acc_append acc d1 d2 :
  digits_acc acc (d1 +:+ d2) = digits_acc (digits_acc acc d1) d2.
Proof.
  revert acc. induction d1 as [|c d1 IH]; intros acc; [done|].
  rewrite append_cons. cbn [digits_acc]. by rewrite IH.
Qed.

Lemma pretty_N_char_digit x :
  (x < 10)%N →
  Py.isdigit (pretty_N_char x) = true ∧ digit_of (pretty_N_char x) = Z.of_N x.
Proof.
  intros Hx.
  assert (x = 0 ∨ x = 1 ∨ x = 2 ∨ x = 3 ∨ x = 4 ∨ x = 5 ∨ x = 6 ∨ x = 7
          ∨ x = 8 ∨ x = 9)%N as Hcases by lia.
  repeat (destruct Hcases as [-> | Hcases]; [by vm_compute|]).
  subst x. by vm_compute.
Qed.

Lemma digit_of_range c : Py.isdigit c = true → (0 ≤ digit_of c < 10)%Z.
Proof.
  unfold Py.isdigit, digit_of. intros [H1 H2]%andb_true_iff.
  apply N.leb_le in H1, H2. lia.
Qed.

Lemma digit_is_id_char c : Py.isdigit c = true → is_id_char c = true.
Proof.
  unfold Py.isdigit, is_id_char. intros ->. by rewrite !orb_true_r.
Qed.

Lemma digits_are_id_chars d :
  Py.all_chars Py.isdigit d = true → Py.all_chars is_id_char d = true.
Proof.
  induction d as [|c d IH]; [done|]. cbn [Py.all_chars].
  intros [Hc Hd]%andb_true_iff. by rewrite (digit_is_id_char c Hc), IH.
Qed.

(** The decimal digits [pretty] writes before [s] for a positive number:
    they read back as the number, and there are no more of them than
    needed. *)
Lemma pretty_N_go_digits x s :
  (0 < x)%N →
  ∃ d, pretty_N_go x s = d +:+ s
       ∧ d ≠ ""
       ∧ Py.all_chars Py.isdigit d = true
       ∧ digits_acc 0 d = Z.of_N x
       ∧ (10 ^ Z.of_nat (String.length d) ≤ 10 * Z.of_N x)%Z.
Proof.
  revert s. induction (N.lt_wf_0 x) as [x _ IH]. intros s Hx.
  rewrite pretty_N_go_step by done.
  destruct (pretty_N_char_digit (x `mod` 10)) as [Hdig Hval];
    [by apply N.mod_lt|].
  pose proof (N.div_mod x 10 ltac:(done)) as Hdm.
  pose proof (N.div_lt x 10 Hx ltac:(done)) as Hlt.
  revert IH Hdig Hval Hdm Hlt.
  generalize (x `mod` 10)%N as r, (x `div` 10)%N as q.
  intros r q IH Hdig Hval Hdm Hlt.
  destruct (decide (q = 0)%N) as [Hz | Hnz].
  - rewrite Hz, pretty_N_go_0. exists (String (pretty_N_char r) "").
    split_and!; [done | done | by cbn; rewrite Hdig | | cbn; lia].
    cbn [digits_acc]. rewrite Hval. lia.
  - destruct (IH q Hlt (String (pretty_N_char r) s))
      as (d & -> & Hne & Hall & Hv & Hlen); [lia|].
    exists (d +:+ String (pretty_N_char r) "").
    split_and!.
    + by rewrite append_assoc.
    + by destruct d.
    + rewrite all_chars_append, Hall. cbn. by rewrite Hdig.
    + rewrite digits_acc_append, Hv. cbn [digits_acc]. rewrite Hval. lia.
    + rewrite length_append. cbn [String.length].
      replace (Z.of_nat (String.length d + 1))
        with (Z.succ (Z.of_nat (String.length d))) by lia.
      rewrite Z.pow_succ_r by lia. lia.
Qed.

(** Reading a string of digits: the value, and one more digit counted for
    each of them. *)
Lemma int_digits_all acc count d :
  Py.all_chars Py.isdigit d = true →
  int_digits acc count false d
  = Some (digits_acc acc d, count + String.length d).
Proof.
  revert acc count. induction d as [|c d IH]; intros acc count.
  - intros _. cbn. by rewrite Nat.add_0_r.
  - cbn [Py.all_chars]. intros [Hc Hd]%andb_true_iff.
    cbn [int_digits digits_acc String.length]. rewrite Hc, IH by done.
    do 2 f_equal. lia.
Qed.

(** What has been read stays below the power of ten of the digits read. *)
Lemma int_digits_bound s acc count flag v c :
  int_digits acc count flag s = Some (v, c) →
  (0 ≤ acc < 10 ^ Z.of_nat count)%Z →
  (0 ≤ v < 10 ^ Z.of_nat c)%Z ∧ count ≤ c.
Proof.
  revert acc count flag. induction s as [|a s IH]; intros acc count flag.
  - cbn. destruct flag; [done|]. by intros [= <- <-].
  - cbn [int_digits]. destruct (Py.isdigit a) eqn:Ha.
    + intros Hs Hacc. apply IH in Hs as [Hv Hc]; [split; [done | lia]|].
      pose proof (digit_of_range a Ha).
      replace (Z.of_nat (S count)) with (Z.succ (Z.of_nat count)) by lia.
      rewrite Z.pow_succ_r by lia. lia.
    + destruct (decide (a = "_"%char)); [|done].
      destruct flag; [done|]. intros Hs Hacc. by apply IH in Hs.
Qed.

Lemma pretty_N_digits (x : N) :
  ∃ d, pretty x = d
       ∧ d ≠ ""
       ∧ Py.all_chars Py.isdigit d = true
       ∧ digits_acc 0 d = Z.of_N x
       ∧ (10 ^ Z.of_nat (String.length d) ≤ 10 * Z.max 1 (Z.of_N x))%Z.
Proof.
  unfold pretty, pretty_N. destruct (decide (x = 0)%N) as [-> | Hx].
  - exists "0". by vm_compute.
  - destruct (pretty_N_go_digits x "") as (d & Hd & Hne & Hall & Hv & Hlen); [lia|].
    exists d. rewrite append_empty_r in Hd. split_and!; [done..|lia].
Qed.

(** The number of decimal digits of an integer. *)
Lemma decimal_of_int (n : Z) :
  ∃ d, Py.str_of_int n = (if (n <? 0)%Z then "-" else "") +:+ d
       ∧ d = pretty (Z.abs_N n)
       ∧ d ≠ ""
       ∧ Py.all_chars Py.isdigit d = true
       ∧ digits_acc 0 d = Z.abs n.
Proof.
  destruct (pretty_N_digits (Z.abs_N n)) as (d & Hd & Hne & Hall & Hv & _).
  exists d. split_and!; [|done..| rewrite Hv; lia].
  rewrite <- Hd. unfold Py.str_of_int, pretty at 1, pretty_Z.
  destruct n as [|p|p]; [done| |]; cbn [Z.ltb Z.compare Z.abs_N]; done.
Qed.

Lemma str_of_int_stripped n : Py.strip (Py.str_of_int n) = Py.str_of_int n.
Proof.
  destruct (decimal_of_int n) as (d & -> & _ & _ & Hall & _).
  apply id_chars_strip.
  rewrite all_chars_append.
  rewrite (digits_are_id_chars d Hall).
  by destruct (n <? 0)%Z.
Qed.

Lemma int_of_stripped_cons c r :
  int_of_stripped (String c r)
  = if decide (c = "-"%char) then int_body true r
    else if decide (c = "+"%char) then int_body false r
    else int_body false (String c r).
Proof. by destruct c as [[] [] [] [] [] [] [] []]. Qed.

Lemma digit_not_sign c :
  Py.isdigit c = true → c ≠ "-"%char ∧ c ≠ "+"%char.
Proof. intros H. split; intros ->; by vm_compute in H. Qed.

Lemma int_body_digits negative d :
  d ≠ "" → Py.all_chars Py.isdigit d = true →
  String.length d ≤ MAX_STR_DIGITS →
  int_body negative d
  = Some (if negative then (- digits_acc 0 d)%Z else digits_acc 0 d).
Proof.
  destruct d as [|c r]; [done|]. intros _ Hall Hlen.
  cbn [Py.all_chars] in Hall. apply andb_true_iff in Hall as [Hc Hr].
  cbn [int_body]. rewrite Hc, int_digits_all by done.
  cbn [String.length] in Hlen.
  rewrite decide_False by (cbn; lia). done.
Qed.

(** [int(str(n))] is [n], as long as [n] has no more digits than [int]
    accepts. *)
Lemma int_of_str_of_int n :
  String.length (pretty (Z.abs_N n)) ≤ MAX_STR_DIGITS →
  int_of_stripped (Py.str_of_int n) = Some n.
Proof.
  intros Hlen.
  destruct (decimal_of_int n) as (d & -> & -> & Hne & Hall & Hv).
  destruct (n <? 0)%Z eqn:Hn.
  - change ("-" +:+ pretty (Z.abs_N n)) with (String "-"%char (pretty (Z.abs_N n))).
    rewrite int_of_stripped_cons, decide_True by done.
    rewrite int_body_digits, Hv by done. f_equal. apply Z.ltb_lt in Hn. lia.
  - rewrite append_empty_l.
    destruct (pretty (Z.abs_N n)) as [|c r] eqn:Hd; [done|].
    pose proof Hall as Hall'. cbn [Py.all_chars] in Hall'.
    apply andb_true_iff in Hall' as [Hc _].
    destruct (digit_not_sign c Hc) as [Hminus Hplus].
    rewrite int_of_stripped_cons, !decide_False by done.
    rewrite int_body_digits, Hv by done. f_equal. apply Z.ltb_ge in Hn. lia.
Qed.

Lemma int_body_bound negative body n :
  int_body negative body = Some n →
  String.length (pretty (Z.abs_N n)) ≤ MAX_STR_DIGITS.
Proof.
  destruct body as [|c r]; [done|]. cbn [int_body].
  destruct (Py.isdigit c) eqn:Hc; [|done].
  destruct (int_digits _ _ _ _) as [[v count]|] eqn:Hd; [|done].
  destruct (decide _) as [|Hcount]; [done|]. intros [= <-].
  apply int_digits_bound in Hd as [Hv Hc1];
    [|pose proof (digit_of_range c Hc); change (10 ^ Z.of_nat 1)%Z with 10%Z; lia].
  destruct (pretty_N_digits (Z.abs_N (if negative then (- v)%Z else v)))
    as (d & -> & _ & _ & _ & Hlen).
  assert (Z.of_N (Z.abs_N (if negative then (- v)%Z else v)) = v) as Habs
    by (destruct negative; lia).
  rewrite Habs in Hlen.
  assert (10 ^ Z.of_nat (String.length d) < 10 ^ Z.of_nat (S count))%Z as Hpow.
  { replace (Z.of_nat (S count)) with (Z.succ (Z.of_nat count)) by lia.
    rewrite Z.pow_succ_r by lia.
    destruct (decide (v = 0%Z)) as [-> | Hv0].
    - assert (10 ^ 1 ≤ 10 ^ Z.of_nat count)%Z
        by (apply Z.pow_le_mono_r; lia).
      change (10 ^ 1)%Z with 10%Z in *. lia.
    - lia. }
  apply Z.pow_lt_mono_r_iff in Hpow; lia.
Qed.

(** An integer that [int] has read has no more digits than [int] accepts. *)
Lemma int_of_stripped_bound t n :
  int_of_stripped t = Some n →
  String.length (pretty (Z.abs_N n)) ≤ MAX_STR_DIGITS.
Proof.
  destruct t as [|c r]; [done|]. rewrite int_of_stripped_cons.
  repeat case_decide; apply int_body_bound.
Qed.

Lemma utf8_decode_utf8 t : utf8_decode (utf8 t) = Some t.
Proof.
  induction t as [|c t IH]; [done|].
  destruct c as [[] [] [] [] [] [] [] []]; simpl; by rewrite IH.
Qed.

End Integers.

(** ** Links, numbers and names of the database *)

Section Links.

Lemma norm_weblink_cases url :
  _norm_weblink url = ""
  ∨ (_norm_weblink url = Py.strip url
     ∧ (Py.lower (Py.strip url) ∉ ["not available"; "n/a"; "na"; "none"])
     ∧ Py.contains "ipdb.org" (Py.lower (Py.strip url)) = true).
Proof.
  unfold _norm_weblink.
  destruct (Py.truthy url); cbn [negb]; [|by left].
  case_bool_decide; [by left|].
  destruct (Py.contains _ _) eqn:Hc; cbn [negb]; [by right|by left].
Qed.

Lemma take_digits_digits s : Py.all_chars Py.isdigit (take_digits s) = true.
Proof.
  induction s as [|c s IH]; [done|]. cbn [take_digits].
  destruct (Py.isdigit c) eqn:E; [|done]. cbn [Py.all_chars]. by rewrite E.
Qed.

Lemma skip_append p r : skip (String.length p) (p +:+ r) = r.
Proof. induction p as [|c p IH]; [by destruct r|]. exact IH. Qed.

Lemma literal_then_digits_inv lit s d :
  literal_then_digits lit s = Some d →
  ∃ r, s = lit +:+ r ∧ d = take_digits r ∧ d ≠ "".
Proof.
  unfold literal_then_digits. destruct (Py.startswith lit s) eqn:Hs; [|done].
  apply startswith_inv in Hs as [r ->]. rewrite skip_append.
  destruct (Py.truthy (take_digits r)) eqn:Ht; [|done]. intros [= <-].
  exists r. split_and!; [done..|]. by apply truthy_true.
Qed.

Lemma literal_then_digits_append lit r :
  literal_then_digits lit (lit +:+ r)
  = if Py.truthy (take_digits r) then Some (take_digits r) else None.
Proof.
  unfold literal_then_digits. by rewrite startswith_append, skip_append.
Qed.

Lemma contains_append_r sub p s :
  Py.contains sub s = true → Py.contains sub (p +:+ s) = true.
Proof.
  intros H. induction p as [|c p IH]; [done|].
  rewrite append_cons, contains_cons, IH. apply orb_true_r.
Qed.

Lemma contains_prefix sub r : Py.contains sub (sub +:+ r) = true.
Proof.
  destruct (sub +:+ r) eqn:E.
  - destruct sub; [done|]. by rewrite append_cons in E.
  - rewrite contains_cons, <- E, startswith_append. done.
Qed.

Lemma search_ipdb_id_inv s d :
  search_ipdb_id s = Some d →
  Py.all_chars Py.isdigit d = true ∧ d ≠ "" ∧ Py.contains "id=" s = true.
Proof.
  induction s as [|c s IH]; [by vm_compute|].
  cbn [search_ipdb_id].
  destruct (literal_then_digits "id=" _) as [d1|] eqn:E1.
  { intros [= <-]. apply literal_then_digits_inv in E1 as (r & -> & -> & Hne).
    split_and!; [apply take_digits_digits | done | apply contains_prefix]. }
  destruct (literal_then_digits "machine.cgi?id=" _) as [d2|] eqn:E2.
  { intros [= <-]. apply literal_then_digits_inv in E2 as (r & -> & -> & Hne).
    split_and!; [apply take_digits_digits | done |].
    change ("machine.cgi?id=" +:+ r) with ("machine.cgi?" +:+ ("id=" +:+ r)).
    apply contains_append_r, contains_prefix. }
  intros H. destruct (IH H) as (? & ? & Hc). split_and!; [done..|].
  rewrite contains_cons, Hc. apply orb_true_r.
Qed.

Lemma search_id_skip c s :
  Py.startswith "id=" (String c s) = false →
  search_id (String c s) = search_id s.
Proof.
  intros H. cbn [search_id]. unfold literal_then_digits at 1. by rewrite H.
Qed.

Lemma search_id_hit r :
  Py.truthy (take_digits r) = true →
  search_id ("id=" +:+ r) = Some (take_digits r).
Proof.
  intros H. pose proof (literal_then_digits_append "id=" r) as E.
  rewrite H in E.
  change ("id=" +:+ r) with (String "i"%char ("d=" +:+ r)) in *.
  cbn [search_id]. by rewrite E.
Qed.

Lemma search_id_eq s : search_ipdb_id s = search_id s.
Proof.
  induction s as [|c s IH]; [done|].
  cbn [search_ipdb_id search_id].
  destruct (literal_then_digits "id=" _) as [d1|] eqn:E1; [done|].
  destruct (literal_then_digits "machine.cgi?id=" _) as [d2|] eqn:E2; [|exact IH].
  apply literal_then_digits_inv in E2 as (r & E & -> & Hne).
  change ("machine.cgi?id=" +:+ r)
    with (String "m"%char ("achine.cgi?" +:+ ("id=" +:+ r))) in E.
  injection E as _ ->.
  change ("achine.cgi?" +:+ ("id=" +:+ r))
    with (String "a" (String "c" (String "h" (String "i" (String "n"
           (String "e" (String "." (String "c" (String "g" (String "i"
           (String "?" ("id=" +:+ r)))))))))))).
  do 11 (rewrite search_id_skip by (by vm_compute)).
  rewrite search_id_hit; [done | by apply truthy_true].
Qed.

(** X1: the normalised link of a game is empty, or it is the trimmed URL
    and mentions "ipdb.org" in some letter case; normalising it again
    changes nothing. *)
Theorem norm_weblink_idempotent url :
  (_norm_weblink url = ""
   ∨ (_norm_weblink url = Py.strip url
      ∧ Py.contains "ipdb.org" (Py.lower (_norm_weblink url)) = true))
  ∧ _norm_weblink (_norm_weblink url) = _norm_weblink url.
Proof.
  destruct (norm_weblink_cases url) as [E | (E & Hn & Hc)]; rewrite E.
  { split; [by left | done]. }
  split; [by right|].
  assert (Py.truthy (Py.strip url) = true) as Ht.
  { apply truthy_true. intros E0. rewrite E0 in Hc. by vm_compute in Hc. }
  unfold _norm_weblink. rewrite Ht, strip_idem. cbn [negb].
  rewrite bool_decide_eq_false_2 by done. by rewrite Hc.
Qed.

(** X2: the IPDB number parsed from a link is made of decimal digits only,
    and it is empty when the link does not hold "id=". *)
Theorem parse_ipdb_num_digits u :
  Py.all_chars Py.isdigit (_parse_ipdb_num u) = true
  ∧ (Py.contains "id=" u = false → _parse_ipdb_num u = "").
Proof.
  unfold _parse_ipdb_num. destruct (Py.truthy u); cbn [negb]; [|done].
  destruct (search_ipdb_id u) as [d|] eqn:E; [|done].
  apply search_ipdb_id_inv in E as (Hd & _ & Hc). cbn [default].
  split; [done|]. by rewrite Hc.
Qed.

(** X3: the alternative [machine\.cgi\?id=] of the pattern is redundant:
    the number parsed is the digits after the first "id=" that digits
    follow. *)
Theorem parse_ipdb_num_first_id u :
  _parse_ipdb_num u = default "" (search_id u).
Proof.
  unfold _parse_ipdb_num. rewrite search_id_eq.
  destruct u; [done|]. done.
Qed.

End Links.

(** ** File names *)

Section Separator.

Lemma contains_char_append a s t :
  Py.contains (String a "") (s +:+ t)
  = Py.contains (String a "") s || Py.contains (String a "") t.
Proof.
  induction s as [|c s IH]; [done|].
  rewrite append_cons, !contains_cons, IH. cbn [Py.startswith].
  by destruct (decide (a = c)).
Qed.

Lemma sanitize_no_separator s :
  Py.contains "/" (_sanitize_filename_part s) = false.
Proof.
  unfold _sanitize_filename_part.
  induction s as [|c s IH]; [done|].
  cbn [Py.replace_char]. rewrite contains_cons, IH. cbn [Py.startswith].
  destruct (decide (c = "/"%char)) as [->|Hc]; [done|].
  by rewrite decide_False by done.
Qed.

(** X4: without an override, the file name built for a context holds no
    path separator, provided the name of the first author and the version
    hold none: every "/" of the display name is replaced. *)
Theorem gamefile_name_no_separator (ctx : TableCtx) :
  tf_gamefile_name ctx = "" →
  Py.contains "/" (first_author ctx) = false →
  Py.contains "/" (version ctx) = false →
  Py.contains "/" (_build_gamefile_name ctx) = false.
Proof.
  intros Ho Ha Hv. rewrite build_gamefile_name_named.
  unfold named_gamefile_name. rewrite decide_False by (by rewrite Ho; intros []).
  pose proof (sanitize_no_separator (game_name ctx)) as Hs.
  unfold _sanitize_filename_part in Hs.
  repeat case_decide; rewrite ?contains_char_append, ?Hs, ?Ha, ?Hv; done.
Qed.

Lemma gamefile_name_no_separator_witness :
  game_name acdc_ctx = "AC/DC (Stern 2012)"
  ∧ Py.contains "/" (_build_gamefile_name acdc_ctx) = false.
Proof.
  split; [reflexivity|].
  apply (gamefile_name_no_separator acdc_ctx); reflexivity.
Defined.

End Separator.

(** ** A manufacturer split at a comma *)

Section SplitManufacturer.

Lemma length_18_inv {A} (l : list A) :
  length l = 18 →
  ∃ a0 a1 a2 a3 a4 a5 a6 a7 a8 a9 a10 a11 a12 a13 a14 a15 a16 a17,
    l = [a0; a1; a2; a3; a4; a5; a6; a7; a8; a9; a10; a11; a12; a13; a14;
         a15; a16; a17].
Proof.
  intros H. do 18 (destruct l as [|? l]; [done|]).
  destruct l; [|done]. by repeat eexists.
Qed.

(** X5: a row of 18 fields whose field 3 is not a year and whose field 4
    is one had its manufacturer split at a comma: fields 2 and 3 are joined
    again with ", ", and the row of 17 fields is retained exactly when its
    last field, trimmed, is an identifier. *)
Theorem repair_rejoins_manufacturer (row : list string) (r2 r3 r4 e : string) :
  length row = 18 →
  row !! 2 = Some r2 → row !! 3 = Some r3 → row !! 4 = Some r4 →
  row !! 17 = Some e →
  YEAR_RE_match (Py.strip r3) = false →
  YEAR_RE_match (Py.strip r4) = true →
  _repair_template_row row
  = if VPS_ID_RE_match (Py.strip e)
    then Ok (Some (take 2 row ++ [Py.rstrip r2 +:+ ", " +:+ Py.lstrip r3]
                     ++ drop 4 row))
    else Ok None.
Proof.
  intros Hlen H2 H3 H4 H17 Hy3 Hy4.
  destruct (length_18_inv row Hlen)
    as (a0&a1&a2&a3&a4&a5&a6&a7&a8&a9&a10&a11&a12&a13&a14&a15&a16&a17&->).
  cbn in H2, H3, H4, H17. simplify_eq.
  rewrite repair_unfold by (cbn; lia).
  unfold repair_case_A. rewrite BASE_COLUMNS_length, decide_True by done.
  cbn [Py.getitem lookup list_lookup mbind result_bind].
  rewrite Hy3, Hy4. cbn [negb].
  cbn [Py.getitem lookup list_lookup mbind result_bind].
  unfold Py.setitem, Py.delitem.
  rewrite decide_True by (cbn; lia). cbn [mbind result_bind].
  rewrite decide_True by (cbn; lia).
  cbn [list_insert insert delete list_delete take drop app].
  cbn [mbind result_bind]. rewrite repair_case_B_17 by done. cbn [mbind result_bind].
  erewrite validate_17 by done.
  by destruct (VPS_ID_RE_match (Py.strip e)).
Qed.

Lemma repair_rejoins_manufacturer_witness :
  _repair_template_row split_manufacturer_row
  = Ok (Some (<[2 := "Bally, Midway"]> example_row)).
Proof.
  apply (repair_rejoins_manufacturer split_manufacturer_row
           "Bally" " Midway" "2020" "abc12345"); reflexivity.
Defined.

End SplitManufacturer.

(** ** The two indexes of the database *)

Section Indexes.

Lemma str_or_empty s : str_or s "" = s.
Proof. by destruct s. Qed.

Lemma agree_insert ctxs masters vid ctx :
  agree ctxs masters →
  agree (<[vid := ctx]> ctxs) (<[vid := game_id ctx]> masters).
Proof.
  intros H v. destruct (decide (vid = v)) as [->|Hne].
  - by rewrite !lookup_insert_eq.
  - rewrite !lookup_insert_ne by done. apply H.
Qed.

Lemma agree_table_files g (l : list (option TableFile)) (j : nat → nat)
    ctxs masters :
  agree ctxs masters →
  agree
    (foldl (λ out '(idx, otf),
              match otf with
              | None => out
              | Some tf =>
                  match f_id tf with
                  | None => out
                  | Some vid =>
                      if negb (Py.truthy vid) then out
                      else <[vid := table_ctx g idx tf]> out
                  end
              end)
           ctxs (imap (λ i x, (j i, x)) l))
    (foldl (λ out otf,
              match otf with
              | None => out
              | Some tf =>
                  match f_id tf with
                  | None => out
                  | Some vid =>
                      if negb (Py.truthy vid) then out
                      else <[vid := str_or (or_empty (f_game_id tf))
                                           (or_empty (g_id g))]> out
                  end
              end)
           masters l).
Proof.
  revert j ctxs masters.
  induction l as [|otf l IH]; intros j ctxs masters H; [done|].
  cbn [imap foldl]. apply (IH (λ i, j (S i))).
  destruct otf as [tf|]; [|done]. destruct (f_id tf) as [vid|]; [|done].
  destruct (negb _); [done|].
  assert (str_or (or_empty (f_game_id tf)) (or_empty (g_id g))
          = game_id (table_ctx g (j 0) tf)) as ->
    by (cbn [game_id table_ctx]; by rewrite str_or_empty).
  by apply agree_insert.
Qed.

Lemma agree_game g ctxs masters :
  agree ctxs masters → agree (index_game ctxs g) (master_game masters g).
Proof. apply (agree_table_files g _ id). Qed.

Lemma build_maps_agree vpsdb :
  agree (_build_indexes vpsdb) (_build_master_map vpsdb).
Proof.
  unfold _build_indexes, _build_master_map.
  assert (agree ∅ ∅) as H0 by (intros v; by rewrite !lookup_empty).
  revert H0. generalize (∅ : gmap string TableCtx) (∅ : gmap string string).
  induction vpsdb as [|og l IH]; intros ctxs masters H; [done|].
  cbn [foldl]. apply IH. destruct og; [by apply agree_game | done].
Qed.

(** X6: the two passes over the database agree: an identifier has a
    context exactly when it has an owning identifier, and that one is the
    game identifier of its context.  The fallback of [_generate_rows] on
    the context is thus never taken. *)
Theorem master_map_agrees (vpsdb : list (option Game)) (vid : string) :
  _build_master_map vpsdb !! vid = game_id <$> _build_indexes vpsdb !! vid
  ∧ ∀ ctx, _build_indexes vpsdb !! vid = Some ctx →
           default (game_id ctx) (_build_master_map vpsdb !! vid) = game_id ctx.
Proof.
  pose proof (build_maps_agree vpsdb vid) as H. split; [done|].
  intros ctx Hctx. by rewrite H, Hctx.
Qed.

End Indexes.

(** ** Rows that have a context *)

Section Enriched.

Lemma weblink2_guard master vps_id :
  (if Py.truthy master then _weblink2 master vps_id else "")
  = _weblink2 master vps_id.
Proof. by destruct master. Qed.

Lemma enrich_row_context ctx_by_vpsid master_by_vpsid trow vps_id ctx :
  length trow = 17 → trow !! 16 = Some vps_id →
  ctx_by_vpsid !! vps_id = Some ctx →
  enrich_row ctx_by_vpsid master_by_vpsid trow
  = Ok [_build_gamefile_name ctx; game_name ctx; manufacturer ctx; year ctx;
        players ctx; game_type ctx; default "" (trow !! 6); theme ctx;
        ipdb_url ctx;
        _weblink2 (default (game_id ctx) (master_by_vpsid !! vps_id)) vps_id;
        ipdb_num ctx; default "" (trow !! 10); designers ctx;
        Py.join ", " (authors ctx); version ctx; default "" (trow !! 14);
        Py.join ", " (tags_list ctx); vps_id; vps_id;
        default (game_id ctx) (master_by_vpsid !! vps_id)].
Proof.
  intros Hlen Hv Hctx.
  destruct (length_ge_17_inv trow ltac:(lia)) as
    (a0&a1&a2&a3&a4&a5&a6&a7&a8&a9&a10&a11&a12&a13&a14&a15&a16&rest&->).
  destruct rest; [|done]. cbn in Hv. simplify_eq.
  unfold enrich_row.
  change (Py.getitem _ (Py.index "VPS-ID" BASE_COLUMNS)) with (Ok (A:=string) vps_id).
  cbn [mbind result_bind]. rewrite Hctx, weblink2_guard.
  generalize (default (game_id ctx) (master_by_vpsid !! vps_id)) as master.
  generalize (_build_gamefile_name ctx) as name.
  intros name master. by vm_compute.
Qed.

(** X7: in a run, where both indexes come from the same database, the
    output row of a template row whose identifier has a context takes
    every field from the context but [Category], [AltRunMode] and [Rom]
    (indexes 6, 11 and 15 of the output), which are those of the template
    row; the owning identifier is the game identifier of the context, and
    the second link is made from it. *)
Theorem enrich_row_with_context
    (vpsdb : list (option Game)) (trow : list string)
    (vps_id category alt_run_mode rom : string) (ctx : TableCtx) :
  length trow = 17 → trow !! 16 = Some vps_id →
  trow !! 6 = Some category → trow !! 10 = Some alt_run_mode →
  trow !! 14 = Some rom →
  _build_indexes vpsdb !! vps_id = Some ctx →
  enrich_row (_build_indexes vpsdb) (_build_master_map vpsdb) trow
  = Ok [_build_gamefile_name ctx; game_name ctx; manufacturer ctx; year ctx;
        players ctx; game_type ctx; category; theme ctx; ipdb_url ctx;
        _weblink2 (game_id ctx) vps_id; ipdb_num ctx; alt_run_mode;
        designers ctx; Py.join ", " (authors ctx); version ctx; rom;
        Py.join ", " (tags_list ctx); vps_id; vps_id; game_id ctx].
Proof.
  intros Hlen Hv H6 H10 H14 Hctx.
  rewrite (enrich_row_context _ _ trow vps_id ctx) by done.
  rewrite H6, H10, H14. cbn [default].
  by rewrite (build_maps_agree vpsdb vps_id), Hctx.
Qed.

Lemma enrich_row_with_context_witness :
  enrich_row (_build_indexes example_vpsdb) (_build_master_map example_vpsdb)
             example_row
  = Ok example_output.
Proof.
  apply (enrich_row_with_context example_vpsdb example_row "abc12345" "Cat" ""
           "rom" (table_ctx example_game 0 example_table_file));
    by vm_compute.
Defined.

End Enriched.

(** ** The order of the output *)

Section Order.

Lemma filter_snd_keyed (key : list string → sort_key) (k : sort_key)
    (l : list (sort_key * list string)) :
  Forall (λ y, y.1 = key y.2) l →
  filter (λ r, key r = k) (l.*2) = (filter (λ y, y.1 = k) l).*2.
Proof.
  induction 1 as [|y l Hy _ IH]; [done|].
  rewrite fmap_cons, !filter_cons, IH, Hy.
  by destruct (decide (key y.2 = k)).
Qed.

Lemma keyed_rows_snd (key : list string → sort_key) (rows : list (list string)) :
  ((λ r, (key r, r)) <$> rows).*2 = rows.
Proof.
  rewrite <- list_fmap_compose. rewrite <- (list_fmap_id rows) at 2.
  by apply list_fmap_ext.
Qed.

(** X8: the sort is stable: the output rows that have one and the same
    key (the rows without a context, for one, or the rows of one
    identifier) stand in the order of their template rows. *)
Theorem generate_rows_stable
    (ctx_by_vpsid : gmap string TableCtx) (master_by_vpsid : gmap string string)
    (template_rows : list (list string)) :
  Forall (λ trow, 17 ≤ length trow) template_rows →
  ∃ rows data,
    for_each (enrich_row ctx_by_vpsid master_by_vpsid) template_rows = Ok rows
    ∧ _generate_rows template_rows ctx_by_vpsid master_by_vpsid
      = Ok (OUT_COLUMNS :: data)
    ∧ ∀ k, filter (λ r, claimed_key ctx_by_vpsid r = k) data
           = filter (λ r, claimed_key ctx_by_vpsid r = k) rows.
Proof.
  intros H.
  destruct (generate_rows_sorted ctx_by_vpsid master_by_vpsid template_rows H)
    as (rows & Hrows & _ & Hgen).
  eexists rows, _. split_and!; [done..|]. intros k.
  assert (Forall (λ y : sort_key * list string, y.1 = claimed_key ctx_by_vpsid y.2)
                 ((λ r, (claimed_key ctx_by_vpsid r, r)) <$> rows)) as Hkeys
    by (apply Forall_fmap, Forall_forall; done).
  rewrite filter_snd_keyed by (by rewrite sort_keyed_perm).
  rewrite sort_keyed_stable.
  rewrite <- (filter_snd_keyed (claimed_key ctx_by_vpsid)) by done.
  by rewrite keyed_rows_snd.
Qed.

Lemma generate_rows_stable_witness :
  ∃ rows data,
    for_each (enrich_row (_build_indexes example_vpsdb)
                         (_build_master_map example_vpsdb))
             [orphan_row; example_row; orphan_row] = Ok rows
    ∧ _generate_rows [orphan_row; example_row; orphan_row]
                     (_build_indexes example_vpsdb)
                     (_build_master_map example_vpsdb)
      = Ok (OUT_COLUMNS :: data)
    ∧ ∀ k, filter (λ r, claimed_key (_build_indexes example_vpsdb) r = k) data
           = filter (λ r, claimed_key (_build_indexes example_vpsdb) r = k) rows.
Proof.
  apply (generate_rows_stable (_build_indexes example_vpsdb)
           (_build_master_map example_vpsdb)
           [orphan_row; example_row; orphan_row]).
  repeat constructor.
Defined.



End Order.

(** ** A run that writes *)

Section Rerun.

Lemma set_file_twice path a b fs :
  set_file path a (set_file path b fs) = set_file path a fs.
Proof. unfold set_file. cbn. by rewrite insert_insert_eq. Qed.




End Rerun.

(** ** A write that fails *)

Section FailedWrite.



End FailedWrite.

(** ** The features and the identifiers of the database *)

Section Coverage.

Lemma foldl_keeps {A} (f : gmap string TableCtx → A → gmap string TableCtx)
    (vid : string) (l : list A) (out : gmap string TableCtx) :
  (∀ out y, is_Some (out !! vid) → is_Some (f out y !! vid)) →
  is_Some (out !! vid) → is_Some (foldl f out l !! vid).
Proof.
  intros Hf. revert out. induction l as [|y l IH]; intros out H; [done|].
  cbn [foldl]. by apply IH, Hf.
Qed.

Lemma foldl_reaches {A} (f : gmap string TableCtx → A → gmap string TableCtx)
    (vid : string) (l : list A) (out : gmap string TableCtx) (x : A) :
  (∀ out y, is_Some (out !! vid) → is_Some (f out y !! vid)) →
  (∀ out, is_Some (f out x !! vid)) →
  x ∈ l → is_Some (foldl f out l !! vid).
Proof.
  intros Hf Hx Hin. revert out.
  induction Hin as [x l | x y l _ IH]; intros out; cbn [foldl].
  - apply foldl_keeps; [exact Hf | apply Hx].
  - by apply IH.
Qed.

Lemma index_step_keeps g vid (out : gmap string TableCtx)
    (y : nat * option TableFile) :
  is_Some (out !! vid) →
  is_Some ((let '(idx, otf) := y in
            match otf with
            | None => out
            | Some tf =>
                match f_id tf with
                | None => out
                | Some vid' =>
                    if negb (Py.truthy vid') then out
                    else <[vid' := table_ctx g idx tf]> out
                end
            end) !! vid).
Proof.
  intros H. destruct y as [idx [tf|]]; [|done].
  destruct (f_id tf) as [vid'|]; [|done]. destruct (negb _); [done|].
  rewrite lookup_insert_is_Some. destruct (decide (vid' = vid)); auto.
Qed.

Lemma index_game_keeps g vid out :
  is_Some (out !! vid) → is_Some (index_game out g !! vid).
Proof. apply foldl_keeps. intros. by apply index_step_keeps. Qed.

(** X13: every table file of the database that has an identifier, and
    not the empty one, has an entry in both indexes. *)
Theorem build_indexes_complete
    (vpsdb : list (option Game)) (g : Game) (idx : nat) (tf : TableFile)
    (vid : string) :
  Some g ∈ vpsdb →
  default [] (g_tableFiles g) !! idx = Some (Some tf) →
  f_id tf = Some vid → vid ≠ "" →
  is_Some (_build_indexes vpsdb !! vid)
  ∧ is_Some (_build_master_map vpsdb !! vid).
Proof.
  intros Hg Htf Hid Hne.
  assert (is_Some (_build_indexes vpsdb !! vid)) as H.
  { unfold _build_indexes.
    apply (foldl_reaches _ vid vpsdb ∅ (Some g)); [| |done].
    - intros out [g'|] H; [by apply index_game_keeps | done].
    - intros out. unfold index_game.
      apply (foldl_reaches _ vid _ out (idx, Some tf)).
      + intros. by apply index_step_keeps.
      + intros out'. rewrite Hid. apply truthy_true in Hne. rewrite Hne.
        cbn [negb]. rewrite lookup_insert_eq. done.
      + unfold enumerate. apply elem_of_lookup_imap. by exists idx, (Some tf). }
  split; [done|]. rewrite (build_maps_agree vpsdb vid).
  by apply fmap_is_Some.
Qed.



End Coverage.

(** ** The cache of the remote files *)

Section Cache.

Lemma append_inj_l p s t : p +:+ s = p +:+ t → s = t.
Proof. induction p as [|c p IH]; [done|]. intros [= H]. by apply IH. Qed.

Lemma path_join_inj dir a b : path_join dir a = path_join dir b → a = b.
Proof. unfold path_join. intros H. by do 2 apply append_inj_l in H. Qed.

Lemma path_join_tmp dir a :
  path_join dir a +:+ ".tmp" = path_join dir (a +:+ ".tmp").
Proof. unfold path_join. by rewrite !append_assoc. Qed.

Lemma download_all_trace self n pup vps d :
  Sync.fetch_puplookup_csv_bytes (Sync.client self) = Sync.Got pup →
  Sync.fetch_vpsdb_json_bytes (Sync.client self) = Sync.Got vps →
  Sync._download_all self n d
  = (download_states (Sync.data_dir self) pup vps n d, Sync.Got ()).
Proof.
  intros Hp Hv. unfold Sync._download_all, mbind, Sync.io_bind, Sync.pure.
  rewrite Hp, Hv. reflexivity.
Qed.

Lemma download_all_failed self n d :
  Sync.fetch_puplookup_csv_bytes (Sync.client self) = Sync.Failed Sync.RemoteFetchError
  ∨ Sync.fetch_vpsdb_json_bytes (Sync.client self) = Sync.Failed Sync.RemoteFetchError →
  Sync._download_all self n d = ([], Sync.Failed Sync.RemoteFetchError).
Proof.
  unfold Sync._download_all, mbind, Sync.io_bind, Sync.pure.
  unfold Sync.fetch_puplookup_csv_bytes, Sync.fetch_vpsdb_json_bytes,
    Sync.http_get.
  destruct (Sync.puplookup_response _), (Sync.vpsdb_response _);
    intros [H|H]; done.
Qed.

Lemma download_all_cases self n d :
  (∃ pup vps,
     Sync.puplookup_response (Sync.client self) = Some pup
     ∧ Sync.vpsdb_response (Sync.client self) = Some vps
     ∧ Sync._download_all self n d
       = (download_states (Sync.data_dir self) pup vps n d, Sync.Got ()))
  ∨ ((Sync.puplookup_response (Sync.client self) = None
      ∨ Sync.vpsdb_response (Sync.client self) = None)
     ∧ Sync._download_all self n d = ([], Sync.Failed Sync.RemoteFetchError)).
Proof.
  destruct (Sync.puplookup_response (Sync.client self)) as [pup|] eqn:Hp;
    [destruct (Sync.vpsdb_response (Sync.client self)) as [vps|] eqn:Hv|].
  - left. exists pup, vps. split_and!; [done..|].
    apply download_all_trace; unfold Sync.fetch_puplookup_csv_bytes,
      Sync.fetch_vpsdb_json_bytes; by rewrite ?Hp, ?Hv.
  - right. split; [by right|]. apply download_all_failed. right.
    unfold Sync.fetch_vpsdb_json_bytes. by rewrite Hv.
  - right. split; [by left|]. apply download_all_failed. left.
    unfold Sync.fetch_puplookup_csv_bytes. by rewrite Hp.
Qed.

Ltac paths_ne :=
  let E := fresh in
  intros E; rewrite ?path_join_tmp in E; apply path_join_inj in E;
  discriminate E.

Ltac map_lookup :=
  rewrite ?path_join_tmp;
  repeat first
    [ rewrite lookup_insert_eq
    | rewrite lookup_delete_eq
    | rewrite lookup_insert_ne by paths_ne
    | rewrite lookup_delete_ne by paths_ne ].

Lemma download_states_last dir pup vps n d :
  last (download_states dir pup vps n d)
  = Some (<[path_join dir "lastUpdated.json" := utf8 (Py.str_of_int n)]>
            (<[path_join dir "vpsdb.json" := vps]>
               (<[path_join dir "puplookup.csv" := pup]>
                  (delete (path_join dir "vpsdb.json.tmp")
                     (delete (path_join dir "puplookup.csv.tmp") d))))).
Proof.
  unfold download_states. cbn [last]. f_equal.
  rewrite !path_join_tmp. cbn [append].
  rewrite insert_insert_eq, !delete_insert_eq.
  by rewrite delete_insert_ne by paths_ne.
Qed.


Lemma last_state_two d a b : Sync.last_state d [a; b] = b.
Proof. done. Qed.


(** X15: [atomic_write_bytes] leaves the data at the destination and no
    temporary file (a file that was at the temporary path is lost), and in
    every state it goes through the destination holds what it held before,
    or the data. *)
Theorem atomic_write_effect (path data : string) (d : gmap string string) :
  Sync.last_state d (Sync.atomic_write path data d).1
  = <[path := data]> (delete (path +:+ ".tmp") d)
  ∧ Sync.last_state d (Sync.atomic_write path data d).1 !! (path +:+ ".tmp")
    = None
  ∧ Forall (λ st, st !! path = d !! path ∨ st !! path = Some data)
           (Sync.atomic_write path data d).1.
Proof.
  assert (path +:+ ".tmp" ≠ path) as Hne
    by (intros E; by apply (append_ne path ".tmp")).
  unfold Sync.atomic_write, atomic_write_bytes. cbn.
  rewrite !delete_insert_eq. split_and!; [done| |].
  - rewrite lookup_insert_ne by done. apply lookup_delete_eq.
  - repeat apply Forall_cons_2; [..|by apply Forall_nil].
    + left. by rewrite lookup_insert_ne.
    + left. by rewrite !lookup_insert_ne.
    + right. by rewrite lookup_insert_eq.
Qed.

Lemma download_states_final dir pup vps n d :
  Sync.last_state d (download_states dir pup vps n d)
  = <[path_join dir "lastUpdated.json" := utf8 (Py.str_of_int n)]>
      (<[path_join dir "vpsdb.json" := vps]>
         (<[path_join dir "puplookup.csv" := pup]>
            (delete (path_join dir "vpsdb.json.tmp")
               (delete (path_join dir "puplookup.csv.tmp") d)))).
Proof. unfold Sync.last_state. by rewrite download_states_last. Qed.

Lemma download_states_cached dir pup vps n d :
  cached dir pup vps n (Sync.last_state d (download_states dir pup vps n d)).
Proof.
  rewrite download_states_final. unfold cached.
  split_and!; by map_lookup.
Qed.

(** X16: a download that returns leaves the two files as the remote sent
    them and the timestamp written as a decimal, no temporary file, and
    every other path as it was. *)
Theorem download_all_effect
    (self : Sync.SyncService) (n : Z) (d : gmap string string)
    (trace : list (gmap string string)) :
  Sync._download_all self n d = (trace, Sync.Got ()) →
  ∃ pup vps,
    Sync.puplookup_response (Sync.client self) = Some pup
    ∧ Sync.vpsdb_response (Sync.client self) = Some vps
    ∧ cached (Sync.data_dir self) pup vps n (Sync.last_state d trace)
    ∧ Sync.last_state d trace
      !! path_join (Sync.data_dir self) "puplookup.csv.tmp" = None
    ∧ Sync.last_state d trace
      !! path_join (Sync.data_dir self) "vpsdb.json.tmp" = None
    ∧ ∀ q, q ∉ path_join (Sync.data_dir self) <$> cache_names →
           Sync.last_state d trace !! q = d !! q.
Proof.
  intros H.
  destruct (download_all_cases self n d)
    as [(pup & vps & Hp & Hv & E) | [_ E]]; rewrite E in H; [|done].
  injection H as <-. exists pup, vps. split_and!; [done..| | | |].
  - apply download_states_cached.
  - rewrite download_states_final. by map_lookup.
  - rewrite download_states_final. by map_lookup.
  - intros q Hq. rewrite download_states_final.
    cbn in Hq. rewrite !not_elem_of_cons in Hq.
    destruct Hq as (? & ? & ? & ? & ? & _).
    rewrite !lookup_insert_ne, !lookup_delete_ne by done. done.
Qed.

(** X17: in every state a download takes the disk through, either data
    file holds what it held before, or what the remote sent; and once the
    timestamp file has changed both data files hold what the remote sent:
    the timestamp is written last. *)
Theorem download_all_timestamp_last
    (self : Sync.SyncService) (n : Z) (d : gmap string string)
    (trace : list (gmap string string)) (r : Sync.attempt ())
    (st : gmap string string) :
  Sync._download_all self n d = (trace, r) → st ∈ trace →
  ∃ pup vps,
    Sync.puplookup_response (Sync.client self) = Some pup
    ∧ Sync.vpsdb_response (Sync.client self) = Some vps
    ∧ (st !! path_join (Sync.data_dir self) "puplookup.csv"
       = d !! path_join (Sync.data_dir self) "puplookup.csv"
       ∨ st !! path_join (Sync.data_dir self) "puplookup.csv" = Some pup)
    ∧ (st !! path_join (Sync.data_dir self) "vpsdb.json"
       = d !! path_join (Sync.data_dir self) "vpsdb.json"
       ∨ st !! path_join (Sync.data_dir self) "vpsdb.json" = Some vps)
    ∧ (st !! path_join (Sync.data_dir self) "lastUpdated.json"
       = d !! path_join (Sync.data_dir self) "lastUpdated.json"
       ∨ st !! path_join (Sync.data_dir self) "puplookup.csv" = Some pup
         ∧ st !! path_join (Sync.data_dir self) "vpsdb.json" = Some vps).
Proof.
  intros H Hst.
  destruct (download_all_cases self n d)
    as [(pup & vps & Hp & Hv & E) | [_ E]]; rewrite E in H;
    injection H as <- <-; [|by apply elem_of_nil in Hst].
  exists pup, vps. split_and!; [done..| | |];
    unfold download_states in Hst;
    repeat (apply elem_of_cons in Hst as [-> | Hst]);
    try (by apply elem_of_nil in Hst);
    map_lookup; auto.
Qed.

Lemma digits_within (n : Z) (k : nat) :
  1 ≤ k → (Z.abs n < 10 ^ Z.of_nat k)%Z →
  String.length (pretty (Z.abs_N n)) ≤ k.
Proof.
  intros Hk Hn.
  destruct (pretty_N_digits (Z.abs_N n)) as (d & -> & _ & _ & _ & Hlen).
  destruct (decide (String.length d ≤ k)) as [|Hgt]; [done|]. exfalso.
  assert (10 ^ Z.of_nat (S k) ≤ 10 ^ Z.of_nat (String.length d))%Z as Hpow
    by (apply Z.pow_le_mono_r; lia).
  replace (Z.of_nat (S k)) with (Z.succ (Z.of_nat k)) in Hpow by lia.
  rewrite Z.pow_succ_r in Hpow by lia.
  assert (10 ^ 1 ≤ 10 ^ Z.of_nat k)%Z as H1 by (apply Z.pow_le_mono_r; lia).
  change (10 ^ 1)%Z with 10%Z in H1.
  revert Hn Hlen Hpow H1.
  generalize (10 ^ Z.of_nat k)%Z (10 ^ Z.of_nat (String.length d))%Z.
  lia.
Qed.

Lemma int_body_lt negative body n :
  int_body negative body = Some n →
  (Z.abs n < 10 ^ Z.of_nat MAX_STR_DIGITS)%Z.
Proof.
  destruct body as [|c r]; [done|]. cbn [int_body].
  destruct (Py.isdigit c) eqn:Hc; [|done].
  destruct (int_digits _ _ _ _) as [[v count]|] eqn:Hd; [|done].
  destruct (decide _) as [|Hcount]; [done|]. intros [= <-].
  apply int_digits_bound in Hd as [Hv Hc1];
    [|pose proof (digit_of_range c Hc); change (10 ^ Z.of_nat 1)%Z with 10%Z; lia].
  assert (10 ^ Z.of_nat count ≤ 10 ^ Z.of_nat MAX_STR_DIGITS)%Z
    by (apply Z.pow_le_mono_r; lia).
  destruct negative; lia.
Qed.

Lemma int_of_stripped_lt t n :
  int_of_stripped t = Some n → (Z.abs n < 10 ^ Z.of_nat MAX_STR_DIGITS)%Z.
Proof.
  destruct t as [|c r]; [done|]. rewrite int_of_stripped_cons.
  repeat case_decide; apply int_body_lt.
Qed.

Lemma int_of_str_of_int_lt n :
  (Z.abs n < 10 ^ Z.of_nat MAX_STR_DIGITS)%Z →
  int_of_stripped (Py.strip (Py.str_of_int n)) = Some n.
Proof.
  intros H. rewrite str_of_int_stripped. apply int_of_str_of_int.
  apply digits_within; [unfold MAX_STR_DIGITS; lia | done].
Qed.

Lemma local_epoch_read self n d :
  d !! Sync._local_last_updated_path self = Some (utf8 (Py.str_of_int n)) →
  (Z.abs n < 10 ^ Z.of_nat MAX_STR_DIGITS)%Z →
  Sync._local_epoch_ms self d = n.
Proof.
  intros Hd Hn. unfold Sync._local_epoch_ms, Sync.file_exists, Sync.read_text.
  rewrite Hd, bool_decide_eq_true_2 by done. cbn [negb].
  by rewrite utf8_decode_utf8, int_of_str_of_int_lt.
Qed.

(** X18: the local timestamp is read back as it was written, for every
    integer of at most [MAX_STR_DIGITS] digits. *)
Theorem local_epoch_round_trip
    (self : Sync.SyncService) (n : Z) (d : gmap string string) :
  (Z.abs n < 10 ^ Z.of_nat MAX_STR_DIGITS)%Z →
  Sync._local_epoch_ms self
    (Sync.last_state d
       (Sync.write_text (Sync._local_last_updated_path self)
                        (Py.str_of_int n) d).1)
  = n.
Proof.
  intros Hn. apply local_epoch_read; [|done].
  unfold Sync.write_text. cbn [fst]. rewrite last_state_two.
  apply lookup_insert_eq.
Qed.


Lemma check_and_sync_cases self d :
  match Sync.fetch_last_updated_epoch_ms (Sync.client self) with
  | Sync.Failed e => Sync.check_and_sync self d = ([], Sync.Failed e)
  | Sync.Got n =>
      Sync.check_and_sync self d =
        if fresh self n d then
          ([], Sync.Got {| Sync.updated := false; Sync.remote_epoch_ms := n;
                           Sync.local_epoch_ms := Sync._local_epoch_ms self d |})
        else
          ((Sync._download_all self n d).1,
           match (Sync._download_all self n d).2 with
           | Sync.Got _ =>
               Sync.Got {| Sync.updated := true; Sync.remote_epoch_ms := n;
                           Sync.local_epoch_ms := Sync._local_epoch_ms self d |}
           | Sync.Failed e => Sync.Failed e
           end)
  end.
Proof.
  unfold Sync.check_and_sync, fresh, mbind, Sync.io_bind, Sync.pure, mret,
    Sync.io_ret.
  destruct (Sync.fetch_last_updated_epoch_ms _) as [n|e]; [|done].
  cbn [forallb Sync.last_state last default app].
  change Sync.PUPLOOKUP_LOCAL_NAME with "puplookup.csv".
  change Sync.VPSDB_LOCAL_NAME with "vpsdb.json".
  destruct (Sync.file_exists (path_join _ "puplookup.csv") d),
    (Sync.file_exists (path_join _ "vpsdb.json") d),
    (Sync._local_epoch_ms self d <? n)%Z; cbn [andb negb];
    try done;
    destruct (Sync._download_all self n d) as [t [[]|e]]; cbn [fst snd];
    by rewrite ?app_nil_r.
Qed.

Lemma ensure_local_cache_cases self d :
  Sync.ensure_local_cache self d =
    if Sync.file_exists (path_join (Sync.data_dir self) "puplookup.csv") d
       && Sync.file_exists (path_join (Sync.data_dir self) "vpsdb.json") d
       && Sync.file_exists (path_join (Sync.data_dir self) "lastUpdated.json") d
    then ([], Sync.Got ())
    else
      match Sync.fetch_last_updated_epoch_ms (Sync.client self) with
      | Sync.Got n => Sync._download_all self n d
      | Sync.Failed e => ([], Sync.Failed e)
      end.
Proof.
  unfold Sync.ensure_local_cache, mbind, Sync.io_bind, Sync.pure.
  cbn [forallb Sync.last_state last default app].
  change Sync.PUPLOOKUP_LOCAL_NAME with "puplookup.csv".
  change Sync.VPSDB_LOCAL_NAME with "vpsdb.json".
  change Sync.LAST_UPDATED_LOCAL_NAME with "lastUpdated.json".
  destruct (Sync.file_exists (path_join _ "puplookup.csv") d),
    (Sync.file_exists (path_join _ "vpsdb.json") d),
    (Sync.file_exists (path_join _ "lastUpdated.json") d); cbn [andb negb];
    try done;
    destruct (Sync.fetch_last_updated_epoch_ms _) as [n|e]; try done;
    by destruct (Sync._download_all self n d).
Qed.

Lemma download_all_failure self n d e :
  (Sync._download_all self n d).2 = Sync.Failed e →
  (Sync._download_all self n d).1 = [] ∧ e = Sync.RemoteFetchError.
Proof.
  destruct (download_all_cases self n d) as [(? & ? & _ & _ & E) | [_ E]];
    rewrite E; [done|]. by intros [= <-].
Qed.

Lemma fetch_epoch_failure client e :
  Sync.fetch_last_updated_epoch_ms client = Sync.Failed e →
  e = Sync.RemoteFetchError ∨ e = Sync.ValueError.
Proof.
  unfold Sync.fetch_last_updated_epoch_ms, Sync.http_get.
  destruct (Sync.last_updated_response client); cbn [mbind Sync.attempt_bind].
  - destruct (int_of_stripped _); [done|]. intros [= <-]. by right.
  - intros [= <-]. by left.
Qed.

(** X20: a sync that fails on the remote has written nothing: every
    request precedes the first write.  (The writes are modelled as they go
    through, so that the failures here are those of the requests and of
    the conversion of the timestamp.) *)
Theorem sync_failure_writes_nothing
    (self : Sync.SyncService) (d : gmap string string) (e : Sync.exn) :
  (∀ n, (Sync._download_all self n d).2 = Sync.Failed e →
        (Sync._download_all self n d).1 = [] ∧ e = Sync.RemoteFetchError)
  ∧ ((Sync.check_and_sync self d).2 = Sync.Failed e →
     (Sync.check_and_sync self d).1 = []
     ∧ (e = Sync.RemoteFetchError ∨ e = Sync.ValueError))
  ∧ ((Sync.ensure_local_cache self d).2 = Sync.Failed e →
     (Sync.ensure_local_cache self d).1 = []
     ∧ (e = Sync.RemoteFetchError ∨ e = Sync.ValueError)).
Proof.
  split_and!.
  - intros n. apply download_all_failure.
  - pose proof (check_and_sync_cases self d) as H.
    destruct (Sync.fetch_last_updated_epoch_ms _) as [n|e'] eqn:Hf; rewrite H.
    + destruct (fresh self n d); [done|]. cbn [fst snd].
      destruct (Sync._download_all self n d).2 eqn:E; [done|].
      intros [= ->]. apply download_all_failure in E as [? ->]. auto.
    + intros [= ->]. split; [done|]. by apply (fetch_epoch_failure _ _ Hf).
  - rewrite ensure_local_cache_cases. destruct (_ && _); [done|].
    destruct (Sync.fetch_last_updated_epoch_ms _) as [n|e'] eqn:Hf.
    + intros E. apply download_all_failure in E as [? ->]. auto.
    + intros [= ->]. split; [done|]. by apply (fetch_epoch_failure _ _ Hf).
Qed.

(** X21: a check that returns has read the remote timestamp and the local
    one, has downloaded exactly when a data file was missing or the local
    timestamp was older, and then leaves the cache filled with what the
    remote sent; otherwise it has written nothing. *)
Theorem check_and_sync_outcome
    (self : Sync.SyncService) (d : gmap string string)
    (trace : list (gmap string string)) (r : Sync.SyncResult) :
  Sync.check_and_sync self d = (trace, Sync.Got r) →
  Sync.fetch_last_updated_epoch_ms (Sync.client self)
  = Sync.Got (Sync.remote_epoch_ms r)
  ∧ Sync.local_epoch_ms r = Sync._local_epoch_ms self d
  ∧ Sync.updated r = negb (fresh self (Sync.remote_epoch_ms r) d)
  ∧ if Sync.updated r
    then ∃ pup vps,
           Sync.puplookup_response (Sync.client self) = Some pup
           ∧ Sync.vpsdb_response (Sync.client self) = Some vps
           ∧ cached (Sync.data_dir self) pup vps (Sync.remote_epoch_ms r)
                    (Sync.last_state d trace)
    else trace = [].
Proof.
  pose proof (check_and_sync_cases self d) as H.
  destruct (Sync.fetch_last_updated_epoch_ms _) as [n|e'] eqn:Hf; rewrite H;
    [|done].
  destruct (fresh self n d) eqn:Hfresh.
  - intros [= <- <-]. cbn. by rewrite Hfresh.
  - destruct (download_all_cases self n d)
      as [(pup & vps & Hp & Hv & E) | [_ E]]; rewrite E; [|done].
    cbn [fst snd]. intros [= <- <-]. cbn. rewrite Hfresh.
    split_and!; [done..|]. exists pup, vps. split_and!; [done..|].
    apply download_states_cached.
Qed.

(** X22: a second check, against the same remote, of the disk that a check
    leaves downloads nothing: it reports no update, and the remote
    timestamp as the local one after a download. *)
Theorem check_and_sync_settles
    (self : Sync.SyncService) (d : gmap string string)
    (trace : list (gmap string string)) (r : Sync.SyncResult) :
  Sync.check_and_sync self d = (trace, Sync.Got r) →
  Sync.check_and_sync self (Sync.last_state d trace)
  = ([], Sync.Got {| Sync.updated := false;
                     Sync.remote_epoch_ms := Sync.remote_epoch_ms r;
                     Sync.local_epoch_ms :=
                       if Sync.updated r then Sync.remote_epoch_ms r
                       else Sync.local_epoch_ms r |}).
Proof.
  pose proof (check_and_sync_cases self d) as H.
  pose proof (check_and_sync_cases self (Sync.last_state d trace)) as H'.
  destruct (Sync.fetch_last_updated_epoch_ms _) as [n|e'] eqn:Hf; rewrite H;
    [|done].
  rewrite H'. clear H H'.
  destruct (fresh self n d) eqn:Hfresh.
  - intros [= <- <-]. cbn. by rewrite Hfresh.
  - destruct (download_all_cases self n d)
      as [(pup & vps & Hp & Hv & E) | [_ E]]; rewrite E; [|done].
    cbn [fst snd]. intros [= <- <-]. cbn [Sync.updated Sync.remote_epoch_ms].
    destruct (download_states_cached (Sync.data_dir self) pup vps n d)
      as (Hc1 & Hc2 & Hc3).
    assert (Sync._local_epoch_ms self
              (Sync.last_state d
                 (download_states (Sync.data_dir self) pup vps n d)) = n) as Hl.
    { apply local_epoch_read; [done|].
      unfold Sync.fetch_last_updated_epoch_ms in Hf.
      destruct (Sync.http_get _); [|done]. cbn [mbind Sync.attempt_bind] in Hf.
      destruct (int_of_stripped _) as [m|] eqn:Hm; [|done].
      injection Hf as ->. by apply int_of_stripped_lt in Hm. }
    unfold fresh, Sync.file_exists. rewrite Hc1, Hc2, Hl, Z.ltb_irrefl.
    by rewrite !bool_decide_eq_true_2 by done.
Qed.

(** X23: [ensure_local_cache] sends no request and writes nothing when the
    three files exist, and when it returns the three files exist. *)
Theorem ensure_local_cache_effect
    (self : Sync.SyncService) (d : gmap string string) :
  (is_Some (d !! path_join (Sync.data_dir self) "puplookup.csv") →
   is_Some (d !! path_join (Sync.data_dir self) "vpsdb.json") →
   is_Some (d !! path_join (Sync.data_dir self) "lastUpdated.json") →
   Sync.ensure_local_cache self d = ([], Sync.Got ()))
  ∧ ∀ trace,
      Sync.ensure_local_cache self d = (trace, Sync.Got ()) →
      is_Some (Sync.last_state d trace
               !! path_join (Sync.data_dir self) "puplookup.csv")
      ∧ is_Some (Sync.last_state d trace
                 !! path_join (Sync.data_dir self) "vpsdb.json")
      ∧ is_Some (Sync.last_state d trace
                 !! path_join (Sync.data_dir self) "lastUpdated.json").
Proof.
  rewrite ensure_local_cache_cases. unfold Sync.file_exists. split.
  - intros H1 H2 H3. by rewrite !bool_decide_eq_true_2 by done.
  - intros trace.
    destruct (_ && _) eqn:Hall.
    + intros [= <-]. apply andb_true_iff in Hall as [Hall H3].
      apply andb_true_iff in Hall as [H1 H2].
      apply bool_decide_eq_true in H1, H2, H3. done.
    + destruct (Sync.fetch_last_updated_epoch_ms _) as [n|e']; [|done].
      intros H.
      destruct (download_all_cases self n d)
        as [(pup & vps & Hp & Hv & E) | [_ E]]; rewrite E in H; [|done].
      injection H as <-.
      destruct (download_states_cached (Sync.data_dir self) pup vps n d)
        as (Hc1 & Hc2 & Hc3).
      rewrite Hc1, Hc2, Hc3. done.
Qed.

End Cache.

Lemma build_indexes_complete_witness :
  is_Some (_build_indexes example_vpsdb !! "abc12345")
  ∧ is_Some (_build_master_map example_vpsdb !! "abc12345").
Proof.
  apply (build_indexes_complete example_vpsdb example_game 0 example_table_file
           "abc12345").
  - apply list_elem_of_here.
  - reflexivity.
  - reflexivity.
  - discriminate.
Defined.

Lemma download_all_effect_witness :
  ∃ pup vps,
    Sync.puplookup_response (Sync.client example_sync) = Some pup
    ∧ Sync.vpsdb_response (Sync.client example_sync) = Some vps
    ∧ cached (Sync.data_dir example_sync) pup vps 1700000000123
        (Sync.last_state example_disk
           (download_states "/data" "GameFileName,GameName" "[]" 1700000000123
                            example_disk))
    ∧ Sync.last_state example_disk
        (download_states "/data" "GameFileName,GameName" "[]" 1700000000123
                         example_disk)
      !! path_join (Sync.data_dir example_sync) "puplookup.csv.tmp" = None
    ∧ Sync.last_state example_disk
        (download_states "/data" "GameFileName,GameName" "[]" 1700000000123
                         example_disk)
      !! path_join (Sync.data_dir example_sync) "vpsdb.json.tmp" = None
    ∧ ∀ q, q ∉ path_join (Sync.data_dir example_sync) <$> cache_names →
           Sync.last_state example_disk
             (download_states "/data" "GameFileName,GameName" "[]"
                              1700000000123 example_disk)
           !! q = example_disk !! q.
Proof.
  apply (download_all_effect example_sync 1700000000123 example_disk
           (download_states "/data" "GameFileName,GameName" "[]" 1700000000123
                            example_disk)).
  reflexivity.
Defined.

Lemma download_all_timestamp_last_witness :
  ∃ pup vps,
    Sync.puplookup_response (Sync.client example_sync) = Some pup
    ∧ Sync.vpsdb_response (Sync.client example_sync) = Some vps
    ∧ (<["/data/puplookup.csv.tmp" := ""]> example_disk
       !! path_join (Sync.data_dir example_sync) "puplookup.csv"
       = example_disk !! path_join (Sync.data_dir example_sync) "puplookup.csv"
       ∨ <["/data/puplookup.csv.tmp" := ""]> example_disk
         !! path_join (Sync.data_dir example_sync) "puplookup.csv" = Some pup)
    ∧ (<["/data/puplookup.csv.tmp" := ""]> example_disk
       !! path_join (Sync.data_dir example_sync) "vpsdb.json"
       = example_disk !! path_join (Sync.data_dir example_sync) "vpsdb.json"
       ∨ <["/data/puplookup.csv.tmp" := ""]> example_disk
         !! path_join (Sync.data_dir example_sync) "vpsdb.json" = Some vps)
    ∧ (<["/data/puplookup.csv.tmp" := ""]> example_disk
       !! path_join (Sync.data_dir example_sync) "lastUpdated.json"
       = example_disk !! path_join (Sync.data_dir example_sync) "lastUpdated.json"
       ∨ <["/data/puplookup.csv.tmp" := ""]> example_disk
         !! path_join (Sync.data_dir example_sync) "puplookup.csv" = Some pup
         ∧ <["/data/puplookup.csv.tmp" := ""]> example_disk
           !! path_join (Sync.data_dir example_sync) "vpsdb.json" = Some vps).
Proof.
  apply (download_all_timestamp_last example_sync 1700000000123 example_disk
           (download_states "/data" "GameFileName,GameName" "[]" 1700000000123
                            example_disk)
           (Sync.Got ())
           (<["/data/puplookup.csv.tmp" := ""]> example_disk)).
  - reflexivity.
  - apply list_elem_of_here.
Defined.

Lemma local_epoch_round_trip_witness :
  Sync._local_epoch_ms example_sync
    (Sync.last_state ∅
       (Sync.write_text (Sync._local_last_updated_path example_sync)
                        (Py.str_of_int 1700000000123) ∅).1)
  = 1700000000123%Z.
Proof.
  apply (local_epoch_round_trip example_sync 1700000000123 ∅).
  by vm_compute.
Defined.

Lemma check_and_sync_outcome_witness :
  Sync.fetch_last_updated_epoch_ms (Sync.client example_sync)
  = Sync.Got 1700000000123%Z
  ∧ 1700000000000%Z = Sync._local_epoch_ms example_sync example_disk
  ∧ true = negb (fresh example_sync 1700000000123 example_disk)
  ∧ ∃ pup vps,
      Sync.puplookup_response (Sync.client example_sync) = Some pup
      ∧ Sync.vpsdb_response (Sync.client example_sync) = Some vps
      ∧ cached (Sync.data_dir example_sync) pup vps 1700000000123
          (Sync.last_state example_disk
             (download_states "/data" "GameFileName,GameName" "[]"
                              1700000000123 example_disk)).
Proof.
  apply (check_and_sync_outcome example_sync example_disk
           (download_states "/data" "GameFileName,GameName" "[]" 1700000000123
                            example_disk)
           {| Sync.updated := true; Sync.remote_epoch_ms := 1700000000123;
              Sync.local_epoch_ms := 1700000000000 |}).
  reflexivity.
Defined.

Lemma check_and_sync_settles_witness :
  Sync.check_and_sync example_sync
    (Sync.last_state example_disk
       (download_states "/data" "GameFileName,GameName" "[]" 1700000000123
                        example_disk))
  = ([], Sync.Got {| Sync.updated := false;
                     Sync.remote_epoch_ms := 1700000000123;
                     Sync.local_epoch_ms := 1700000000123 |}).
Proof.
  apply (check_and_sync_settles example_sync example_disk
           (download_states "/data" "GameFileName,GameName" "[]" 1700000000123
                            example_disk)
           {| Sync.updated := true; Sync.remote_epoch_ms := 1700000000123;
              Sync.local_epoch_ms := 1700000000000 |}).
  reflexivity.
Defined.

(** A remote that does not answer: a check fails and writes nothing, and
    [ensure_local_cache] returns without a request when the cache is
    there. *)
Example offline_cache :
  Sync.check_and_sync offline_sync example_disk
  = ([], Sync.Failed Sync.RemoteFetchError)
  ∧ Sync.ensure_local_cache offline_sync example_disk = ([], Sync.Got ())
  ∧ Sync.ensure_local_cache offline_sync ∅
    = ([], Sync.Failed Sync.RemoteFetchError).
Proof. split_and!; reflexivity. Qed.
